(** * nuki_hub: the MQTT configuration client (hph/nuki_mqtt_config.py)

    A shallow embedding of [NukiConfigClient] (the request correlator
    [update_config], the discovery session [wait_for_ip] and the message
    handler [on_message]), of the settings loop of [main] (the coercer) and of
    [fetch_coredump], with the properties the specification states about
    them; then of [main] as a whole and of the coredump converter
    (hph/convert_coredump.py), with properties read off the code.

    Modelling conventions.
    - A Python [str] is a Rocq [string]; text outside ASCII is held as its
      UTF-8 bytes.  [msg.payload.decode("utf-8")] is taken as done: a
      [BusMessage] carries the decoded text.
    - [self.client] (the paho client) is the list of the calls made on it,
      oldest first; standard output is the list of the printed lines.
    - The handler [on_message] runs on the transport's thread.  The caller
      observes its effect when it reads [self.response] or
      [self.ip_address] in a polling loop, so the environment of a call is a
      list of polls: the messages delivered since the previous read, and the
      clock reading [time.time()] of that iteration.
    - Clock readings are rationals (seconds); the rounding of float
      subtraction is not modelled.
    - [int], [str.lower], [json.loads] and [json.dumps] belong to the Python
      runtime, not to the repository; they are modelled after CPython 3.11,
      with its cap on the number of digits [int] converts (4300).  The
      recursion limit of the interpreter is not modelled: statements about
      a decoded payload are for payloads nested less deeply than it allows.
    - What the programs meet outside themselves (the answers of the HTTP
      server, the failures of [open] and [write]) is a parameter of the
      function that meets it. *)

From Stdlib Require Import String Ascii List ZArith NArith QArith Bool Lia.
From Stdlib Require Import DecimalString DecimalPos.
Import ListNotations.

Local Open Scope string_scope.
Local Open Scope list_scope.

(** ** Python text primitives *)

Module Py.

Definition code (c : ascii) : N := N_of_ascii c.

Definition isdigit (c : ascii) : bool :=
  (48 <=? code c)%N && (code c <=? 57)%N.

(** [Py_ISSPACE]: tab, line feed, vertical tab, form feed, carriage return
    and space. *)
Definition isspace (c : ascii) : bool :=
  ((9 <=? code c)%N && (code c <=? 13)%N) || (code c =? 32)%N.

Definition digit_value (c : ascii) : Z := Z.of_N (code c) - 48.

(** The default of [sys.int_max_str_digits] (CPython 3.11 and later): the
    most digits [int] converts from a text. *)
Definition max_str_digits : nat := 4300.

Definition lower_char (c : ascii) : ascii :=
  if (65 <=? code c)%N && (code c <=? 90)%N
  then ascii_of_N (code c + 32)
  else c.

(** [str.lower] (on the ASCII letters; a byte of a UTF-8 sequence is left as
    it is, and no character outside ASCII lowers to a letter of "true" or
    "false"). *)
Fixpoint lower (s : string) : string :=
  match s with
  | EmptyString => EmptyString
  | String c r => String (lower_char c) (lower r)
  end.

Fixpoint lstrip (s : string) : string :=
  match s with
  | EmptyString => EmptyString
  | String c r => if isspace c then lstrip r else s
  end.

(** The digit scan of [PyLong_FromString] in base 10: digits, with single
    underscores allowed between two digits.  [prev_us] tells that the
    previous character was an underscore.  Returns the value read and the
    text left. *)
Fixpoint scan_digits (acc : Z) (prev_us : bool) (s : string)
  : option (Z * string) :=
  match s with
  | EmptyString => if prev_us then None else Some (acc, EmptyString)
  | String c r =>
      if isdigit c then scan_digits (10 * acc + digit_value c) false r
      else if (code c =? 95)%N then
        if prev_us then None else scan_digits acc true r
      else if prev_us then None else Some (acc, s)
  end.

Definition starts_with_digit (s : string) : bool :=
  match s with
  | String c _ => isdigit c
  | EmptyString => false
  end.

(** What follows the optional sign: at least one digit first, then the digit
    scan, then only white space. *)
Definition int_unsigned (s : string) : option Z :=
  if starts_with_digit s then
    match scan_digits 0 false s with
    | Some (n, rest) =>
        match lstrip rest with
        | EmptyString => Some n
        | _ => None
        end
    | None => None
    end
  else None.

(** [PyLong_FromString] in base 10, on ASCII text: [Some n] for the
    integer read, [None] for [ValueError].  Leading white space is skipped,
    then an optional sign (codes 43 and 45). *)
Definition long_from_string (s : string) : option Z :=
  match lstrip s with
  | String c r =>
      if (code c =? 43)%N then int_unsigned r
      else if (code c =? 45)%N then option_map Z.opp (int_unsigned r)
      else int_unsigned (String c r)
  | EmptyString => None
  end.

(** The code points of a text from its UTF-8 bytes.  A byte that starts no
    complete sequence (a Python [str] has none) is read as U+FFFD, which is
    neither white space nor a digit. *)
Fixpoint code_points (s : string) : list N :=
  match s with
  | EmptyString => []
  | String c1 r1 =>
      let b1 := code c1 in
      if (b1 <? 128)%N then b1 :: code_points r1
      else if (b1 <? 192)%N then 65533%N :: code_points r1
      else
        match r1 with
        | EmptyString => [65533%N]
        | String c2 r2 =>
            if (b1 <? 224)%N then
              ((b1 mod 32) * 64 + code c2 mod 64)%N :: code_points r2
            else
              match r2 with
              | EmptyString => 65533%N :: code_points r1
              | String c3 r3 =>
                  if (b1 <? 240)%N then
                    (((b1 mod 16) * 64 + code c2 mod 64) * 64 + code c3 mod 64)%N
                    :: code_points r3
                  else
                    match r3 with
                    | EmptyString => 65533%N :: code_points r1
                    | String c4 r4 =>
                        ((((b1 mod 8) * 64 + code c2 mod 64) * 64
                          + code c3 mod 64) * 64 + code c4 mod 64)%N
                        :: code_points r4
                    end
              end
        end
  end.

(** [Py_UNICODE_ISSPACE] *)
Definition unicode_isspace (c : N) : bool :=
  (((9 <=? c) && (c <=? 13)) || ((28 <=? c) && (c <=? 32))
   || (c =? 133) || (c =? 160) || (c =? 5760)
   || ((8192 <=? c) && (c <=? 8202))
   || (c =? 8232) || (c =? 8233) || (c =? 8239) || (c =? 8287)
   || (c =? 12288))%N.

(** The digits zero of the scripts of Unicode 14.0 outside ASCII (the
    version of CPython 3.11): each is followed by its digits one to
    nine. *)
Definition decimal_zeros : list N :=
  [1632; 1776; 1984; 2406; 2534; 2662; 2790; 2918; 3046; 3174; 3302; 3430;
   3558; 3664; 3792; 3872; 4160; 4240; 6112; 6160; 6470; 6608; 6784; 6800;
   6992; 7088; 7232; 7248; 42528; 43216; 43264; 43472; 43504; 43600; 44016;
   65296; 66720; 68912; 69734; 69872; 69942; 70096; 70384; 70736; 70864;
   71248; 71360; 71472; 71904; 72016; 72784; 73040; 73120; 92768; 92864;
   93008; 120782; 120792; 120802; 120812; 120822; 123200; 123632; 125264;
   130032]%N.

(** [Py_UNICODE_TODECIMAL] outside ASCII. *)
Definition unicode_todecimal (c : N) : option N :=
  match find (fun z => (z <=? c) && (c <=? z + 9))%N decimal_zeros with
  | Some z => Some (c - z)%N
  | None => None
  end.

(** [PyUnicode_IS_ASCII]: every character is below 128, that is every byte
    of the UTF-8 text. *)
Fixpoint is_ascii (s : string) : bool :=
  match s with
  | EmptyString => true
  | String c r => (code c <? 128)%N && is_ascii r
  end.

(** One character of [_PyUnicode_TransformDecimalAndSpaceToASCII]: white
    space becomes a space, a decimal digit the ASCII digit of its value, any
    other character outside ASCII a question mark. *)
Definition transform_char (c : N) : ascii :=
  if (c <? 127)%N then ascii_of_N c
  else if unicode_isspace c then " "%char
  else match unicode_todecimal c with
       | Some d => ascii_of_N (48 + d)
       | None => "?"%char
       end.

(** [_PyUnicode_TransformDecimalAndSpaceToASCII]: an ASCII text is left as
    it is.  (The original stops at the first question mark it writes; what
    follows one plays no part, the text being refused.) *)
Definition to_ascii_decimal (s : string) : string :=
  if is_ascii s then s
  else string_of_list_ascii (map transform_char (code_points s)).

Fixpoint count_digits (s : string) : nat :=
  match s with
  | EmptyString => O
  | String c r => if isdigit c then S (count_digits r) else count_digits r
  end.

(** [int(s)] for a string [s]: [Some n] for the integer read, [None] for
    [ValueError].  The text is made ASCII, then read by [PyLong_FromString],
    which refuses more than [max_str_digits] digits; it refuses them while
    it scans, well formed or not, so the digits are counted over the whole
    text. *)
Definition int (s : string) : option Z :=
  let t := to_ascii_decimal s in
  if (max_str_digits <? count_digits t)%nat then None
  else long_from_string t.

(** [str(n)] for an integer (of at most [max_str_digits] digits: [str]
    has the limit of [int]). *)
Definition str_of_int (n : Z) : string := NilZero.string_of_int (Z.to_int n).

(** [s.endswith(suffix)] *)
Definition endswith (s suffix : string) : bool :=
  let n := String.length s in
  let k := String.length suffix in
  (k <=? n)%nat && String.eqb (substring (n - k) k s) suffix.

(** [sep in s] and [s.split(sep, 1)] for a one-character separator: the text
    before the first [sep] and the text after it; [None] when [s] has no
    [sep]. *)
Fixpoint split_once (sep : ascii) (s : string) : option (string * string) :=
  match s with
  | EmptyString => None
  | String c r =>
      if Ascii.eqb c sep then Some (EmptyString, r)
      else match split_once sep r with
           | Some (k, v) => Some (String c k, v)
           | None => None
           end
  end.

(** Truth value of [x] for [x] a string or [None]. *)
Definition truthy (x : option string) : bool :=
  match x with
  | Some (String _ _) => true
  | _ => false
  end.

End Py.

(** ** The coercer: the settings loop of [main] *)

(** The values [main] stores in [config_data]: an [int] (read by [int],
    hence of at most 4300 digits), a [bool] or the text itself. *)
Inductive ConfigValue : Type :=
  | Integer (n : Z)
  | Boolean (b : bool)
  | String_ (s : string).

(** A Python [dict] with string keys: the items in insertion order.
    [d[k] = v] replaces the value of an existing key in place and appends a
    new key at the end. *)
Definition dict (V : Type) : Type := list (string * V).

Fixpoint dict_set {V : Type} (d : dict V) (k : string) (v : V) : dict V :=
  match d with
  | [] => [(k, v)]
  | (k', v') :: r =>
      if String.eqb k' k then (k', v) :: r else (k', v') :: dict_set r k v
  end.

Fixpoint dict_get {V : Type} (d : dict V) (k : string) : option V :=
  match d with
  | [] => None
  | (k', v') :: r => if String.eqb k' k then Some v' else dict_get r k
  end.

(** [key in keys] for a list of strings. *)
Definition contains (keys : list string) (key : string) : bool :=
  existsb (String.eqb key) keys.

Definition LOCK_CONFIG_KEYS_basic : list string :=
  [ "name"; "latitude"; "longitude"; "autoUnlatch"; "pairingEnabled";
    "buttonEnabled"; "ledEnabled"; "ledBrightness"; "timeZoneOffset";
    "dstMode"; "fobAction1"; "fobAction2"; "fobAction3"; "singleLock";
    "advertisingMode"; "timeZone" ].

Definition LOCK_CONFIG_KEYS_advanced : list string :=
  [ "unlockedPositionOffsetDegrees"; "lockedPositionOffsetDegrees";
    "singleLockedPositionOffsetDegrees";
    "unlockedToLockedTransitionOffsetDegrees";
    "lockNgoTimeout"; "singleButtonPressAction"; "doubleButtonPressAction";
    "detachedCylinder"; "batteryType"; "automaticBatteryTypeDetection";
    "unlatchDuration"; "autoLockTimeOut"; "autoUnLockDisabled";
    "nightModeEnabled"; "nightModeStartTime"; "nightModeEndTime";
    "nightModeAutoLockEnabled"; "nightModeAutoUnlockDisabled";
    "nightModeImmediateLockOnStart"; "autoLockEnabled";
    "immediateAutoLockEnabled"; "autoUpdateEnabled"; "rebootNuki";
    "motorSpeed"; "enableSlowSpeedDuringNightMode"; "recalibrateNuki" ].

Definition OPENER_CONFIG_KEYS_basic : list string :=
  [ "name"; "latitude"; "longitude"; "pairingEnabled"; "buttonEnabled";
    "ledFlashEnabled"; "timeZoneOffset"; "dstMode"; "fobAction1";
    "fobAction2"; "fobAction3"; "operatingMode"; "advertisingMode";
    "timeZone" ].

Definition OPENER_CONFIG_KEYS_advanced : list string :=
  [ "intercomID"; "busModeSwitch"; "shortCircuitDuration";
    "electricStrikeDelay"; "randomElectricStrikeDelay";
    "electricStrikeDuration"; "disableRtoAfterRing"; "rtoTimeout";
    "doorbellSuppression"; "doorbellSuppressionDuration"; "soundRing";
    "soundOpen"; "soundRto"; "soundCm"; "soundConfirmation"; "soundLevel";
    "singleButtonPressAction"; "doubleButtonPressAction"; "batteryType";
    "automaticBatteryTypeDetection"; "rebootNuki"; "recalibrateNuki" ].

Definition HUB_CONFIG_KEYS : list string :=
  [ "dhcpena"; "ipaddr"; "ipsub"; "ipgtw"; "dnssrv"; "hostname"; "wifiSSID";
    "wifiPass";
    "mqttlog"; "mqtt_lock_path";
    "authmaxentry"; "authInfoEna"; "authPerEntry"; "cred_user";
    "cred_password";
    "kpmaxentry"; "kpInfoEnabled"; "kpPerEntry"; "kpPubCode";
    "tcmaxentry"; "tcPerEntry"; "tcInfoEnabled";
    "pubAuth"; "cnfInfoEnabled";
    "lockStInterval"; "configInterval"; "batInterval"; "kpInterval";
    "nrRetry"; "rtryDelay"; "hybridTimer"; "rssipb"; "nettmout";
    "regAsApp"; "regOpnAsApp"; "bleTxPwr"; "checkupdates"; "openercont";
    "webserver_enabled" ].

(** [valid_keys] as [main] computes it from [args.target] (lines 278-284). *)
Definition valid_keys (target : string) : list string :=
  if String.eqb target "lock" then
    LOCK_CONFIG_KEYS_basic ++ LOCK_CONFIG_KEYS_advanced
  else if String.eqb target "opener" then
    OPENER_CONFIG_KEYS_basic ++ OPENER_CONFIG_KEYS_advanced
  else if String.eqb target "hub" then HUB_CONFIG_KEYS
  else [].

(** The conversion of one value (lines 298-306): [int(value)] first; on
    [ValueError] the two booleans by [value.lower()]; else the text. *)
Definition coerce_value (value : string) : ConfigValue :=
  match Py.int value with
  | Some n => Integer n
  | None =>
      if String.eqb (Py.lower value) "true" then Boolean true
      else if String.eqb (Py.lower value) "false" then Boolean false
      else String_ value
  end.

Definition warning_unknown_key (key target : string) : string :=
  "Warning: '" ++ key ++ "' might not be a valid setting for " ++ target.

Definition warning_ignored (setting : string) : string :=
  "Ignored invalid setting '" ++ setting ++ "'. Must be key=value".

(** One iteration of the loop over [args.settings] (lines 289-308), on the
    dictionary built so far and the lines printed so far. *)
Definition parse_setting (target : string)
    (acc : dict ConfigValue * list string) (setting : string)
  : dict ConfigValue * list string :=
  let (config_data, out) := acc in
  match Py.split_once "=" setting with
  | Some (key, value) =>
      let out' :=
        if negb (String.eqb target "hub")
        then if negb (contains (valid_keys target) key)
             then out ++ [warning_unknown_key key target]
             else out
        else out in
      (dict_set config_data key (coerce_value value), out')
  | None => (config_data, out ++ [warning_ignored setting])
  end.

(** The loop of lines 287-308: [config_data] and the lines printed. *)
Definition parse_settings (target : string) (settings : list string)
  : dict ConfigValue * list string :=
  fold_left (parse_setting target) settings ([], []).

(** ** JSON: [json.loads] and [json.dumps] *)

(** The Python values [json.loads] returns.  A float is kept as the text it
    was read from ([float(text)]); its numeric value is not modelled. *)
#[warnings="-register-all"]
Inductive pyval : Type :=
  | PyNone
  | PyBool (b : bool)
  | PyInt (n : Z)
  | PyFloat (text : string)
  | PyStr (s : string)
  | PyList (l : list pyval)
  | PyDict (d : list (string * pyval)).

Module Json.

Definition code := Py.code.

(** The white space of the decoder: space, tab, line feed, carriage
    return. *)
Definition is_ws (c : ascii) : bool :=
  (code c =? 32)%N || (code c =? 9)%N || (code c =? 10)%N || (code c =? 13)%N.

Fixpoint skip_ws (s : string) : string :=
  match s with
  | EmptyString => EmptyString
  | String c r => if is_ws c then skip_ws r else s
  end.

(** [strip_prefix p s]: what follows [p] in [s], when [s] starts with [p]. *)
Fixpoint strip_prefix (p s : string) : option string :=
  match p, s with
  | EmptyString, _ => Some s
  | String a p', String b s' => if Ascii.eqb a b then strip_prefix p' s' else None
  | String _ _, EmptyString => None
  end.

Definition hex_value (c : ascii) : option N :=
  let n := code c in
  if (48 <=? n)%N && (n <=? 57)%N then Some (n - 48)%N
  else if (97 <=? n)%N && (n <=? 102)%N then Some (n - 87)%N
  else if (65 <=? n)%N && (n <=? 70)%N then Some (n - 55)%N
  else None.

Definition hex4 (a b c d : ascii) : option N :=
  match hex_value a, hex_value b, hex_value c, hex_value d with
  | Some x, Some y, Some z, Some w => Some (((x * 16 + y) * 16 + z) * 16 + w)%N
  | _, _, _, _ => None
  end.

Definition byte (n : N) : ascii := ascii_of_N n.

(** The UTF-8 bytes of a code point (a lone surrogate is written like any
    other code point of its range). *)
Definition utf8 (cp : N) : string :=
  if (cp <? 128)%N then String (byte cp) EmptyString
  else if (cp <? 2048)%N then
    String (byte (192 + cp / 64)) (String (byte (128 + cp mod 64)) EmptyString)
  else if (cp <? 65536)%N then
    String (byte (224 + cp / 4096))
      (String (byte (128 + (cp / 64) mod 64))
         (String (byte (128 + cp mod 64)) EmptyString))
  else
    String (byte (240 + cp / 262144))
      (String (byte (128 + (cp / 4096) mod 64))
         (String (byte (128 + (cp / 64) mod 64))
            (String (byte (128 + cp mod 64)) EmptyString))).

(** The one-letter escapes of [BACKSLASH]. *)
Definition unescape (e : ascii) : option ascii :=
  let n := code e in
  if (n =? 34)%N then Some e            (* quote *)
  else if (n =? 92)%N then Some e       (* backslash *)
  else if (n =? 47)%N then Some e       (* slash *)
  else if (n =? 98)%N then Some (byte 8)
  else if (n =? 102)%N then Some (byte 12)
  else if (n =? 110)%N then Some (byte 10)
  else if (n =? 114)%N then Some (byte 13)
  else if (n =? 116)%N then Some (byte 9)
  else None.

Definition is_high_surrogate (u : N) : bool := (55296 <=? u)%N && (u <=? 56319)%N.
Definition is_low_surrogate (u : N) : bool := (56320 <=? u)%N && (u <=? 57343)%N.
Definition join_surrogates (hi lo : N) : N :=
  (65536 + ((hi - 55296) * 1024 + (lo - 56320)))%N.

Definition prepend (p : string) (r : option (string * string))
  : option (string * string) :=
  match r with
  | Some (v, rest) => Some ((p ++ v)%string, rest)
  | None => None
  end.

(** [scanstring] in strict mode, on the text after the opening quote: the
    string read and the text after the closing quote; [None] for an
    unterminated string, a control character or a bad escape. *)
Fixpoint scanstring (s : string) : option (string * string) :=
  match s with
  | EmptyString => None
  | String c r =>
      if (code c =? 34)%N then Some (EmptyString, r)
      else if (code c =? 92)%N then
        match r with
        | EmptyString => None
        | String e r1 =>
            if (code e =? 117)%N then
              match r1 with
              | String h1 (String h2 (String h3 (String h4 r2))) =>
                  match hex4 h1 h2 h3 h4 with
                  | None => None
                  | Some uni =>
                      if is_high_surrogate uni then
                        match r2 with
                        | String b (String u
                            (String g1 (String g2 (String g3 (String g4 r3))))) =>
                            if (code b =? 92)%N && (code u =? 117)%N then
                              match hex4 g1 g2 g3 g4 with
                              | None => None
                              | Some uni2 =>
                                  if is_low_surrogate uni2
                                  then prepend (utf8 (join_surrogates uni uni2))
                                               (scanstring r3)
                                  else prepend (utf8 uni) (scanstring r2)
                              end
                            else prepend (utf8 uni) (scanstring r2)
                        | _ => prepend (utf8 uni) (scanstring r2)
                        end
                      else prepend (utf8 uni) (scanstring r2)
                  end
              | _ => None
              end
            else
              match unescape e with
              | Some ch => prepend (String ch EmptyString) (scanstring r1)
              | None => None
              end
        end
      else if (code c <? 32)%N then None
      else prepend (String c EmptyString) (scanstring r)
  end.

(** The longest run of digits at the head of [s], and the rest. *)
Fixpoint span_digits (s : string) : string * string :=
  match s with
  | EmptyString => (EmptyString, EmptyString)
  | String c r =>
      if Py.isdigit c
      then let (ds, rest) := span_digits r in (String c ds, rest)
      else (EmptyString, s)
  end.

Fixpoint decimal_value (acc : Z) (ds : string) : Z :=
  match ds with
  | EmptyString => acc
  | String c r => decimal_value (10 * acc + Py.digit_value c) r
  end.

(** The integer part of [NUMBER_RE] without its sign: either a single 0 or
    a digit from 1 to 9 followed by any digits. *)
Definition match_unsigned (s : string) : option (string * string) :=
  match s with
  | String c r =>
      if (code c =? 48)%N then Some (String c EmptyString, r)
      else if Py.isdigit c then Some (span_digits s)
      else None
  | EmptyString => None
  end.

(** The integer part of [NUMBER_RE]: an optional minus sign (code 45) and
    the unsigned part. *)
Definition match_integer (s : string) : option (string * string) :=
  match s with
  | String c r =>
      if (code c =? 45)%N then
        match match_unsigned r with
        | Some (ds, rest) => Some (String c ds, rest)
        | None => None
        end
      else match_unsigned s
  | EmptyString => None
  end.

(** The optional fraction of [NUMBER_RE]: a dot (code 46) and at least one
    digit. *)
Definition match_frac (s : string) : string * string :=
  match s with
  | String c r =>
      if (code c =? 46)%N then
        match span_digits r with
        | (String d ds, rest) => (String c (String d ds), rest)
        | (EmptyString, _) => (EmptyString, s)
        end
      else (EmptyString, s)
  | EmptyString => (EmptyString, s)
  end.

(** The optional exponent of [NUMBER_RE]: e or E (codes 101, 69), an
    optional sign (codes 43, 45) and at least one digit. *)
Definition match_exp (s : string) : string * string :=
  match s with
  | String e r =>
      if (code e =? 101)%N || (code e =? 69)%N then
        let (sign, r1) :=
          match r with
          | String c r' =>
              if (code c =? 43)%N || (code c =? 45)%N
              then (String c EmptyString, r')
              else (EmptyString, r)
          | EmptyString => (EmptyString, r)
          end in
        match span_digits r1 with
        | (String d ds, rest) => ((String e sign ++ String d ds)%string, rest)
        | (EmptyString, _) => (EmptyString, s)
        end
      else (EmptyString, s)
  | EmptyString => (EmptyString, s)
  end.

(** The digits of the integer part, without its sign. *)
Definition digits_of_text (t : string) : string :=
  match t with
  | String c ds => if (code c =? 45)%N then ds else t
  | EmptyString => EmptyString
  end.

(** [int(text)] on the integer part read by [NUMBER_RE]: [None] for the
    [ValueError] that [int] raises on more than 4300 digits (the default of
    [sys.int_max_str_digits]). *)
Definition int_of_text (t : string) : option Z :=
  if (Py.max_str_digits <? String.length (digits_of_text t))%nat then None
  else
    Some (match t with
          | String c ds =>
              if (code c =? 45)%N then (- decimal_value 0 ds)%Z
              else decimal_value 0 t
          | EmptyString => 0%Z
          end).

(** Result of a scanner run on limited fuel: a value and the text left,
    the failure that [json.loads] turns into [JSONDecodeError], the end of
    the fuel, or another exception, which is not caught on the way up. *)
Inductive result (A : Type) : Type :=
  | Ok (a : A) (rest : string)
  | Err
  | OutOfFuel
  | Raises (exception : string).
Arguments Ok {A} a rest.
Arguments Err {A}.
Arguments OutOfFuel {A}.
Arguments Raises {A} exception.

(** [match_number] of the scanner and the conversion that follows it: a
    float when a fraction or an exponent was read, an integer otherwise. *)
Definition match_number (s : string) : result pyval :=
  match match_integer s with
  | None => Err
  | Some (integer, r1) =>
      let (frac, r2) := match_frac r1 in
      let (exp, r3) := match_exp r2 in
      match (frac ++ exp)%string with
      | EmptyString =>
          match int_of_text integer with
          | Some n => Ok (PyInt n) r3
          | None => Raises "ValueError"
          end
      | _ => Ok (PyFloat (integer ++ frac ++ exp)%string) r3
      end
  end.

Definition literal (p : string) (v : pyval) (s : string) : result pyval :=
  match strip_prefix p s with
  | Some rest => Ok v rest
  | None => Err
  end.

(** [scan_once], with [JSONArray] and [JSONObject] unfolded into it:
    [array_items] is the loop of [JSONArray] entered at a value,
    [object_items] the loop of [JSONObject] entered after the opening quote
    of a key.  Characters are told by their codes: 34 the double quote,
    44 the comma, 58 the colon, 91 and 93 the brackets, 123 and 125 the
    braces. *)
Fixpoint scan_once (fuel : nat) (s : string) : result pyval :=
  match fuel with
  | O => OutOfFuel
  | S f =>
      match s with
      | EmptyString => Err
      | String c r =>
          if (code c =? 34)%N then
            match scanstring r with
            | Some (v, rest) => Ok (PyStr v) rest
            | None => Err
            end
          else if (code c =? 123)%N then
            match skip_ws r with
            | String c1 rest =>
                if (code c1 =? 125)%N then Ok (PyDict []) rest
                else if (code c1 =? 34)%N then object_items f rest []
                else Err
            | EmptyString => Err
            end
          else if (code c =? 91)%N then
            match skip_ws r with
            | String c1 rest =>
                if (code c1 =? 93)%N then Ok (PyList []) rest
                else array_items f (skip_ws r) []
            | EmptyString => Err
            end
          else if (code c =? 110)%N then literal "null" PyNone s
          else if (code c =? 116)%N then literal "true" (PyBool true) s
          else if (code c =? 102)%N then literal "false" (PyBool false) s
          else
            match match_number s with
            | Ok v rest => Ok v rest
            | Raises e => Raises e
            | _ =>
                if (code c =? 78)%N then literal "NaN" (PyFloat "nan") s
                else if (code c =? 73)%N then literal "Infinity" (PyFloat "inf") s
                else if (code c =? 45)%N then literal "-Infinity" (PyFloat "-inf") s
                else Err
            end
      end
  end
with array_items (fuel : nat) (s : string) (acc : list pyval) : result pyval :=
  match fuel with
  | O => OutOfFuel
  | S f =>
      match scan_once f s with
      | Ok v rest =>
          match skip_ws rest with
          | String c r =>
              if (code c =? 93)%N then Ok (PyList (rev (v :: acc))) r
              else if (code c =? 44)%N then array_items f (skip_ws r) (v :: acc)
              else Err
          | EmptyString => Err
          end
      | Err => Err
      | OutOfFuel => OutOfFuel
      | Raises e => Raises e
      end
  end
with object_items (fuel : nat) (s : string) (acc : dict pyval) : result pyval :=
  match fuel with
  | O => OutOfFuel
  | S f =>
      match scanstring s with
      | None => Err
      | Some (key, rest) =>
          match skip_ws rest with
          | String c r =>
              if (code c =? 58)%N then
                match scan_once f (skip_ws r) with
                | Ok v rest2 =>
                    match skip_ws rest2 with
                    | String c2 r2 =>
                        if (code c2 =? 125)%N
                        then Ok (PyDict (dict_set acc key v)) r2
                        else if (code c2 =? 44)%N then
                          match skip_ws r2 with
                          | String c3 r3 =>
                              if (code c3 =? 34)%N
                              then object_items f r3 (dict_set acc key v)
                              else Err
                          | EmptyString => Err
                          end
                        else Err
                    | EmptyString => Err
                    end
                | Err => Err
                | OutOfFuel => OutOfFuel
                | Raises e => Raises e
                end
              else Err
          | EmptyString => Err
          end
      end
  end.

Definition fuel_for (s : string) : nat := 2 * String.length s + 1.

(** How [json.loads] ends: the value decoded, [json.JSONDecodeError], or
    another exception. *)
Inductive loaded : Type :=
  | Loaded (v : pyval)
  | JSONDecodeError
  | OtherException (exception : string).

(** [json.loads(s)].  The fuel given is enough for every text (lemma
    [scan_once_ends]), so the case of [OutOfFuel] never occurs.  The
    [RecursionError] of a text nested deeper than the interpreter's stack
    allows is not modelled: how deep that is depends on the interpreter and
    on the stack of the thread that calls the handler. *)
Definition loads (s : string) : loaded :=
  let s0 := skip_ws s in
  match scan_once (fuel_for s0) s0 with
  | Ok v rest =>
      match skip_ws rest with
      | EmptyString => Loaded v
      | _ => JSONDecodeError
      end
  | Err => JSONDecodeError
  | OutOfFuel => JSONDecodeError
  | Raises e => OtherException e
  end.

(** *** Encoding *)

Definition hex_digit (n : N) : ascii :=
  if (n <? 10)%N then byte (48 + n) else byte (87 + n).

(** The escape of a code unit: backslash, u and four lower-case hex digits. *)
Definition u_escape (n : N) : string :=
  String "\" (String "u"
    (String (hex_digit ((n / 4096) mod 16))
       (String (hex_digit ((n / 256) mod 16))
          (String (hex_digit ((n / 16) mod 16))
             (String (hex_digit (n mod 16)) EmptyString))))).

(** A code point outside ASCII: one escape, or a surrogate pair above the
    basic plane. *)
Definition escape_code_point (cp : N) : string :=
  if (cp <? 65536)%N then u_escape cp
  else
    let v := (cp - 65536)%N in
    (u_escape (55296 + (v / 1024) mod 1024)
     ++ u_escape (56320 + v mod 1024))%string.

(** An ASCII character: the short escapes, itself when printable, a
    u-escape otherwise. *)
Definition escape_ascii (c : ascii) : string :=
  let n := code c in
  if (n =? 34)%N then String "\" (String c EmptyString)
  else if (n =? 92)%N then String "\" (String c EmptyString)
  else if (n =? 10)%N then "\n"
  else if (n =? 13)%N then "\r"
  else if (n =? 9)%N then "\t"
  else if (n =? 8)%N then "\b"
  else if (n =? 12)%N then "\f"
  else if (32 <=? n)%N && (n <=? 126)%N then String c EmptyString
  else u_escape n.

Definition cont (c : ascii) : N := (code c mod 64)%N.

(** The body of [py_encode_basestring_ascii], reading the code points from
    their UTF-8 bytes (a byte that starts no complete sequence is escaped by
    its own value; a Python [str] has none). *)
Fixpoint escape (s : string) : string :=
  match s with
  | EmptyString => EmptyString
  | String c1 r1 =>
      let b1 := code c1 in
      if (b1 <? 128)%N then (escape_ascii c1 ++ escape r1)%string
      else if (b1 <? 192)%N then (u_escape b1 ++ escape r1)%string
      else
        match r1 with
        | EmptyString => u_escape b1
        | String c2 r2 =>
            if (b1 <? 224)%N then
              (escape_code_point ((b1 mod 32) * 64 + cont c2) ++ escape r2)%string
            else
              match r2 with
              | EmptyString => (u_escape b1 ++ escape r1)%string
              | String c3 r3 =>
                  if (b1 <? 240)%N then
                    (escape_code_point
                       (((b1 mod 16) * 64 + cont c2) * 64 + cont c3)
                     ++ escape r3)%string
                  else
                    match r3 with
                    | EmptyString => (u_escape b1 ++ escape r1)%string
                    | String c4 r4 =>
                        (escape_code_point
                           ((((b1 mod 8) * 64 + cont c2) * 64 + cont c3) * 64
                            + cont c4)
                         ++ escape r4)%string
                    end
              end
        end
  end.

(** [json.dumps(s)] for a string. *)
Definition dumps_str (s : string) : string :=
  String "034" (escape s ++ String "034" EmptyString).

(** [json.dumps(v)] for a value of [config_data]. *)
Definition dumps_value (v : ConfigValue) : string :=
  match v with
  | Integer n => Py.str_of_int n
  | Boolean true => "true"
  | Boolean false => "false"
  | String_ s => dumps_str s
  end.

Fixpoint dumps_items (d : dict ConfigValue) : string :=
  match d with
  | [] => EmptyString
  | [(k, v)] => dumps_str k ++ ": " ++ dumps_value v
  | (k, v) :: r => dumps_str k ++ ": " ++ dumps_value v ++ ", " ++ dumps_items r
  end.

(** [json.dumps(config_dict)] with the default separators, for the
    dictionaries [main] builds (string keys; values [int], [bool] or
    [str]; the integers are within the limit of [str]). *)
Definition dumps (d : dict ConfigValue) : string :=
  "{" ++ dumps_items d ++ "}".

End Json.

(** A text between double quotes. *)
Definition q (s : string) : string := String "034" (s ++ String "034" EmptyString).

(** ** The client *)

Local Open Scope string_scope.

Definition BASE_TOPIC : string := "nuki/hub".
Definition TOPIC_ACTION_SUFFIX : string := "/configuration/action".
Definition TOPIC_RESULT_SUFFIX : string := "/configuration/commandResult".

(** An inbound message, payload decoded. *)
Record BusMessage : Type := mkMessage {
  topic : string;
  payload : string
}.

(** The calls made on [self.client]. *)
Inductive mqtt_call : Type :=
  | username_pw_set (username password : string)
  | connect_to (host : string) (port keepalive : Z)
  | loop_start
  | loop_stop
  | disconnect_from
  | subscribe (t : string)
  | publish (t body : string)
  | unsubscribe (t : string).

(** What [print] wrote: a line of text, or a value handed to [print] or to
    [json.dumps(..., indent=2)], whose rendering is not modelled. *)
Inductive printed : Type :=
  | Line (s : string)
  | Value (v : pyval).

(** The fields of a [NukiConfigClient], with the standard output of the
    process threaded along. *)
Record NukiConfigClient : Type := mkClient {
  broker : string;
  port : Z;
  base_topic : string;
  client : list mqtt_call;
  response : pyval;
  waiting_for_topic : option string;
  ip_address : option string;
  stdout : list printed
}.

Definition call (c : mqtt_call) (self : NukiConfigClient) : NukiConfigClient :=
  mkClient (broker self) (port self) (base_topic self) (client self ++ [c])%list
           (response self) (waiting_for_topic self) (ip_address self)
           (stdout self).

Definition print (p : printed) (self : NukiConfigClient) : NukiConfigClient :=
  mkClient (broker self) (port self) (base_topic self) (client self)
           (response self) (waiting_for_topic self) (ip_address self)
           (stdout self ++ [p])%list.

Definition set_response (v : pyval) (self : NukiConfigClient) : NukiConfigClient :=
  mkClient (broker self) (port self) (base_topic self) (client self)
           v (waiting_for_topic self) (ip_address self) (stdout self).

Definition set_waiting_for_topic (t : option string) (self : NukiConfigClient)
  : NukiConfigClient :=
  mkClient (broker self) (port self) (base_topic self) (client self)
           (response self) t (ip_address self) (stdout self).

Definition set_ip_address (a : option string) (self : NukiConfigClient)
  : NukiConfigClient :=
  mkClient (broker self) (port self) (base_topic self) (client self)
           (response self) (waiting_for_topic self) a (stdout self).

(** [__init__] (lines 76-90). *)
Definition init (broker : string) (port : Z) (username password : option string)
    (base_topic : string) : NukiConfigClient :=
  mkClient broker port base_topic
    (match username, password with
     | Some u, Some p =>
         if Py.truthy username && Py.truthy password
         then [username_pw_set u p] else []
     | _, _ => []
     end)
    PyNone None None [].

(** [on_message] (lines 98-117).  An exception of [json.loads] other than
    [JSONDecodeError] is not caught: it leaves the handler before anything
    is stored or printed, and the client is as it was.  What the transport
    does with it is not modelled: the polls of a call list the messages that
    the handler is run on. *)
Definition on_message (self : NukiConfigClient) (msg : BusMessage)
  : NukiConfigClient :=
  if Py.endswith (topic msg) "/info/nukiHubIp" then
    set_ip_address (Some (payload msg)) self
  else if Py.truthy (waiting_for_topic self)
          && match waiting_for_topic self with
             | Some t => String.eqb (topic msg) t
             | None => false
             end
  then
    if String.eqb (payload msg) "--" then self
    else
      match Json.loads (payload msg) with
      | Json.OtherException _ => self
      | loaded =>
          let self1 :=
            match loaded with
            | Json.Loaded v => set_response v self
            | _ => set_response (PyStr (payload msg)) self
            end in
          print (Value (response self1))
            (print (Line (String "010" "Received response on " ++ topic msg ++ ":"))
                   self1)
      end
  else self.

(** The handler run on each message of a batch, in order of arrival. *)
Definition deliver (self : NukiConfigClient) (msgs : list BusMessage)
  : NukiConfigClient :=
  fold_left on_message msgs self.

(** [connect] and [disconnect] (lines 119-126). *)
Definition connect (self : NukiConfigClient) : NukiConfigClient :=
  call loop_start (call (connect_to (broker self) (port self) 60) self).

Definition disconnect (self : NukiConfigClient) : NukiConfigClient :=
  call disconnect_from (call loop_stop self).

(** How a call ends: it returns, it raises, or the recorded polls end with
    the call still in its loop (the client is then the one that has handled
    all the messages recorded). *)
Inductive outcome (A : Type) : Type :=
  | Returned (a : A)
  | Raised (exception : string)
  | Pending.
Arguments Returned {A} a.
Arguments Raised {A} exception.
Arguments Pending {A}.

(** One turn of a polling loop: the messages handled since the previous
    read and the clock reading of this turn. *)
Definition poll : Type := (list BusMessage * Q)%type.

(** The messages of a list of polls, in order of arrival. *)
Definition messages (polls : list poll) : list BusMessage :=
  concat (map fst polls).

(** [time.time() - start_time > timeout] *)
Definition timed_out (now start_time timeout : Q) : bool :=
  negb (Qle_bool (now - start_time) timeout).

Definition is_None (v : pyval) : bool :=
  match v with
  | PyNone => true
  | _ => false
  end.

(** The messages handled between the last read of a loop and the read of
    the same attribute at [return]: those of the next poll recorded, whose
    clock is not read; none when no poll is left. *)
Definition before_return (later : list poll) : list BusMessage :=
  match later with
  | [] => []
  | (msgs, _) :: _ => msgs
  end.

(** The loop of [update_config] (lines 157-161); the client when the loop is
    left, and the polls not read yet. *)
Fixpoint update_config_loop (timeout start_time : Q) (polls : list poll)
    (self : NukiConfigClient) : option (NukiConfigClient * list poll) :=
  match polls with
  | [] => None
  | (msgs, now) :: later =>
      let self := deliver self msgs in
      if is_None (response self) then
        if timed_out now start_time timeout
        then Some (print (Line "Timeout waiting for response.") self, later)
        else update_config_loop timeout start_time later self
      else Some (self, later)
  end.

(** [update_config] (lines 128-164).  After the loop the slot is read once
    more, at [return self.response]: what the handler stores in between is
    what the call returns. *)
Definition update_config (self : NukiConfigClient) (target : string)
    (config_dict : dict ConfigValue) (timeout : Q)
    (start_time : Q) (polls : list poll)
  : outcome pyval * NukiConfigClient :=
  let topic_base :=
    if String.eqb target "hub" then Some (base_topic self)
    else if String.eqb target "lock" then Some (base_topic self ++ "/lock")
    else if String.eqb target "opener" then Some (base_topic self ++ "/opener")
    else None in
  match topic_base with
  | None => (Raised "Target must be 'hub', 'lock', or 'opener'", self)
  | Some topic_base =>
      let action_topic := topic_base ++ TOPIC_ACTION_SUFFIX in
      let result_topic := topic_base ++ TOPIC_RESULT_SUFFIX in
      let self := set_waiting_for_topic (Some result_topic) self in
      let self := set_response PyNone self in
      let self := call (subscribe result_topic) self in
      let body := Json.dumps config_dict in
      let self :=
        print (Line ("Sending config to " ++ action_topic ++ ": " ++ body)) self in
      let self := call (publish action_topic body) self in
      match update_config_loop timeout start_time polls self with
      | None => (Pending, deliver self (messages polls))
      | Some (self, later) =>
          let self := call (unsubscribe result_topic) self in
          let self := deliver self (before_return later) in
          (Returned (response self), self)
      end
  end.

(** The loop of [wait_for_ip] (lines 172-175): [inl] when the loop returns
    [None] from inside, [inr] when it is left with an address stored, with
    the polls not read yet. *)
Fixpoint wait_for_ip_loop (timeout start_time : Q) (polls : list poll)
    (self : NukiConfigClient)
  : option (NukiConfigClient + NukiConfigClient * list poll) :=
  match polls with
  | [] => None
  | (msgs, now) :: later =>
      let self := deliver self msgs in
      match ip_address self with
      | None =>
          if timed_out now start_time timeout
          then Some (inl self)
          else wait_for_ip_loop timeout start_time later self
      | Some _ => Some (inr (self, later))
      end
  end.

(** [wait_for_ip] (lines 166-178).  On the timeout the loop returns [None]
    itself; when it is left with an address stored, the address is read
    once more at [return self.ip_address], after the unsubscribe. *)
Definition wait_for_ip (self : NukiConfigClient) (timeout : Q)
    (start_time : Q) (polls : list poll)
  : outcome (option string) * NukiConfigClient :=
  let ip_topic := base_topic self ++ "/info/nukiHubIp" in
  let self := print (Line ("Subscribing to " ++ ip_topic ++ " to get IP...")) self in
  let self := call (subscribe ip_topic) self in
  match wait_for_ip_loop timeout start_time polls self with
  | None => (Pending, deliver self (messages polls))
  | Some (inl self) => (Returned None, self)
  | Some (inr (self, later)) =>
      let self := call (unsubscribe ip_topic) self in
      let self := deliver self (before_return later) in
      (Returned (ip_address self), self)
  end.

(** ** The artifact fetcher *)

(** The request [urllib.request.urlopen(url)] sends: the URL, and the
    credentials of the basic-auth handler when one was installed. *)
Record http_request : Type := mkRequest {
  url : string;
  credentials : option (string * string)
}.

(** How [urlopen] and [response.read()] end: the body read, an
    [urllib.error.HTTPError] with its code and reason, or another exception
    with its text. *)
Inductive http_result : Type :=
  | Body (data : list Byte.byte)
  | HTTPError (code : Z) (reason : string)
  | OtherError (e : string).

(** The files written, by name. *)
Definition files : Type := dict (list Byte.byte).

(** How [open(name, 'wb')] followed by [f.write(data)] ends: the bytes
    written, or an exception with its text, the file then being untouched
    ([None], when [open] failed) or holding what the failed write left. *)
Inductive written : Type :=
  | Written
  | WriteError (e : string) (remains : option (list Byte.byte)).

(** What [fetch_coredump] meets outside the client:
    [add_password url user password] is the text of the [ValueError] that
    [password_mgr.add_password(None, url, user, password)] raises, if it
    raises (a URL that cannot be split); [urlopen] is the answer to a
    request; [write] tells how writing to a file ends. *)
Record World : Type := mkWorld {
  add_password : string -> string -> string -> option string;
  urlopen : http_request -> http_result;
  write : string -> list Byte.byte -> written
}.

(** [fetch_coredump] (lines 180-218).  The set-up of the credentials (lines
    191-196) stands before the [try]: its exception leaves the function.
    Inside the [try], an exception of [open] or [write] is caught by
    [except Exception] like one of [urlopen]. *)
Definition fetch_coredump (self : NukiConfigClient)
    (web_user web_password : option string) (output_file : string)
    (start_time : Q) (polls : list poll)
    (world : World) (fs : files)
  : outcome unit * NukiConfigClient * files :=
  let self := print (Line "Waiting for Nuki Hub IP address...") self in
  match wait_for_ip self 10 start_time polls with
  | (Pending, self) => (Pending, self, fs)
  | (Raised e, self) => (Raised e, self, fs)
  | (Returned ip, self) =>
      if negb (Py.truthy ip) then
        (Returned tt,
         print (Line "Timeout waiting for IP address. Ensure Nuki Hub is online and MQTT is connected.") self,
         fs)
      else
        let ip := match ip with Some a => a | None => EmptyString end in
        let self := print (Line ("Nuki Hub IP: " ++ ip)) self in
        let url := "http://" ++ ip ++ "/get?page=coredump" in
        let credentials :=
          match web_user, web_password with
          | Some u, Some p =>
              if Py.truthy web_user && Py.truthy web_password
              then Some (u, p) else None
          | _, _ => None
          end in
        let set_up :=
          match credentials with
          | Some (u, p) => add_password world url u p
          | None => None
          end in
        match set_up with
        | Some e => (Raised e, self, fs)
        | None =>
            let self :=
              print (Line ("Downloading coredump from " ++ url ++ "...")) self in
            match urlopen world (mkRequest url credentials) with
            | Body data =>
                match write world output_file data with
                | Written =>
                    (Returned tt,
                     print (Line ("Coredump saved to " ++ output_file)) self,
                     dict_set fs output_file data)
                | WriteError e remains =>
                    (Returned tt,
                     print (Line ("Error fetching coredump: " ++ e)) self,
                     match remains with
                     | None => fs
                     | Some partial => dict_set fs output_file partial
                     end)
                end
            | HTTPError code reason =>
                if (code =? 404)%Z then
                  (Returned tt, print (Line "Coredump not found on device.") self, fs)
                else if (code =? 401)%Z then
                  (Returned tt,
                   print (Line "Authentication failed. Please check --web-user and --web-password.") self,
                   fs)
                else
                  (Returned tt,
                   print (Line ("HTTP Error: " ++ Py.str_of_int code ++ " " ++ reason)) self,
                   fs)
            | OtherError e =>
                (Returned tt, print (Line ("Error fetching coredump: " ++ e)) self, fs)
            end
        end
  end.

(** ** The rest of the client: [on_connect] and [main] *)

(** [on_connect] (lines 92-96).  The reason code is taken as the integer it
    compares equal to and the text [str] gives for it. *)
Definition on_connect (self : NukiConfigClient) (rc : Z) (rc_text : string)
  : NukiConfigClient :=
  if (rc =? 0)%Z then
    print (Line ("Connected to MQTT broker at " ++ broker self ++ ":"
                 ++ Py.str_of_int (port self))) self
  else print (Line ("Failed to connect, return code " ++ rc_text)) self.

(** What [parser.parse_args()] returns (lines 221-236). *)
Record Args : Type := mkArgs {
  arg_broker : string;
  arg_port : Z;
  arg_user : option string;
  arg_password : option string;
  arg_topic : string;
  arg_list_settings : bool;
  arg_fetch_coredump : bool;
  arg_web_user : option string;
  arg_web_password : option string;
  arg_output : string;
  arg_target : option string;
  arg_settings : list string
}.

(** What a run of [main] meets: the text [parser.print_help()] writes; the
    exception [self.client.connect] raises, if it raises; the reason code
    handed to [on_connect] while [connect] sleeps, if one comes; the clock
    and the messages of the polling loop; the password manager, the HTTP
    server and the file system; the files. *)
Record Env : Type := mkEnv {
  env_help : string;
  env_connect_error : option string;
  env_connack : option (Z * string);
  env_start_time : Q;
  env_polls : list poll;
  env_world : World;
  env_files : files
}.

(** How [main] ends: it returns, it leaves by [sys.exit], an exception
    leaves it, or the recorded polls end first. *)
Inductive ending : Type :=
  | Returns
  | SysExit (code : Z)
  | Propagates (exception : string)
  | Running.

Record Run : Type := mkRun {
  ending_of : ending;
  printed_of : list printed;
  calls_of : list mqtt_call;
  files_of : files
}.

Definition with_stdout (out : list printed) (self : NukiConfigClient)
  : NukiConfigClient :=
  mkClient (broker self) (port self) (base_topic self) (client self)
           (response self) (waiting_for_topic self) (ip_address self) out.

(** [client.connect()] in its environment (lines 119-122). *)
Definition connect_in (e : Env) (self : NukiConfigClient)
  : outcome unit * NukiConfigClient :=
  match env_connect_error e with
  | Some err => (Raised err, call (connect_to (broker self) (port self) 60) self)
  | None =>
      let self := connect self in
      (Returned tt,
       match env_connack e with
       | Some (rc, rc_text) => on_connect self rc rc_text
       | None => self
       end)
  end.

(** [sorted] on strings. *)
Fixpoint insert_sorted (k : string) (l : list string) : list string :=
  match l with
  | [] => [k]
  | x :: r => if String.leb k x then k :: l else x :: insert_sorted k r
  end.

Definition sorted (l : list string) : list string :=
  fold_right insert_sorted [] l.

Definition key_line (k : string) : printed := Line ("  " ++ k).

(** The listing of [--list-settings] (lines 257-270). *)
Definition listing (target : string) : list printed :=
  (Line ("--- Available settings for " ++ target ++ " ---")
   :: if String.eqb target "lock" then
        Line (String "010" "[Basic]")
        :: map key_line (sorted LOCK_CONFIG_KEYS_basic)
        ++ Line (String "010" "[Advanced]")
        :: map key_line (sorted LOCK_CONFIG_KEYS_advanced)
      else if String.eqb target "opener" then
        Line (String "010" "[Basic]")
        :: map key_line (sorted OPENER_CONFIG_KEYS_basic)
        ++ Line (String "010" "[Advanced]")
        :: map key_line (sorted OPENER_CONFIG_KEYS_advanced)
      else if String.eqb target "hub" then
        Line (String "010" "[Hub Settings]")
        :: map key_line (sorted HUB_CONFIG_KEYS)
      else [])%list.

Definition run_of (end_ : ending) (self : NukiConfigClient) (fs : files) : Run :=
  mkRun end_ (stdout self) (client self) fs.

(** [main] after [parse_args] (lines 238-322).  No [KeyboardInterrupt]
    comes. *)
Definition main (a : Args) (e : Env) : Run :=
  if arg_fetch_coredump a then
    let c := init (arg_broker a) (arg_port a) (arg_user a) (arg_password a)
                  (arg_topic a) in
    match connect_in e c with
    | (Returned _, c) =>
        match fetch_coredump c (arg_web_user a) (arg_web_password a)
                (arg_output a) (env_start_time e) (env_polls e)
                (env_world e) (env_files e) with
        | (Returned _, c, fs) => run_of (SysExit 0) (disconnect c) fs
        | (Raised err, c, fs) => run_of (Propagates err) (disconnect c) fs
        | (Pending, c, fs) => run_of Running c fs
        end
    | (Raised err, c) => run_of (Propagates err) (disconnect c) (env_files e)
    | (Pending, c) => run_of Running c (env_files e)
    end
  else if negb (Py.truthy (arg_target a)) then
    mkRun (SysExit 1)
      [Line "Error: Target is required unless usage --fetch-coredump.";
       Line (env_help e)]
      [] (env_files e)
  else
    let target := match arg_target a with Some t => t | None => EmptyString end in
    if arg_list_settings a then
      mkRun (SysExit 0) (listing target) [] (env_files e)
    else
      match arg_settings a with
      | [] =>
          mkRun (SysExit 1)
            [Line "Error: No settings provided. Use --list-settings to see available options."]
            [] (env_files e)
      | _ =>
          let (config_data, out) := parse_settings target (arg_settings a) in
          match config_data with
          | [] =>
              mkRun (SysExit 1)
                (map Line out ++ [Line "No valid settings provided."])%list
                [] (env_files e)
          | _ =>
              let c := with_stdout (map Line out)
                         (init (arg_broker a) (arg_port a) (arg_user a)
                               (arg_password a) (arg_topic a)) in
              match connect_in e c with
              | (Returned _, c) =>
                  match update_config c target config_data 10
                          (env_start_time e) (env_polls e) with
                  | (Returned _, c) => run_of Returns (disconnect c) (env_files e)
                  | (Raised err, c) =>
                      run_of (Propagates err) (disconnect c) (env_files e)
                  | (Pending, c) => run_of Running c (env_files e)
                  end
              | (Raised err, c) =>
                  run_of (Propagates err) (disconnect c) (env_files e)
              | (Pending, c) => run_of Running c (env_files e)
              end
          end
      end.

(** * The coredump converter (hph/convert_coredump.py) *)

(** The text read from the dump is the list of its code points: [len],
    [strip] and the slice [hex_data[:-1]] count characters.  The decoding
    of the file is taken as done; file names and the fixed messages are
    strings as above. *)
Definition text : Type := list N.

Module Text.

Local Open Scope N_scope.

(** The code points of an ASCII string. *)
Definition codes (s : string) : text := map N_of_ascii (list_ascii_of_string s).

(** [str.isspace] of a character ([Py_UNICODE_ISSPACE]). *)
Definition isspace (c : N) : bool :=
  ((9 <=? c) && (c <=? 13)) || ((28 <=? c) && (c <=? 32))
  || (c =? 133) || (c =? 160) || (c =? 5760)
  || ((8192 <=? c) && (c <=? 8202))
  || (c =? 8232) || (c =? 8233) || (c =? 8239) || (c =? 8287)
  || (c =? 12288).

Fixpoint lstrip (s : text) : text :=
  match s with
  | [] => []
  | c :: r => if isspace c then lstrip r else s
  end.

Definition rstrip (s : text) : text := rev (lstrip (rev s)).

(** [s.strip()] *)
Definition strip (s : text) : text := lstrip (rstrip s).

(** The newline translation of a file opened in text mode with the default
    [newline=None]: a carriage return, with the line feed that follows it
    if one does, is read as a line feed. *)
Fixpoint universal_newlines (s : text) : text :=
  match s with
  | [] => []
  | c :: r =>
      if c =? 13 then
        10 :: match r with
              | d :: r' =>
                  if d =? 10 then universal_newlines r'
                  else universal_newlines r
              | [] => []
              end
      else c :: universal_newlines r
  end.

(** [f.readlines()] on the translated text: the lines, each with its line
    feed; the last one has none when the text does not end with one. *)
Fixpoint readlines (s : text) : list text :=
  match s with
  | [] => []
  | c :: r =>
      if c =? 10 then [c] :: readlines r
      else match readlines r with
           | [] => [[c]]
           | line :: later => (c :: line) :: later
           end
  end.

(** [Py_ISSPACE], the white space [bytes.fromhex] skips. *)
Definition ascii_space (c : N) : bool :=
  ((9 <=? c) && (c <=? 13)) || (c =? 32).

(** [_PyLong_DigitValue] below 16. *)
Definition hex_value (c : N) : option N :=
  if (48 <=? c) && (c <=? 57) then Some (c - 48)
  else if (97 <=? c) && (c <=? 102) then Some (c - 87)
  else if (65 <=? c) && (c <=? 70) then Some (c - 55)
  else None.

Definition byte_of_N (n : N) : Byte.byte := byte_of_ascii (ascii_of_N n).

Fixpoint first_non_ascii (pos : nat) (s : text) : option nat :=
  match s with
  | [] => None
  | c :: r => if 128 <=? c then Some pos else first_non_ascii (S pos) r
  end.

(** The loop of [_PyBytes_FromHex] from the position [pos]: white space is
    skipped before a pair of digits, not inside one.  [inr p] is the
    [ValueError], [p] the position of the character refused (the length of
    the text when the second digit of the last pair is missing). *)
Fixpoint fromhex_from (pos : nat) (s : text) : list Byte.byte + nat :=
  match s with
  | [] => inl []
  | c :: r =>
      if ascii_space c then fromhex_from (S pos) r
      else
        match hex_value c with
        | None => inr pos
        | Some top =>
            match r with
            | [] => inr (S pos)
            | d :: r' =>
                match hex_value d with
                | None => inr (S pos)
                | Some bot =>
                    match fromhex_from (S (S pos)) r' with
                    | inl data => inl (byte_of_N (16 * top + bot) :: data)
                    | inr p => inr p
                    end
                end
            end
        end
  end.

(** [bytes.fromhex(s)] for a [str] (CPython 3.7 and later): the position of
    the first character outside ASCII is refused before any digit is
    read. *)
Definition fromhex (s : text) : list Byte.byte + nat :=
  match first_non_ascii 0 s with
  | Some p => inr p
  | None => fromhex_from 0 s
  end.

End Text.

(** What the converter prints: a line of fixed text, file names and the
    message of an exception of [open]; a line made of a label and text of
    the dump; or the line of a [ValueError] of [bytes.fromhex] (the prefix,
    then the message of the exception, which names the position). *)
Inductive shown : Type :=
  | Plain (s : string)
  | Labelled (label : string) (t : text)
  | Failure (prefix : string) (position : nat).

(** How [open(output_file, 'wb')] and [f.write(binary_data)] end in the
    converter: the file is written; or [open] raises a [ValueError] (a file
    name with a null character) and nothing is opened; or an exception that
    is no [ValueError] is raised (an [OSError]), the file then being
    untouched ([None], when [open] failed) or holding what the failed write
    left. *)
Inductive stored : Type :=
  | Stored
  | NotOpened (message : string)
  | Broken (e : string) (remains : option (list Byte.byte)).

(** [convert_hex_to_bin] (lines 4-30), for an input file that holds
    [content]; [write] tells how writing the output file ends.  Returns how
    the call ends, the lines printed and the files.  The handler of line 29
    catches a [ValueError], of [bytes.fromhex] or of [open]; any other
    exception of lines 26-27 leaves the function. *)
Definition convert_hex_to_bin (content : text) (input_file output_file : string)
    (write : string -> list Byte.byte -> stored) (fs : files)
  : outcome unit * list shown * files :=
  let lines := Text.readlines (Text.universal_newlines content) in
  if (length lines <? 3)%nat then
    (Returned tt,
     [Plain "Error: Input file too short. Expected at least 3 lines."], fs)
  else
    let out := [Labelled "Header 1: " (Text.strip (nth 0 lines []));
                Labelled "Header 2: " (Text.strip (nth 1 lines []))] in
    let hex_data := concat (map Text.strip (skipn 2 lines)) in
    let (out, hex_data) :=
      if negb (length hex_data mod 2 =? 0)%nat then
        ((out ++ [Plain "Warning: Hex data length is not even. Truncating last character."])%list,
         removelast hex_data)
      else (out, hex_data) in
    match Text.fromhex hex_data with
    | inl binary_data =>
        match write output_file binary_data with
        | Stored =>
            (Returned tt,
             (out ++ [Plain ("Successfully converted " ++ input_file ++ " to "
                             ++ output_file)])%list,
             dict_set fs output_file binary_data)
        | NotOpened message =>
            (Returned tt,
             (out ++ [Plain ("Error converting hex to binary: " ++ message)])%list,
             fs)
        | Broken e remains =>
            (Raised e, out,
             match remains with
             | None => fs
             | Some partial => dict_set fs output_file partial
             end)
        end
    | inr position =>
        (Returned tt,
         (out ++ [Failure "Error converting hex to binary: " position])%list, fs)
    end.

(** The script (lines 32-36): [argv] is [sys.argv], [read] gives the text
    of the input file. *)
Definition convert_coredump (argv : list string) (read : string -> text)
    (write : string -> list Byte.byte -> stored) (fs : files)
  : outcome unit * list shown * files :=
  match argv with
  | [_; input_file; output_file] =>
      convert_hex_to_bin (read input_file) input_file output_file write fs
  | _ =>
      (Returned tt,
       [Plain "Usage: python convert_coredump.py <input.hex> <output.bin>"], fs)
  end.

(** An output that can be written, whatever its name. *)
Definition writable : string -> list Byte.byte -> stored := fun _ _ => Stored.

(** ** The words of the specification *)

(** "all its characters are digits" (at least one). *)
Fixpoint all_digits (s : string) : bool :=
  match s with
  | EmptyString => true
  | String c r => Py.isdigit c && all_digits r
  end.

Definition digits (s : string) : bool :=
  match s with
  | EmptyString => false
  | String _ _ => all_digits s
  end.

Definition is_sign (c : ascii) : bool :=
  (Py.code c =? 43)%N || (Py.code c =? 45)%N.

(** "digits with optionally one leading sign" *)
Definition digits_optionally_signed (s : string) : bool :=
  match s with
  | EmptyString => false
  | String c r => if is_sign c then digits r else digits s
  end.

(** The number such a text denotes. *)
Definition numeric_value (s : string) : Z :=
  match s with
  | EmptyString => 0
  | String c r =>
      if (Py.code c =? 45)%N then - Json.decimal_value 0 r
      else if (Py.code c =? 43)%N then Json.decimal_value 0 r
      else Json.decimal_value 0 s
  end.

Definition upper_char (c : ascii) : ascii :=
  if (97 <=? Py.code c)%N && (Py.code c <=? 122)%N
  then ascii_of_N (Py.code c - 32)
  else c.

(** "a case variant of [word]", for a lower-case [word]: the same letters,
    each in either case. *)
Fixpoint case_variant (word s : string) : bool :=
  match word, s with
  | EmptyString, EmptyString => true
  | String a w, String b r =>
      (Ascii.eqb b a || Ascii.eqb b (upper_char a)) && case_variant w r
  | _, _ => false
  end.

(** White space only. *)
Fixpoint all_space (s : string) : bool :=
  match s with
  | EmptyString => true
  | String c r => Py.isspace c && all_space r
  end.

Definition is_underscore (c : ascii) : bool := (Py.code c =? 95)%N.

(** Digits in which single underscores may separate two digits. *)
Inductive grouped : string -> Prop :=
  | grouped_digit (d : ascii) :
      Py.isdigit d = true -> grouped (String d EmptyString)
  | grouped_next (d : ascii) (r : string) :
      Py.isdigit d = true -> grouped r -> grouped (String d r)
  | grouped_sep (d u : ascii) (r : string) :
      Py.isdigit d = true -> is_underscore u = true -> grouped r ->
      grouped (String d (String u r)).

(** The digits of a group. *)
Fixpoint without_underscores (s : string) : string :=
  match s with
  | EmptyString => EmptyString
  | String c r =>
      if is_underscore c then without_underscores r
      else String c (without_underscores r)
  end.

(** An integer text and the number it denotes: white space, an optional
    sign, grouped digits, white space. *)
Definition integer_text (v : string) (n : Z) : Prop :=
  exists l sign body t,
    v = l ++ sign ++ body ++ t
    /\ all_space l = true /\ all_space t = true /\ grouped body
    /\ ((sign = EmptyString \/ sign = "+")
          /\ n = Json.decimal_value 0 (without_underscores body)
        \/ sign = "-" /\ n = (- Json.decimal_value 0 (without_underscores body))%Z).

(** A text that [int] reads as the number [n]: once each white-space
    character is read as a space and each decimal digit as the ASCII digit
    of its value, an integer text, of no more digits than [int] converts. *)
Definition readable_integer (v : string) (n : Z) : Prop :=
  integer_text (Py.to_ascii_decimal v) n
  /\ (Py.count_digits (Py.to_ascii_decimal v) <= Py.max_str_digits)%nat.

(** The topics of section 6 for a target: the base topic, followed by the
    role for the lock and the opener. *)
Definition topic_base (base target : string) : string :=
  if String.eqb target "hub" then base else base ++ "/" ++ target.

Definition action_topic (base target : string) : string :=
  topic_base base target ++ "/configuration/action".

Definition result_topic (base target : string) : string :=
  topic_base base target ++ "/configuration/commandResult".

Definition ip_topic (base : string) : string := base ++ "/info/nukiHubIp".

Definition valid_target (target : string) : bool :=
  String.eqb target "hub" || String.eqb target "lock"
  || String.eqb target "opener".

(** A message the handler takes for an announcement of the address. *)
Definition is_announcement (m : BusMessage) : bool :=
  Py.endswith (topic m) "/info/nukiHubIp".

(** The payload of the latest announcement of a batch. *)
Fixpoint last_announcement (msgs : list BusMessage) : option string :=
  match msgs with
  | [] => None
  | m :: later =>
      match last_announcement later with
      | Some a => Some a
      | None => if is_announcement m then Some (payload m) else None
      end
  end.

(** The value of the last entry of [settings] that sets [key]. *)
Fixpoint last_value (key : string) (settings : list string) : option string :=
  match settings with
  | [] => None
  | setting :: later =>
      match last_value key later with
      | Some v => Some v
      | None =>
          match Py.split_once "=" setting with
          | Some (k, v) => if String.eqb k key then Some v else None
          | None => None
          end
      end
  end.

(** The lines the loop of [main] prints for one entry. *)
Definition lines_for (target setting : string) : list string :=
  match Py.split_once "=" setting with
  | Some (key, _) =>
      if negb (String.eqb target "hub") && negb (contains (valid_keys target) key)
      then [warning_unknown_key key target]
      else []
  | None => [warning_ignored setting]
  end.

(** Number of calls of a kind in a log of [self.client]. *)
Definition is_subscribe (c : mqtt_call) : bool :=
  match c with subscribe _ => true | _ => false end.
Definition is_unsubscribe (c : mqtt_call) : bool :=
  match c with unsubscribe _ => true | _ => false end.
Definition is_publish (c : mqtt_call) : bool :=
  match c with publish _ _ => true | _ => false end.

Definition count (f : mqtt_call -> bool) (log : list mqtt_call) : nat :=
  List.length (filter f log).

(** ** Auxiliary definitions of the properties *)

(** A run that ends leaves less text than it was given; a run on enough
    fuel ends. *)
Definition consumed (s : string) (r : Json.result pyval) : Prop :=
  match r with
  | Json.Ok _ rest => (String.length rest < String.length s)%nat
  | Json.Err => True
  | Json.OutOfFuel => False
  | Json.Raises _ => True
  end.

(** A payload the handler handles to its end: [json.loads] returns, or
    raises the [JSONDecodeError] that the handler catches. *)
Definition handled (text : string) : bool :=
  match Json.loads text with
  | Json.OtherException _ => false
  | _ => true
  end.

(** The value the handler stores for such a payload when it is not the
    sentinel. *)
Definition decoded (text : string) : pyval :=
  match Json.loads text with
  | Json.Loaded v => v
  | _ => PyStr text
  end.

(** The client as [update_config] leaves it before its loop: awaiting the
    result topic, slot unset, subscribed, the command published. *)
Definition awaiting (self : NukiConfigClient) (target : string)
    (config_dict : dict ConfigValue) : NukiConfigClient :=
  let base := base_topic self in
  call (publish (action_topic base target) (Json.dumps config_dict))
    (print (Line ("Sending config to " ++ action_topic base target ++ ": "
                  ++ Json.dumps config_dict))
       (call (subscribe (result_topic base target))
          (set_response PyNone
             (set_waiting_for_topic (Some (result_topic base target)) self)))).

(** The client at the [return] of a call: the unsubscribe made, and the
    messages of the next poll handled. *)
Definition returning (unsubscribed : string) (s1 : NukiConfigClient)
    (later : list poll) : NukiConfigClient :=
  deliver (call (unsubscribe unsubscribed) s1) (before_return later).

(** The answer of the scenario of section 8. *)
Definition led_answer : string := "{" ++ q "ledBrightness" ++ ":2}".

Definition fresh_client : NukiConfigClient :=
  init "localhost" 1883 None None BASE_TOPIC.

(** The client as [wait_for_ip] leaves it before its loop. *)
Definition discovering (self : NukiConfigClient) : NukiConfigClient :=
  call (subscribe (ip_topic (base_topic self)))
    (print (Line ("Subscribing to " ++ ip_topic (base_topic self)
                  ++ " to get IP...")) self).

(** The payload of the first message of a list on a given topic. *)
Definition first_on (t : string) (msgs : list BusMessage) : option string :=
  match filter (fun m => String.eqb (topic m) t) msgs with
  | m :: _ => Some (payload m)
  | [] => None
  end.

(** One poll that finds two announcements. *)
Definition two_announcements : list poll :=
  [([mkMessage "nuki/hub/info/nukiHubIp" "192.168.1.10";
     mkMessage "nuki/hub/info/nukiHubIp" "192.168.1.20"], 1)].

(** The letters of "true" and "false". *)
Definition word_letters : list ascii :=
  ["t"; "r"; "u"; "e"; "f"; "a"; "l"; "s"]%char.

Fixpoint word_of (letters : list ascii) (w : string) : Prop :=
  match w with
  | EmptyString => True
  | String a r => In a letters /\ word_of letters r
  end.

(** The outcomes of section 6. *)
Inductive ArtifactResult : Type :=
  | Saved (data : list Byte.byte)
  | NotFound
  | AuthFailed
  | FetchError (status : option Z) (reason : string).

Definition classify (r : http_result) (w : list Byte.byte -> written)
  : ArtifactResult :=
  match r with
  | Body data =>
      match w data with
      | Written => Saved data
      | WriteError e _ => FetchError None e
      end
  | HTTPError code reason =>
      if (code =? 404)%Z then NotFound
      else if (code =? 401)%Z then AuthFailed
      else FetchError (Some code) reason
  | OtherError e => FetchError None e
  end.

(** The line that tells the outcome. *)
Definition report (output_file : string) (a : ArtifactResult) : string :=
  match a with
  | Saved _ => "Coredump saved to " ++ output_file
  | NotFound => "Coredump not found on device."
  | AuthFailed =>
      "Authentication failed. Please check --web-user and --web-password."
  | FetchError (Some code) reason =>
      "HTTP Error: " ++ Py.str_of_int code ++ " " ++ reason
  | FetchError None e => "Error fetching coredump: " ++ e
  end.

(** The class of an outcome, without what it carries. *)
Definition kind (a : ArtifactResult) : nat :=
  match a with
  | Saved _ => 0
  | NotFound => 1
  | AuthFailed => 2
  | FetchError _ _ => 3
  end.

(** The request [fetch_coredump] sends for an address. *)
Definition coredump_request (ip : string) (web_user web_password : option string)
  : http_request :=
  mkRequest ("http://" ++ ip ++ "/get?page=coredump")
    (match web_user, web_password with
     | Some u, Some p =>
         if Py.truthy web_user && Py.truthy web_password
         then Some (u, p) else None
     | _, _ => None
     end).

(** The files after a request answered by [r]. *)
Definition files_after (r : http_result) (w : list Byte.byte -> written)
    (output_file : string) (fs : files) : files :=
  match r with
  | Body data =>
      match w data with
      | Written => dict_set fs output_file data
      | WriteError _ None => fs
      | WriteError _ (Some partial) => dict_set fs output_file partial
      end
  | _ => fs
  end.

(** The URL of the coredump page at an address. *)
Definition coredump_url (ip : string) : string :=
  "http://" ++ ip ++ "/get?page=coredump".

(** A world where no URL can be split: the set-up of the credentials and
    [urlopen] raise the same [ValueError]. *)
Definition unsplit : World :=
  mkWorld (fun _ _ _ => Some "Invalid IPv6 URL")
          (fun _ => OtherError "Invalid IPv6 URL")
          (fun _ _ => Written).

(** A world where the set-up of the credentials and every write succeed,
    with a given server. *)
Definition served (server : http_request -> http_result) : World :=
  mkWorld (fun _ _ _ => None) server (fun _ _ => Written).

(** A server that has no coredump. *)
Definition no_coredump : World :=
  served (fun _ => HTTPError 404 "Not Found").

(** ** Auxiliary definitions: traffic of a call *)

(** A message that answers a request awaiting [rt]: on that topic, not the
    sentinel, and handled to the end. *)
Definition is_answer (rt : string) (m : BusMessage) : bool :=
  String.eqb (topic m) rt && negb (String.eqb (payload m) "--")
  && handled (payload m).

(** The opening brackets and braces of a text. *)
Fixpoint openings (text : string) : nat :=
  match text with
  | EmptyString => O
  | String c r =>
      if (Py.code c =? 91)%N || (Py.code c =? 123)%N
      then S (openings r) else openings r
  end.

(** A text that [json.loads] cannot nest deeper than 100 levels, whatever
    it holds: it has no more brackets and braces than that.  This is far
    from the recursion limit of an interpreter, which the model of
    [json.loads] leaves out. *)
Definition shallow (text : string) : bool := (openings text <=? 100)%nat.

(** The payload of the latest answer of a batch. *)
Fixpoint last_answer (rt : string) (msgs : list BusMessage) : option string :=
  match msgs with
  | [] => None
  | m :: later =>
      match last_answer rt later with
      | Some p => Some p
      | None => if is_answer rt m then Some (payload m) else None
      end
  end.

(** A sentinel message on the topic [rt]. *)
Definition is_sentinel (rt : string) (m : BusMessage) : bool :=
  String.eqb (topic m) rt && String.eqb (payload m) "--".

(** The polls with some of the messages left out. *)
Definition keep (f : BusMessage -> bool) (polls : list poll) : list poll :=
  map (fun p : poll => (filter f (fst p), snd p)) polls.

(** The client with its stored address forgotten. *)
Definition forget_ip (self : NukiConfigClient) : NukiConfigClient :=
  set_ip_address None self.

(** A poll whose clock reading is past the deadline. *)
Definition past_deadline (timeout start_time : Q) (p : poll) : bool :=
  timed_out (snd p) start_time timeout.

(** What follows the loop, on a pair of the client left by the loop and the
    polls not read yet. *)
Definition on_exit {A : Type} (f : NukiConfigClient -> list poll -> A)
    (r : option (NukiConfigClient * list poll)) : option A :=
  match r with
  | Some (s1, rest) => Some (f s1 rest)
  | None => None
  end.

(** Two exits of the loop of [wait_for_ip] of the same kind and with the
    same address stored, the second on polls from which the messages
    outside [f] were left out. *)
Definition same_exit (f : BusMessage -> bool)
    (a b : option (NukiConfigClient + NukiConfigClient * list poll)) : Prop :=
  match a, b with
  | Some (inl x), Some (inl y) => ip_address x = ip_address y
  | Some (inr (x, later)), Some (inr (y, later')) =>
      ip_address x = ip_address y /\ later' = keep f later
  | None, None => True
  | _, _ => False
  end.

(** ** Auxiliary definitions: the entries of the command line *)

(** The key of an entry that has a "=". *)
Definition entry_key (setting : string) : list string :=
  match Py.split_once "=" setting with
  | Some (key, _) => [key]
  | None => []
  end.

Definition well_formed (setting : string) : bool :=
  match Py.split_once "=" setting with
  | Some _ => true
  | None => false
  end.

(** The keys of a list, each at its first occurrence. *)
Definition add_key (seen : list string) (key : string) : list string :=
  if contains seen key then seen else (seen ++ [key])%list.

Definition first_occurrences (keys : list string) : list string :=
  fold_left add_key keys [].

(** No "=" in a text. *)
Fixpoint no_equals (s : string) : bool :=
  match s with
  | EmptyString => true
  | String c r => negb (Ascii.eqb c "=") && no_equals r
  end.

(** The value of the digits of a decimal numeral, most significant
    first. *)
Fixpoint uint_value (acc : Z) (d : Decimal.uint) : Z :=
  match d with
  | Decimal.Nil => acc
  | Decimal.D0 l => uint_value (10 * acc + 0) l
  | Decimal.D1 l => uint_value (10 * acc + 1) l
  | Decimal.D2 l => uint_value (10 * acc + 2) l
  | Decimal.D3 l => uint_value (10 * acc + 3) l
  | Decimal.D4 l => uint_value (10 * acc + 4) l
  | Decimal.D5 l => uint_value (10 * acc + 5) l
  | Decimal.D6 l => uint_value (10 * acc + 6) l
  | Decimal.D7 l => uint_value (10 * acc + 7) l
  | Decimal.D8 l => uint_value (10 * acc + 8) l
  | Decimal.D9 l => uint_value (10 * acc + 9) l
  end.

(** ** Auxiliary definitions: the runs of [main] *)

(** The calls of [__init__] on the transport. *)
Definition credentials_calls (a : Args) : list mqtt_call :=
  client (init (arg_broker a) (arg_port a) (arg_user a) (arg_password a)
               (arg_topic a)).

(** A call other than the connection, the stop of the loop and the
    disconnection. *)
Definition session_call (c : mqtt_call) : bool :=
  match c with
  | connect_to _ _ _ => false
  | disconnect_from => false
  | loop_stop => false
  | _ => true
  end.

(** The calls of a run that has connected and is over. *)
Definition paired (a : Args) (calls : list mqtt_call) : Prop :=
  exists session,
    calls = (credentials_calls a
             ++ connect_to (arg_broker a) (arg_port a) 60
                :: session ++ [loop_stop; disconnect_from])%list
    /\ forallb session_call session = true.

(** ** Auxiliary definitions: hexadecimal text *)

(** [bytes.hex()]: two lower-case digits for each byte. *)
Definition hex_digit (n : N) : N := (if n <? 10 then 48 + n else 87 + n)%N.

Definition hex_of_byte (b : Byte.byte) : text :=
  let n := N_of_ascii (ascii_of_byte b) in
  [hex_digit (n / 16); hex_digit (n mod 16)]%N.

Definition hexlify (data : list Byte.byte) : text := flat_map hex_of_byte data.

(** A character that ends a line: line feed or carriage return. *)
Definition is_newline (c : N) : bool := ((c =? 10) || (c =? 13))%N.

(** The line ends of a text file: LF, CR LF or CR. *)
Definition is_eol (eol : text) : bool :=
  match eol with
  | [a] => ((a =? 10) || (a =? 13))%N
  | [a; b] => ((a =? 13) && (b =? 10))%N
  | _ => false
  end.

Definition one_line (t : text) : bool := forallb (fun c => negb (is_newline c)) t.





(** * Checks on concrete inputs *)

Example int_plain : Py.int "42" = Some 42%Z. Proof. reflexivity. Qed.
Example int_neg : Py.int "-7" = Some (-7)%Z. Proof. reflexivity. Qed.
Example int_spaces : Py.int " 12 " = Some 12%Z. Proof. reflexivity. Qed.
Example int_underscore : Py.int "1_000" = Some 1000%Z. Proof. reflexivity. Qed.
Example int_bad1 : Py.int "1__0" = None. Proof. reflexivity. Qed.
Example int_bad2 : Py.int "_1" = None. Proof. reflexivity. Qed.
Example int_bad3 : Py.int "1_" = None. Proof. reflexivity. Qed.
Example int_bad4 : Py.int "- 1" = None. Proof. reflexivity. Qed.
Example int_bad5 : Py.int EmptyString = None. Proof. reflexivity. Qed.
Example int_bad6 : Py.int "+" = None. Proof. reflexivity. Qed.
Example int_bad7 : Py.int "1.5" = None. Proof. reflexivity. Qed.
Example int_arabic_indic :
  Py.int (String "217" (String "161" (String "217" (String "162" EmptyString))))
  = Some 12%Z.
Proof. reflexivity. Qed.
Example int_fullwidth :
  Py.int (String "239" (String "188" (String "151" EmptyString))) = Some 7%Z.
Proof. reflexivity. Qed.
Example int_no_break_space :
  Py.int (String "194" (String "160" "7")) = Some 7%Z.
Proof. reflexivity. Qed.
Example int_long :
  Py.int (string_of_list_ascii (repeat "1"%char 4301)) = None
  /\ Py.int ("-" ++ string_of_list_ascii (repeat "0"%char 4300)) = Some 0%Z
  /\ Py.int ("1_" ++ string_of_list_ascii (repeat "0"%char 4300)) = None.
Proof. vm_compute. repeat split. Qed.
Example str_of_int_404 : Py.str_of_int 404 = "404". Proof. reflexivity. Qed.
Example endswith_ex : Py.endswith "nuki/hub/info/nukiHubIp" "/info/nukiHubIp" = true.
Proof. reflexivity. Qed.
Example split_ex : Py.split_once "=" "a=b=c" = Some ("a", "b=c").
Proof. reflexivity. Qed.
Example parse_settings_ex :
  parse_settings "opener" ["soundLevel=3"; "bogus"; "x=Yes"; "x=FALSE"]
  = ([("soundLevel", Integer 3); ("x", Boolean false)],
     [warning_ignored "bogus"; warning_unknown_key "x" "opener";
      warning_unknown_key "x" "opener"]).
Proof. reflexivity. Qed.
Example loads_null : Json.loads "null" = Json.Loaded PyNone. Proof. reflexivity. Qed.
Example loads_ws_null : Json.loads " null
" = Json.Loaded PyNone. Proof. reflexivity. Qed.
Example loads_sentinel : Json.loads "--" = Json.JSONDecodeError. Proof. reflexivity. Qed.
Example loads_empty : Json.loads EmptyString = Json.JSONDecodeError. Proof. reflexivity. Qed.
Example loads_int : Json.loads "-12" = Json.Loaded (PyInt (-12)). Proof. reflexivity. Qed.
Example loads_float : Json.loads "1.5e3" = Json.Loaded (PyFloat "1.5e3"). Proof. reflexivity. Qed.
Example loads_bad_number : Json.loads "01" = Json.JSONDecodeError. Proof. reflexivity. Qed.
Example loads_string :
  Json.loads (q "a\n\u00e9")
  = Json.Loaded (PyStr (String "a" (String "010" (String "195" (String "169" EmptyString))))).
Proof. reflexivity. Qed.
Example loads_nested :
  Json.loads ("{ " ++ q "a" ++ " : [1, true, {" ++ q "b" ++ ": null}], "
              ++ q "a" ++ ": 2, " ++ q "c" ++ ": [] }")
  = Json.Loaded (PyDict [("a", PyInt 2); ("c", PyList [])]).
Proof. reflexivity. Qed.
Example loads_list :
  Json.loads ("[1, [2, " ++ q "x" ++ "], {}]")
  = Json.Loaded (PyList [PyInt 1; PyList [PyInt 2; PyStr "x"]; PyDict []]).
Proof. reflexivity. Qed.
Example loads_trailing_comma : Json.loads "[1,]" = Json.JSONDecodeError. Proof. reflexivity. Qed.
Example loads_extra : Json.loads "1 2" = Json.JSONDecodeError. Proof. reflexivity. Qed.
Example loads_text : Json.loads "OK" = Json.JSONDecodeError. Proof. reflexivity. Qed.
Example loads_long_integer :
  Json.loads (string_of_list_ascii (repeat "1"%char 4301))
  = Json.OtherException "ValueError"
  /\ handled (string_of_list_ascii (repeat "1"%char 4300)) = true
  /\ handled ("-" ++ string_of_list_ascii (repeat "1"%char 4300)) = true
  /\ handled (string_of_list_ascii (repeat "1"%char 4301) ++ ".5") = true
  /\ Json.loads ("[" ++ string_of_list_ascii (repeat "0"%char 4301))
     = Json.JSONDecodeError
  /\ Json.loads ("[1" ++ string_of_list_ascii (repeat "0"%char 4301))
     = Json.OtherException "ValueError".
Proof. vm_compute. repeat split. Qed.
Example dumps_ex :
  Json.dumps [("n", Integer (-5)); ("b", Boolean false); ("s", String_ (q "a\")) ]
  = ("{" ++ q "n" ++ ": -5, " ++ q "b" ++ ": false, " ++ q "s" ++ ": "
     ++ q ("\" ++ q "a\\\") ++ "}")%string.
Proof. reflexivity. Qed.
Example dumps_empty : Json.dumps [] = "{}". Proof. reflexivity. Qed.
Example dumps_unicode :
  Json.dumps_str (String "195" (String "169" (String "127" (String "001" EmptyString))))
  = q "\u00e9\u007f\u0001".
Proof. reflexivity. Qed.
Example dumps_astral :
  Json.dumps_str (Json.utf8 128512) = q "\ud83d\ude00".
Proof. reflexivity. Qed.

Example main_run :
  let r := main (mkArgs "localhost" 1883 (Some "u") (Some "p") "nuki/hub"
                   false false None None "coredump.hex" (Some "opener")
                   ["soundLevel=3"; "volume"])
             (mkEnv "usage" None (Some (0%Z, "Success")) 0
                [([mkMessage "nuki/hub/opener/configuration/commandResult"
                     "OK"], 1)]
                no_coredump []) in
  ending_of r = Returns
  /\ calls_of r
     = [username_pw_set "u" "p"; connect_to "localhost" 1883 60; loop_start;
        subscribe "nuki/hub/opener/configuration/commandResult";
        publish "nuki/hub/opener/configuration/action"
          ("{" ++ q "soundLevel" ++ ": 3}");
        unsubscribe "nuki/hub/opener/configuration/commandResult";
        loop_stop; disconnect_from]
  /\ firstn 3 (printed_of r)
     = [Line (warning_ignored "volume");
        Line "Connected to MQTT broker at localhost:1883";
        Line ("Sending config to nuki/hub/opener/configuration/action: {"
              ++ q "soundLevel" ++ ": 3}")].
Proof. repeat split. Qed.

Example main_list :
  printed_of (main (mkArgs "localhost" 1883 None None "nuki/hub"
                      true false None None "coredump.hex" (Some "hub") [])
                (mkEnv "usage" None None 0 [] no_coredump []))
  = (Line "--- Available settings for hub ---"
     :: Line (String "010" "[Hub Settings]")
     :: map key_line
          ["authInfoEna"; "authPerEntry"; "authmaxentry"; "batInterval";
           "bleTxPwr"; "checkupdates"; "cnfInfoEnabled"; "configInterval";
           "cred_password"; "cred_user"; "dhcpena"; "dnssrv"; "hostname";
           "hybridTimer"; "ipaddr"; "ipgtw"; "ipsub"; "kpInfoEnabled";
           "kpInterval"; "kpPerEntry"; "kpPubCode"; "kpmaxentry";
           "lockStInterval"; "mqtt_lock_path"; "mqttlog"; "nettmout";
           "nrRetry"; "openercont"; "pubAuth"; "regAsApp"; "regOpnAsApp";
           "rssipb"; "rtryDelay"; "tcInfoEnabled"; "tcPerEntry"; "tcmaxentry";
           "webserver_enabled"; "wifiPass"; "wifiSSID"])%list.
Proof. reflexivity. Qed.

Example convert_example :
  convert_hex_to_bin
    (Text.codes ("v1" ++ String "010" ("esp32" ++ String "010"
                 ("00ff" ++ String "010" ("1A" ++ String "010" EmptyString)))))
    "in.hex" "out.bin" writable []
  = (Returned tt,
     [Labelled "Header 1: " (Text.codes "v1");
      Labelled "Header 2: " (Text.codes "esp32");
      Plain "Successfully converted in.hex to out.bin"],
     [("out.bin", [Byte.x00; Byte.xff; Byte.x1a])]).
Proof. reflexivity. Qed.

Example convert_unwritable :
  convert_hex_to_bin
    (Text.codes ("v1" ++ String "010" ("esp32" ++ String "010" "00ff")))
    "in.hex" "out.bin"
    (fun _ _ => Broken "[Errno 13] Permission denied: 'out.bin'" None) []
  = (Raised "[Errno 13] Permission denied: 'out.bin'",
     [Labelled "Header 1: " (Text.codes "v1");
      Labelled "Header 2: " (Text.codes "esp32")],
     []).
Proof. reflexivity. Qed.

(** * Properties *)

(** ** The decoder always comes to an end *)

Ltac ascii_cases c := destruct c as [[] [] [] [] [] [] [] []].

Lemma skip_ws_length (s : string) :
  (String.length (Json.skip_ws s) <= String.length s)%nat.
Proof.
  induction s as [|c r IH]; simpl; [lia|].
  destruct (Json.is_ws c); simpl; lia.
Qed.

Lemma strip_prefix_length (p : string) :
  forall s rest,
    Json.strip_prefix p s = Some rest ->
    String.length s = (String.length p + String.length rest)%nat.
Proof.
  induction p as [|a p IH]; intros s rest; simpl.
  - now intros [= ->].
  - destruct s as [|b s]; [discriminate|].
    destruct (Ascii.eqb a b); [|discriminate].
    intros H. simpl. now rewrite (IH _ _ H).
Qed.

Lemma prepend_some (p : string) (x : option (string * string)) (v rest : string) :
  Json.prepend p x = Some (v, rest) -> exists v', x = Some (v', rest).
Proof.
  destruct x as [[v' rest']|]; simpl; [|discriminate].
  intros [= _ <-]. now exists v'.
Qed.

(** A string read leaves less text than there was. *)
Lemma scanstring_length (n : nat) :
  forall s v rest,
    (String.length s <= n)%nat ->
    Json.scanstring s = Some (v, rest) ->
    (String.length rest < String.length s)%nat.
Proof.
  induction n as [|n IH]; intros s v rest Hn H.
  - destruct s; [discriminate | simpl in Hn; lia].
  - destruct s as [|c r]; [discriminate|]. simpl in H.
    repeat match type of H with
           | None = Some _ => discriminate H
           | Some _ = Some _ => injection H as <- <-; simpl; lia
           | Json.prepend _ (Json.scanstring _) = Some _ =>
               apply prepend_some in H; destruct H as [v' H];
               apply IH in H; simpl in *; lia
           | context [match ?x with _ => _ end] => destruct x
           end.
Qed.

Lemma span_digits_length (s : string) :
  forall ds rest,
    Json.span_digits s = (ds, rest) ->
    String.length s = (String.length ds + String.length rest)%nat.
Proof.
  induction s as [|c r IH]; intros ds rest; simpl.
  - now intros [= <- <-].
  - destruct (Py.isdigit c).
    + destruct (Json.span_digits r) as [ds' rest'].
      intros [= <- <-]. simpl. now rewrite (IH _ _ eq_refl).
    + now intros [= <- <-].
Qed.

Lemma match_unsigned_length (s t rest : string) :
  Json.match_unsigned s = Some (t, rest) ->
  (String.length rest < String.length s)%nat.
Proof.
  destruct s as [|c r]; [discriminate|]. unfold Json.match_unsigned.
  destruct (Json.code c =? 48)%N; [intros [= _ <-]; simpl; lia|].
  destruct (Py.isdigit c) eqn:Hd; [|discriminate].
  simpl. rewrite Hd. destruct (Json.span_digits r) as [ds rest'] eqn:E.
  intros [= _ <-]. pose proof (span_digits_length _ _ _ E). simpl. lia.
Qed.

Lemma match_integer_length (s t rest : string) :
  Json.match_integer s = Some (t, rest) ->
  (String.length rest < String.length s)%nat.
Proof.
  destruct s as [|c r]; [discriminate|]. unfold Json.match_integer.
  destruct (Json.code c =? 45)%N.
  - destruct (Json.match_unsigned r) as [[ds rest']|] eqn:E; [|discriminate].
    intros [= _ <-]. pose proof (match_unsigned_length _ _ _ E). simpl. lia.
  - apply match_unsigned_length.
Qed.

Lemma match_frac_length (s : string) :
  (String.length (snd (Json.match_frac s)) <= String.length s)%nat.
Proof.
  destruct s as [|c r]; [simpl; lia|]. unfold Json.match_frac.
  destruct (Json.code c =? 46)%N; [|simpl; lia].
  destruct (Json.span_digits r) as [[|d ds] rest] eqn:E; [simpl; lia|].
  pose proof (span_digits_length _ _ _ E). simpl in *. lia.
Qed.

Lemma match_exp_length (s : string) :
  (String.length (snd (Json.match_exp s)) <= String.length s)%nat.
Proof.
  destruct s as [|e r]; [simpl; lia|]. unfold Json.match_exp.
  destruct ((Json.code e =? 101)%N || (Json.code e =? 69)%N); [|simpl; lia].
  destruct r as [|c r'].
  - simpl. lia.
  - destruct ((Json.code c =? 43)%N || (Json.code c =? 45)%N).
    + destruct (Json.span_digits r') as [[|d ds] rest] eqn:E; [simpl; lia|].
      pose proof (span_digits_length _ _ _ E). simpl in *. lia.
    + destruct (Json.span_digits (String c r')) as [[|d ds] rest] eqn:E;
        [simpl; lia|].
      pose proof (span_digits_length _ _ _ E). simpl in *. lia.
Qed.

Lemma match_number_length (s : string) (v : pyval) (rest : string) :
  Json.match_number s = Json.Ok v rest ->
  (String.length rest < String.length s)%nat.
Proof.
  unfold Json.match_number.
  destruct (Json.match_integer s) as [[t r1]|] eqn:E; [|discriminate].
  pose proof (match_integer_length _ _ _ E) as H1.
  pose proof (match_frac_length r1) as H2.
  destruct (Json.match_frac r1) as [frac r2]. simpl in H2.
  pose proof (match_exp_length r2) as H3.
  destruct (Json.match_exp r2) as [exp r3]. simpl in H3.
  destruct (frac ++ exp)%string;
    [destruct (Json.int_of_text t); [|discriminate]|];
    intros [= _ <-]; lia.
Qed.

Lemma match_number_fuel (s : string) : Json.match_number s <> Json.OutOfFuel.
Proof.
  unfold Json.match_number.
  destruct (Json.match_integer s) as [[t r1]|]; [|discriminate].
  destruct (Json.match_frac r1) as [frac r2].
  destruct (Json.match_exp r2) as [exp r3].
  destruct (frac ++ exp)%string;
    [destruct (Json.int_of_text t)|]; discriminate.
Qed.

Lemma literal_consumed (p : string) (v : pyval) (s : string) :
  p <> EmptyString ->
  match Json.literal p v s with
  | Json.Ok _ rest => (String.length rest < String.length s)%nat
  | Json.Err => True
  | Json.OutOfFuel => False
  | Json.Raises _ => True
  end.
Proof.
  intros Hp. unfold Json.literal.
  destruct (Json.strip_prefix p s) as [rest|] eqn:E; [|exact I].
  pose proof (strip_prefix_length _ _ _ E).
  destruct p; [now elim Hp | simpl in *; lia].
Qed.

Lemma consumed_weaken (s s' : string) (r : Json.result pyval) :
  consumed s' r -> (String.length s' <= String.length s)%nat -> consumed s r.
Proof. destruct r; simpl; [lia | trivial | trivial | trivial]. Qed.

Lemma scan_once_S (f : nat) (c : ascii) (r : string) :
  Json.scan_once (S f) (String c r)
  = let s := String c r in
    if (Json.code c =? 34)%N then
      match Json.scanstring r with
      | Some (v, rest) => Json.Ok (PyStr v) rest
      | None => Json.Err
      end
    else if (Json.code c =? 123)%N then
      match Json.skip_ws r with
      | String c1 rest =>
          if (Json.code c1 =? 125)%N then Json.Ok (PyDict []) rest
          else if (Json.code c1 =? 34)%N then Json.object_items f rest []
          else Json.Err
      | EmptyString => Json.Err
      end
    else if (Json.code c =? 91)%N then
      match Json.skip_ws r with
      | String c1 rest =>
          if (Json.code c1 =? 93)%N then Json.Ok (PyList []) rest
          else Json.array_items f (Json.skip_ws r) []
      | EmptyString => Json.Err
      end
    else if (Json.code c =? 110)%N then Json.literal "null" PyNone s
    else if (Json.code c =? 116)%N then Json.literal "true" (PyBool true) s
    else if (Json.code c =? 102)%N then Json.literal "false" (PyBool false) s
    else
      match Json.match_number s with
      | Json.Ok v rest => Json.Ok v rest
      | Json.Raises e => Json.Raises e
      | _ =>
          if (Json.code c =? 78)%N then Json.literal "NaN" (PyFloat "nan") s
          else if (Json.code c =? 73)%N then Json.literal "Infinity" (PyFloat "inf") s
          else if (Json.code c =? 45)%N then Json.literal "-Infinity" (PyFloat "-inf") s
          else Json.Err
      end.
Proof. reflexivity. Qed.

Lemma array_items_S (f : nat) (s : string) (acc : list pyval) :
  Json.array_items (S f) s acc
  = match Json.scan_once f s with
    | Json.Ok v rest =>
        match Json.skip_ws rest with
        | String c r =>
            if (Json.code c =? 93)%N then Json.Ok (PyList (rev (v :: acc))) r
            else if (Json.code c =? 44)%N
            then Json.array_items f (Json.skip_ws r) (v :: acc)
            else Json.Err
        | EmptyString => Json.Err
        end
    | Json.Err => Json.Err
    | Json.OutOfFuel => Json.OutOfFuel
    | Json.Raises e => Json.Raises e
    end.
Proof. reflexivity. Qed.

Lemma object_items_S (f : nat) (s : string) (acc : dict pyval) :
  Json.object_items (S f) s acc
  = match Json.scanstring s with
    | None => Json.Err
    | Some (key, rest) =>
        match Json.skip_ws rest with
        | String c r =>
            if (Json.code c =? 58)%N then
              match Json.scan_once f (Json.skip_ws r) with
              | Json.Ok v rest2 =>
                  match Json.skip_ws rest2 with
                  | String c2 r2 =>
                      if (Json.code c2 =? 125)%N
                      then Json.Ok (PyDict (dict_set acc key v)) r2
                      else if (Json.code c2 =? 44)%N then
                        match Json.skip_ws r2 with
                        | String c3 r3 =>
                            if (Json.code c3 =? 34)%N
                            then Json.object_items f r3 (dict_set acc key v)
                            else Json.Err
                        | EmptyString => Json.Err
                        end
                      else Json.Err
                  | EmptyString => Json.Err
                  end
              | Json.Err => Json.Err
              | Json.OutOfFuel => Json.OutOfFuel
              | Json.Raises e => Json.Raises e
              end
            else Json.Err
        | EmptyString => Json.Err
        end
    end.
Proof. reflexivity. Qed.

Ltac ws_length :=
  repeat match goal with
         | H : Json.skip_ws ?x = _ |- _ =>
             pose proof (skip_ws_length x); rewrite H in *; clear H
         | H : Json.scanstring ?x = Some _ |- _ =>
             apply (scanstring_length _ _ _ _ (Nat.le_refl _)) in H
         end;
  simpl String.length in *.

Lemma scanner_fuel (fuel : nat) :
  (forall s, (2 * String.length s + 1 <= fuel)%nat ->
             consumed s (Json.scan_once fuel s))
  /\ (forall s acc, (2 * String.length s + 2 <= fuel)%nat ->
                    consumed s (Json.array_items fuel s acc))
  /\ (forall s acc, (2 * String.length s + 2 <= fuel)%nat ->
                    consumed s (Json.object_items fuel s acc)).
Proof.
  induction fuel as [|f [IHs [IHa IHo]]].
  - repeat split; intros; lia.
  - split; [| split].
    + intros [|c r] Hf; [exact I|]. rewrite scan_once_S. cbv zeta.
      simpl String.length in Hf.
      destruct (Json.code c =? 34)%N.
      { destruct (Json.scanstring r) as [[v rest]|] eqn:E; [|exact I].
        ws_length. simpl. lia. }
      destruct (Json.code c =? 123)%N.
      { destruct (Json.skip_ws r) as [|c1 rest] eqn:E; [exact I|].
        destruct (Json.code c1 =? 125)%N; [ws_length; simpl; lia|].
        destruct (Json.code c1 =? 34)%N; [|exact I].
        ws_length. apply (consumed_weaken _ rest); [apply IHo; lia | simpl; lia]. }
      destruct (Json.code c =? 91)%N.
      { destruct (Json.skip_ws r) as [|c1 rest] eqn:E; [exact I|].
        destruct (Json.code c1 =? 93)%N; [ws_length; simpl; lia|].
        ws_length.
        apply (consumed_weaken _ (String c1 rest));
          [apply IHa; simpl; lia | simpl; lia]. }
      destruct (Json.code c =? 110)%N; [now apply literal_consumed|].
      destruct (Json.code c =? 116)%N; [now apply literal_consumed|].
      destruct (Json.code c =? 102)%N; [now apply literal_consumed|].
      destruct (Json.match_number (String c r)) as [v rest| | |e] eqn:E;
        [apply match_number_length in E; exact E
        | | now elim (match_number_fuel _ E) | exact I].
      destruct (Json.code c =? 78)%N; [now apply literal_consumed|].
      destruct (Json.code c =? 73)%N; [now apply literal_consumed|].
      destruct (Json.code c =? 45)%N; [now apply literal_consumed|].
      exact I.
    + intros s acc Hf. rewrite array_items_S.
      assert (Hs : consumed s (Json.scan_once f s)) by (apply IHs; lia).
      destruct (Json.scan_once f s) as [v rest| | |e]; [| exact I | exact Hs | exact I].
      simpl in Hs.
      destruct (Json.skip_ws rest) as [|c r] eqn:E; [exact I|].
      destruct (Json.code c =? 93)%N; [ws_length; simpl; lia|].
      destruct (Json.code c =? 44)%N; [|exact I].
      ws_length. pose proof (skip_ws_length r) as Hl.
      apply (consumed_weaken _ (Json.skip_ws r)); [apply IHa; lia | lia].
    + intros s acc Hf. rewrite object_items_S.
      destruct (Json.scanstring s) as [[key rest]|] eqn:Ek; [|exact I].
      destruct (Json.skip_ws rest) as [|c r] eqn:E1; [exact I|].
      destruct (Json.code c =? 58)%N; [|exact I].
      ws_length. pose proof (skip_ws_length r) as Hl.
      assert (Hs : consumed (Json.skip_ws r) (Json.scan_once f (Json.skip_ws r)))
        by (apply IHs; lia).
      destruct (Json.scan_once f (Json.skip_ws r)) as [v rest2| | |e];
        [| exact I | exact Hs | exact I].
      simpl in Hs.
      destruct (Json.skip_ws rest2) as [|c2 r2] eqn:E2; [exact I|].
      destruct (Json.code c2 =? 125)%N; [ws_length; simpl; lia|].
      destruct (Json.code c2 =? 44)%N; [|exact I].
      destruct (Json.skip_ws r2) as [|c3 r3] eqn:E3; [exact I|].
      destruct (Json.code c3 =? 34)%N; [|exact I].
      ws_length.
      apply (consumed_weaken _ r3); [apply IHo; lia | lia].
Qed.

(** [json.loads] never stops for want of fuel: it returns a value or
    raises its error. *)
Lemma scan_once_ends (s : string) :
  Json.scan_once (Json.fuel_for s) s <> Json.OutOfFuel.
Proof.
  destruct (scanner_fuel (Json.fuel_for s)) as [H _].
  specialize (H s (Nat.le_refl _)).
  intros E. rewrite E in H. exact H.
Qed.

(** ** Text *)

Lemma length_app (a b : string) :
  String.length (a ++ b) = (String.length a + String.length b)%nat.
Proof. induction a as [|c a IH]; simpl; [reflexivity | now rewrite IH]. Qed.

Lemma substring_skip (a b : string) (m k : nat) :
  substring (String.length a + m) k (a ++ b) = substring m k b.
Proof. induction a as [|c a IH]; simpl; [reflexivity | exact IH]. Qed.

(** A suffix no longer than the second part of a text is looked up in that
    part alone. *)
Lemma endswith_app (a b suffix : string) :
  (String.length suffix <= String.length b)%nat ->
  Py.endswith (a ++ b) suffix = Py.endswith b suffix.
Proof.
  intros Hlen. unfold Py.endswith. rewrite length_app.
  replace (String.length a + String.length b - String.length suffix)%nat
    with (String.length a + (String.length b - String.length suffix))%nat by lia.
  rewrite substring_skip.
  destruct (Nat.leb_spec (String.length suffix) (String.length b)); [|lia].
  destruct (Nat.leb_spec (String.length suffix)
              (String.length a + String.length b)); [reflexivity | lia].
Qed.

Lemma app_assoc_string (a b c : string) : ((a ++ b) ++ c = a ++ (b ++ c))%string.
Proof. induction a as [|x a IH]; simpl; [reflexivity | now rewrite IH]. Qed.

(** No result topic is taken for an announcement of the address. *)
Lemma result_suffix_not_announcement (b : string) :
  Py.endswith (b ++ TOPIC_RESULT_SUFFIX) "/info/nukiHubIp" = false.
Proof. rewrite endswith_app; [reflexivity | simpl; lia]. Qed.

Lemma result_suffix_truthy (b : string) :
  Py.truthy (Some (b ++ TOPIC_RESULT_SUFFIX)) = true.
Proof. destruct b; reflexivity. Qed.

(** The announcement topic of a client is taken for one. *)
Lemma ip_topic_is_announcement (b : string) :
  Py.endswith (ip_topic b) "/info/nukiHubIp" = true.
Proof. unfold ip_topic. rewrite endswith_app; [reflexivity | simpl; lia]. Qed.

(** ** The message handler *)

Ltac on_message_cases :=
  unfold on_message;
  repeat match goal with
         | |- context [if ?c then _ else _] => destruct c
         | |- context [match Json.loads ?p with _ => _ end] => destruct (Json.loads p)
         end;
  try reflexivity.

(** The handler makes no call on the transport and leaves the topics of the
    client as they are. *)
Lemma on_message_client (self : NukiConfigClient) (m : BusMessage) :
  client (on_message self m) = client self.
Proof. on_message_cases. Qed.

Lemma on_message_base_topic (self : NukiConfigClient) (m : BusMessage) :
  base_topic (on_message self m) = base_topic self.
Proof. on_message_cases. Qed.

Lemma on_message_waiting (self : NukiConfigClient) (m : BusMessage) :
  waiting_for_topic (on_message self m) = waiting_for_topic self.
Proof. on_message_cases. Qed.

Lemma call_client (c : mqtt_call) (self : NukiConfigClient) :
  client (call c self) = (client self ++ [c])%list.
Proof. reflexivity. Qed.

Lemma deliver_client (msgs : list BusMessage) (self : NukiConfigClient) :
  client (deliver self msgs) = client self.
Proof.
  unfold deliver. revert self.
  induction msgs as [|m msgs IH]; intros self; simpl;
    [reflexivity | rewrite IH; apply on_message_client].
Qed.

Lemma deliver_base_topic (msgs : list BusMessage) (self : NukiConfigClient) :
  base_topic (deliver self msgs) = base_topic self.
Proof.
  unfold deliver. revert self.
  induction msgs as [|m msgs IH]; intros self; simpl;
    [reflexivity | rewrite IH; apply on_message_base_topic].
Qed.

Lemma deliver_waiting (msgs : list BusMessage) (self : NukiConfigClient) :
  waiting_for_topic (deliver self msgs) = waiting_for_topic self.
Proof.
  unfold deliver. revert self.
  induction msgs as [|m msgs IH]; intros self; simpl;
    [reflexivity | rewrite IH; apply on_message_waiting].
Qed.

Lemma deliver_app (a b : list BusMessage) (self : NukiConfigClient) :
  deliver self (a ++ b)%list = deliver (deliver self a) b.
Proof. unfold deliver. apply fold_left_app. Qed.

(** A message on the awaited result topic: the sentinel changes nothing,
    and a payload on which [json.loads] raises another exception than its
    own neither; any other payload is stored, decoded when it is JSON and as
    it is otherwise. *)
Lemma on_message_awaited (self : NukiConfigClient) (m : BusMessage) (b : string) :
  waiting_for_topic self = Some (b ++ TOPIC_RESULT_SUFFIX) ->
  topic m = b ++ TOPIC_RESULT_SUFFIX ->
  (payload m = "--" -> on_message self m = self) /\
  (handled (payload m) = false -> on_message self m = self) /\
  (payload m <> "--" -> handled (payload m) = true ->
   response (on_message self m) = decoded (payload m) /\
   ip_address (on_message self m) = ip_address self).
Proof.
  intros Hw Ht. unfold on_message, decoded, handled.
  rewrite Ht, Hw, result_suffix_not_announcement, result_suffix_truthy.
  rewrite String.eqb_refl. simpl. split; [| split].
  - intros ->. reflexivity.
  - destruct (payload m =? "--")%string; [reflexivity|].
    destruct (Json.loads (payload m)); try discriminate. reflexivity.
  - intros Hp. apply String.eqb_neq in Hp. rewrite Hp.
    destruct (Json.loads (payload m)); try discriminate; split; reflexivity.
Qed.

(** The client after an answer on the awaited result topic: the decoded
    payload in the slot, and the two prints of the handler. *)
Lemma on_message_answer (self : NukiConfigClient) (m : BusMessage) (b : string) :
  waiting_for_topic self = Some (b ++ TOPIC_RESULT_SUFFIX) ->
  topic m = b ++ TOPIC_RESULT_SUFFIX ->
  payload m <> "--" ->
  handled (payload m) = true ->
  on_message self m
  = print (Value (decoded (payload m)))
      (print (Line (String "010" "Received response on " ++ topic m ++ ":"))
         (set_response (decoded (payload m)) self)).
Proof.
  destruct m as [t p]. simpl topic. simpl payload. intros Hw -> Hp.
  unfold on_message, decoded, handled. simpl topic. simpl payload.
  rewrite Hw, result_suffix_not_announcement, result_suffix_truthy.
  rewrite String.eqb_refl.
  apply String.eqb_neq in Hp. rewrite Hp. simpl andb. cbv iota.
  destruct (Json.loads p); try discriminate; reflexivity.
Qed.

(** An announcement is stored as the address, whatever it says, and the
    response slot is left alone. *)
Lemma on_message_announcement (self : NukiConfigClient) (m : BusMessage) :
  is_announcement m = true ->
  on_message self m = set_ip_address (Some (payload m)) self.
Proof. unfold is_announcement, on_message. intros ->. reflexivity. Qed.

(** Any other message leaves the address alone. *)
Lemma on_message_not_announcement (self : NukiConfigClient) (m : BusMessage) :
  is_announcement m = false ->
  ip_address (on_message self m) = ip_address self.
Proof.
  unfold is_announcement. intros H. unfold on_message. rewrite H.
  repeat match goal with
         | |- context [if ?c then _ else _] => destruct c
         | |- context [match Json.loads ?p with _ => _ end] => destruct (Json.loads p)
         end; reflexivity.
Qed.

(** A message on a topic that is neither an announcement nor the awaited
    one changes nothing. *)
Lemma on_message_unrelated (self : NukiConfigClient) (m : BusMessage) :
  is_announcement m = false ->
  waiting_for_topic self <> Some (topic m) ->
  on_message self m = self.
Proof.
  unfold is_announcement. intros H Hw. unfold on_message. rewrite H.
  destruct (waiting_for_topic self) as [t|].
  - destruct (String.eqb_spec (topic m) t) as [E|Hne].
    + elim Hw. now rewrite E.
    + destruct (Py.truthy (Some t)); reflexivity.
  - reflexivity.
Qed.

(** ** The request correlator *)

Lemma valid_target_cases (target : string) :
  valid_target target = true ->
  target = "hub" \/ target = "lock" \/ target = "opener".
Proof.
  unfold valid_target. intros H.
  destruct (String.eqb_spec target "hub"); [now left|].
  destruct (String.eqb_spec target "lock"); [now right; left|].
  destruct (String.eqb_spec target "opener"); [now right; right|].
  discriminate.
Qed.

(** [update_config] on one of the three targets: the loop run from
    [awaiting], then the unsubscribe and the return of the slot. *)
Lemma update_config_valid (self : NukiConfigClient) (target : string)
    (config_dict : dict ConfigValue) (timeout start_time : Q) (polls : list poll) :
  valid_target target = true ->
  update_config self target config_dict timeout start_time polls
  = match update_config_loop timeout start_time polls
            (awaiting self target config_dict) with
    | None => (Pending, deliver (awaiting self target config_dict) (messages polls))
    | Some (s1, later) =>
        (Returned (response (returning (result_topic (base_topic self) target)
                               s1 later)),
         returning (result_topic (base_topic self) target) s1 later)
    end.
Proof.
  intros H. destruct (valid_target_cases _ H) as [-> | [-> | ->]]; reflexivity.
Qed.

Lemma result_topic_suffix (base target : string) :
  result_topic base target = topic_base base target ++ TOPIC_RESULT_SUFFIX.
Proof. reflexivity. Qed.

Lemma awaiting_waiting (self : NukiConfigClient) (target : string)
    (config_dict : dict ConfigValue) :
  waiting_for_topic (awaiting self target config_dict)
  = Some (result_topic (base_topic self) target).
Proof. reflexivity. Qed.

Lemma awaiting_client (self : NukiConfigClient) (target : string)
    (config_dict : dict ConfigValue) :
  client (awaiting self target config_dict)
  = (client self
     ++ [subscribe (result_topic (base_topic self) target);
         publish (action_topic (base_topic self) target)
                 (Json.dumps config_dict)])%list.
Proof. unfold awaiting. simpl. now rewrite <- app_assoc. Qed.

(** The loop makes no call on the transport. *)
Lemma update_config_loop_client (timeout start_time : Q) (polls : list poll) :
  forall self s1 rest,
    update_config_loop timeout start_time polls self = Some (s1, rest) ->
    client s1 = client self.
Proof.
  induction polls as [|[msgs now] later IH]; intros self s1 rest; simpl.
  - discriminate.
  - destruct (is_None (response (deliver self msgs))).
    + destruct (timed_out now start_time timeout).
      * intros [= <- _]. simpl. apply deliver_client.
      * intros H. rewrite (IH _ _ _ H). apply deliver_client.
    + intros [= <- _]. apply deliver_client.
Qed.

Lemma returning_client (t : string) (s1 : NukiConfigClient) (later : list poll) :
  client (returning t s1 later) = (client s1 ++ [unsubscribe t])%list.
Proof. unfold returning. now rewrite deliver_client. Qed.

(** A message that is not on the awaited result topic, or that carries the
    sentinel, leaves the slot as it is. *)
Lemma on_message_no_answer (self : NukiConfigClient) (m : BusMessage) (b : string) :
  waiting_for_topic self = Some (b ++ TOPIC_RESULT_SUFFIX) ->
  topic m <> b ++ TOPIC_RESULT_SUFFIX \/ payload m = "--" ->
  response (on_message self m) = response self.
Proof.
  intros Hw [Ht | Hp].
  - destruct (is_announcement m) eqn:Ha.
    + now rewrite on_message_announcement.
    + rewrite on_message_unrelated; [reflexivity | exact Ha |].
      rewrite Hw. intros [= E]. now apply Ht.
  - destruct (String.eqb_spec (topic m) (b ++ TOPIC_RESULT_SUFFIX)) as [Ht | Ht].
    + destruct (on_message_awaited self m b Hw Ht) as [Hs _].
      now rewrite (Hs Hp).
    + destruct (is_announcement m) eqn:Ha.
      * now rewrite on_message_announcement.
      * rewrite on_message_unrelated; [reflexivity | exact Ha |].
        rewrite Hw. intros [= E]. now apply Ht.
Qed.

Lemma deliver_no_answer (b : string) (msgs : list BusMessage) :
  forall self,
    waiting_for_topic self = Some (b ++ TOPIC_RESULT_SUFFIX) ->
    (forall m, In m msgs ->
               topic m <> b ++ TOPIC_RESULT_SUFFIX \/ payload m = "--") ->
    response (deliver self msgs) = response self.
Proof.
  unfold deliver.
  induction msgs as [|m msgs IH]; intros self Hw Hq; simpl.
  - reflexivity.
  - rewrite IH.
    + apply (on_message_no_answer self m b Hw). apply Hq. now left.
    + now rewrite on_message_waiting.
    + intros m' Hin. apply Hq. now right.
Qed.


Lemma count_app (f : mqtt_call -> bool) (a b : list mqtt_call) :
  count f (a ++ b)%list = (count f a + count f b)%nat.
Proof. unfold count. now rewrite filter_app, List.length_app. Qed.

(** Whenever [update_config] returns, it has made exactly three calls on
    the transport: the subscribe, the publish and, last, the unsubscribe. *)
Lemma update_config_calls (self : NukiConfigClient) (target : string)
    (config_dict : dict ConfigValue) (timeout start_time : Q) (polls : list poll)
    (r : pyval) (self' : NukiConfigClient) :
  valid_target target = true ->
  update_config self target config_dict timeout start_time polls
  = (Returned r, self') ->
  client self'
  = (client self
     ++ [subscribe (result_topic (base_topic self) target);
         publish (action_topic (base_topic self) target) (Json.dumps config_dict);
         unsubscribe (result_topic (base_topic self) target)])%list.
Proof.
  intros Hv. rewrite (update_config_valid _ _ _ _ _ _ Hv).
  destruct (update_config_loop timeout start_time polls
              (awaiting self target config_dict)) as [[s1 rest]|] eqn:Hloop;
    [|discriminate].
  intros [= _ <-]. rewrite returning_client.
  rewrite (update_config_loop_client _ _ _ _ _ _ Hloop), awaiting_client.
  now rewrite <- app_assoc.
Qed.




(** C10.  For a target that is none of 'hub', 'lock' and 'opener',
    [update_config] raises its [ValueError] and the client is as it was:
    no call on the transport, slot and awaited topic untouched. *)
Theorem update_config_invalid_target (self : NukiConfigClient) (target : string)
    (config_dict : dict ConfigValue) (timeout start_time : Q) (polls : list poll) :
  target <> "hub" -> target <> "lock" -> target <> "opener" ->
  update_config self target config_dict timeout start_time polls
  = (Raised "Target must be 'hub', 'lock', or 'opener'", self).
Proof.
  intros Hh Hl Ho. unfold update_config.
  apply String.eqb_neq in Hh, Hl, Ho. now rewrite Hh, Hl, Ho.
Qed.

Lemma update_config_invalid_target_witness :
  "door" <> "hub" /\ "door" <> "lock" /\ "door" <> "opener"
  /\ update_config fresh_client "door" [] 10 0 []
     = (Raised "Target must be 'hub', 'lock', or 'opener'", fresh_client).
Proof.
  assert (H1 : "door" <> "hub") by discriminate.
  assert (H2 : "door" <> "lock") by discriminate.
  assert (H3 : "door" <> "opener") by discriminate.
  split; [exact H1|]. split; [exact H2|]. split; [exact H3|].
  exact (update_config_invalid_target fresh_client "door" [] 10 0 [] H1 H2 H3).
Defined.

Lemma update_config_loop_cons (timeout start_time : Q) (msgs : list BusMessage)
    (now : Q) (later : list poll) (self : NukiConfigClient) :
  update_config_loop timeout start_time ((msgs, now) :: later) self
  = if is_None (response (deliver self msgs)) then
      if timed_out now start_time timeout
      then Some (print (Line "Timeout waiting for response.") (deliver self msgs),
                 later)
      else update_config_loop timeout start_time later (deliver self msgs)
    else Some (deliver self msgs, later).
Proof. reflexivity. Qed.

(** Polls that bring no answer and stay within the deadline are slept
    through. *)
Lemma update_config_loop_quiet (b : string) (timeout start_time : Q)
    (before later : list poll) :
  forall self,
    waiting_for_topic self = Some (b ++ TOPIC_RESULT_SUFFIX) ->
    response self = PyNone ->
    (forall p, In p before -> timed_out (snd p) start_time timeout = false) ->
    (forall m, In m (messages before) ->
               topic m <> b ++ TOPIC_RESULT_SUFFIX \/ payload m = "--") ->
    update_config_loop timeout start_time (before ++ later)%list self
    = update_config_loop timeout start_time later (deliver self (messages before)).
Proof.
  induction before as [|[msgs0 now0] before IH]; intros self Hw Hr Hq Hm.
  - reflexivity.
  - assert (E : response (deliver self msgs0) = PyNone).
    { rewrite (deliver_no_answer b); [exact Hr | exact Hw |].
      intros m Hin. apply Hm. unfold messages. simpl.
      apply in_or_app. now left. }
    assert (Hn : timed_out now0 start_time timeout = false)
      by (apply (Hq (msgs0, now0)); now left).
    simpl app. rewrite update_config_loop_cons, E, Hn. simpl is_None. cbv iota.
    rewrite IH.
    + unfold messages. simpl. now rewrite deliver_app.
    + now rewrite deliver_waiting.
    + exact E.
    + intros p Hin. apply Hq. now right.
    + intros m Hin. apply Hm. unfold messages. simpl.
      apply in_or_app. now right.
Qed.

Lemma lock_result_topic (base : string) :
  result_topic base "lock" = base ++ "/lock/configuration/commandResult".
Proof.
  unfold result_topic, topic_base. simpl String.eqb. cbv iota.
  now rewrite !app_assoc_string.
Qed.

Lemma lock_action_topic (base : string) :
  action_topic base "lock" = base ++ "/lock/configuration/action".
Proof.
  unfold action_topic, topic_base. simpl String.eqb. cbv iota.
  now rewrite !app_assoc_string.
Qed.

(** C9.  The entries ledBrightness=2, pairingEnabled=true and name=MyLock
    for the lock give the dictionary of an integer, a boolean and a text,
    with no line printed.  [update_config] publishes its serialization once,
    on the action topic of the lock; and when, after polls that bring no
    answer, the message with the payload of [led_answer] comes on the
    result topic, and no further answer before the call returns, the call
    returns the decoded dictionary. *)
Theorem end_to_end_lock (self : NukiConfigClient) (start_time : Q)
    (before : list poll) (now : Q) (later : list poll) :
  let base := base_topic self in
  let config :=
    [("ledBrightness", Integer 2); ("pairingEnabled", Boolean true);
     ("name", String_ "MyLock")] in
  let polls :=
    (before ++ ([mkMessage (result_topic base "lock") led_answer], now) :: later)%list in
  (forall p, In p before -> timed_out (snd p) start_time 10 = false) ->
  (forall m, In m (messages before ++ before_return later)%list ->
             topic m <> result_topic base "lock" \/ payload m = "--") ->
  parse_settings "lock" ["ledBrightness=2"; "pairingEnabled=true"; "name=MyLock"]
  = (config, [])
  /\ fst (update_config self "lock" config 10 start_time polls)
     = Returned (PyDict [("ledBrightness", PyInt 2)])
  /\ client (snd (update_config self "lock" config 10 start_time polls))
     = (client self
        ++ [subscribe (base ++ "/lock/configuration/commandResult");
            publish (base ++ "/lock/configuration/action")
              ("{" ++ q "ledBrightness" ++ ": 2, " ++ q "pairingEnabled"
               ++ ": true, " ++ q "name" ++ ": " ++ q "MyLock" ++ "}");
            unsubscribe (base ++ "/lock/configuration/commandResult")])%list
  /\ count is_publish (client (snd (update_config self "lock" config 10 start_time polls)))
     = S (count is_publish (client self)).
Proof.
  intros base config polls Hq Hmr.
  assert (Hm : forall m, In m (messages before) ->
                 topic m <> result_topic base "lock" \/ payload m = "--").
  { intros m Hin. apply Hmr. apply in_or_app. now left. }
  assert (Hl : forall m, In m (before_return later) ->
                 topic m <> result_topic base "lock" \/ payload m = "--").
  { intros m Hin. apply Hmr. apply in_or_app. now right. }
  split; [reflexivity|].
  assert (Hv : valid_target "lock" = true) by reflexivity.
  assert (Hloop :
    update_config_loop 10 start_time polls (awaiting self "lock" config)
    = Some (deliver (deliver (awaiting self "lock" config) (messages before))
              [mkMessage (result_topic base "lock") led_answer], later)).
  { unfold polls.
    rewrite (update_config_loop_quiet (topic_base base "lock"));
      [| reflexivity | reflexivity | exact Hq | exact Hm].
    rewrite update_config_loop_cons.
    set (s := deliver (awaiting self "lock" config) (messages before)).
    assert (Hw : waiting_for_topic s
                 = Some (topic_base base "lock" ++ TOPIC_RESULT_SUFFIX)).
    { unfold s. now rewrite deliver_waiting. }
    destruct (on_message_awaited s
                (mkMessage (result_topic base "lock") led_answer)
                (topic_base base "lock") Hw eq_refl) as [_ [_ Hset]].
    destruct Hset as [Hresp _]; [discriminate | reflexivity |].
    unfold deliver at 1. simpl fold_left. rewrite Hresp. reflexivity. }
  assert (Hresp :
    response (deliver (deliver (awaiting self "lock" config) (messages before))
                [mkMessage (result_topic base "lock") led_answer])
    = PyDict [("ledBrightness", PyInt 2)]).
  { set (s := deliver (awaiting self "lock" config) (messages before)).
    assert (Hw : waiting_for_topic s
                 = Some (topic_base base "lock" ++ TOPIC_RESULT_SUFFIX)).
    { unfold s. now rewrite deliver_waiting. }
    destruct (on_message_awaited s
                (mkMessage (result_topic base "lock") led_answer)
                (topic_base base "lock") Hw eq_refl) as [_ [_ Hset]].
    destruct Hset as [Hresp _]; [discriminate | reflexivity |].
    unfold deliver at 1. simpl fold_left. rewrite Hresp. reflexivity. }
  rewrite (update_config_valid _ _ _ _ _ _ Hv), Hloop.
  cbv beta iota. unfold fst, snd.
  split.
  { f_equal. unfold returning.
    rewrite (deliver_no_answer (topic_base base "lock"));
      [exact Hresp
      | change (waiting_for_topic
                  (deliver (deliver (awaiting self "lock" config)
                              (messages before))
                     [mkMessage (result_topic base "lock") led_answer])
                = Some (topic_base base "lock" ++ TOPIC_RESULT_SUFFIX));
        now rewrite !deliver_waiting
      | exact Hl]. }
  assert (Hc :
    client (returning (result_topic (base_topic self) "lock")
              (deliver (deliver (awaiting self "lock" config) (messages before))
                 [mkMessage (result_topic base "lock") led_answer]) later)
    = (client self
        ++ [subscribe (base ++ "/lock/configuration/commandResult");
            publish (base ++ "/lock/configuration/action")
              ("{" ++ q "ledBrightness" ++ ": 2, " ++ q "pairingEnabled"
               ++ ": true, " ++ q "name" ++ ": " ++ q "MyLock" ++ "}");
            unsubscribe (base ++ "/lock/configuration/commandResult")])%list).
  { rewrite returning_client, !deliver_client, awaiting_client.
    rewrite <- app_assoc. fold base.
    rewrite (lock_result_topic base), (lock_action_topic base).
    reflexivity. }
  split; [exact Hc|].
  rewrite Hc, count_app. unfold count. simpl. lia.
Qed.

Lemma end_to_end_lock_witness :
  fst (update_config fresh_client "lock"
         [("ledBrightness", Integer 2); ("pairingEnabled", Boolean true);
          ("name", String_ "MyLock")] 10 0
         ([([mkMessage "nuki/hub/lock/configuration/commandResult" "--"], 1)]
          ++ ([mkMessage (result_topic "nuki/hub" "lock") led_answer], 2) :: [])%list)
  = Returned (PyDict [("ledBrightness", PyInt 2)]).
Proof.
  apply (end_to_end_lock fresh_client 0
           [([mkMessage "nuki/hub/lock/configuration/commandResult" "--"], 1)]
           2 []).
  - intros p [<- | []]. reflexivity.
  - intros m [<- | []]. right. reflexivity.
Defined.

(** C1, at the payload "null".  The payload is not the sentinel and it is
    JSON, but it decodes to [None], the value of an unset slot: the handler
    stores it and prints that a response was received, the slot reads as
    unset, and the call that awaits this answer sleeps on, prints its
    timeout line and returns no response. *)
Theorem null_answer_not_resolved (self : NukiConfigClient)
    (config_dict : dict ConfigValue) :
  let m := mkMessage (result_topic (base_topic self) "hub") "null" in
  let r := update_config self "hub" config_dict 10 0 [([m], 1); ([], 11)] in
  payload m <> "--"
  /\ Json.loads (payload m) = Json.Loaded PyNone
  /\ response (on_message (awaiting self "hub" config_dict) m) = PyNone
  /\ update_config_loop 10 0 [([m], 1)] (awaiting self "hub" config_dict) = None
  /\ fst r = Returned PyNone
  /\ stdout (snd r)
     = (stdout self
        ++ [Line ("Sending config to " ++ action_topic (base_topic self) "hub"
                  ++ ": " ++ Json.dumps config_dict);
            Line (String "010" "Received response on " ++ topic m ++ ":");
            Value PyNone;
            Line "Timeout waiting for response."])%list.
Proof.
  intros m r.
  assert (Hne : payload m <> "--") by discriminate.
  assert (Hm : on_message (awaiting self "hub" config_dict) m
               = print (Value PyNone)
                   (print (Line (String "010" "Received response on "
                                 ++ topic m ++ ":"))
                      (set_response PyNone (awaiting self "hub" config_dict))))
    by exact (on_message_answer (awaiting self "hub" config_dict) m
                (base_topic self) eq_refl eq_refl Hne eq_refl).
  assert (Hresp : response (on_message (awaiting self "hub" config_dict) m) = PyNone)
    by now rewrite Hm.
  split; [exact Hne|]. split; [reflexivity|]. split; [exact Hresp|].
  assert (Hd : deliver (awaiting self "hub" config_dict) [m]
               = on_message (awaiting self "hub" config_dict) m) by reflexivity.
  split; [rewrite update_config_loop_cons, Hd, Hresp; reflexivity|].
  assert (Hr : r = (Returned PyNone,
                    call (unsubscribe (result_topic (base_topic self) "hub"))
                      (print (Line "Timeout waiting for response.")
                         (on_message (awaiting self "hub" config_dict) m)))).
  { unfold r. rewrite update_config_valid by reflexivity.
    rewrite update_config_loop_cons, Hd, Hresp.
    change (timed_out 1 0 10) with false. simpl is_None. cbv iota.
    rewrite update_config_loop_cons.
    change (deliver (on_message (awaiting self "hub" config_dict) m) [])
      with (on_message (awaiting self "hub" config_dict) m).
    rewrite Hresp. change (timed_out 11 0 10) with true. simpl is_None.
    cbv iota. simpl response. now rewrite Hresp. }
  rewrite Hr. split; [reflexivity|].
  simpl snd. rewrite Hm.
  cbn [stdout call print set_response set_waiting_for_topic awaiting].
  rewrite <- !app_assoc. reflexivity.
Qed.

(** ** Device discovery *)

(** After a batch, the address is the payload of its latest announcement,
    or what it was when the batch has none. *)
Lemma deliver_ip_address (msgs : list BusMessage) :
  forall self,
    ip_address (deliver self msgs)
    = match last_announcement msgs with
      | Some a => Some a
      | None => ip_address self
      end.
Proof.
  unfold deliver.
  induction msgs as [|m msgs IH]; intros self; simpl.
  - reflexivity.
  - rewrite IH. destruct (last_announcement msgs) as [a|]; [reflexivity|].
    destruct (is_announcement m) eqn:Ha.
    + now rewrite on_message_announcement.
    + now apply on_message_not_announcement.
Qed.

Lemma last_announcement_In (msgs : list BusMessage) (a : string) :
  last_announcement msgs = Some a ->
  exists m, In m msgs /\ is_announcement m = true /\ payload m = a.
Proof.
  induction msgs as [|m msgs IH]; simpl; [discriminate|].
  destruct (last_announcement msgs) as [a'|].
  - intros [= <-]. destruct (IH eq_refl) as [m' [Hin H]].
    exists m'. split; [now right | exact H].
  - destruct (is_announcement m) eqn:Ha; [|discriminate].
    intros [= <-]. exists m. split; [now left | now split].
Qed.

Lemma last_announcement_none (msgs : list BusMessage) :
  filter is_announcement msgs = [] -> last_announcement msgs = None.
Proof.
  induction msgs as [|m msgs IH]; simpl; [reflexivity|].
  destruct (is_announcement m); [discriminate|].
  intros H. now rewrite (IH H).
Qed.

(** With a single announcement in the batch, the latest is the first. *)
Lemma last_announcement_single (msgs : list BusMessage) (m : BusMessage) :
  filter is_announcement msgs = [m] ->
  last_announcement msgs = Some (payload m).
Proof.
  induction msgs as [|m0 msgs IH]; simpl; [discriminate|].
  destruct (is_announcement m0) eqn:Ha.
  - intros [= -> Hrest]. now rewrite (last_announcement_none _ Hrest).
  - intros H. now rewrite (IH H).
Qed.

Lemma wait_for_ip_loop_cons (timeout start_time : Q) (msgs : list BusMessage)
    (now : Q) (later : list poll) (self : NukiConfigClient) :
  wait_for_ip_loop timeout start_time ((msgs, now) :: later) self
  = match ip_address (deliver self msgs) with
    | None =>
        if timed_out now start_time timeout
        then Some (inl (deliver self msgs))
        else wait_for_ip_loop timeout start_time later (deliver self msgs)
    | Some _ => Some (inr (deliver self msgs, later))
    end.
Proof. reflexivity. Qed.

(** The messages handled before the read at [return] are among those of
    the polls. *)
Lemma before_return_In (later : list poll) (m : BusMessage) :
  In m (before_return later) -> In m (messages later).
Proof.
  destruct later as [|[msgs now] later]; [intros []|].
  intros H. unfold messages. simpl. apply in_or_app. now left.
Qed.

(** Polls without an announcement and within the deadline are slept
    through. *)
Lemma wait_for_ip_loop_quiet (timeout start_time : Q) (before later : list poll) :
  forall self,
    ip_address self = None ->
    (forall p, In p before ->
               last_announcement (fst p) = None
               /\ timed_out (snd p) start_time timeout = false) ->
    wait_for_ip_loop timeout start_time (before ++ later)%list self
    = wait_for_ip_loop timeout start_time later (deliver self (messages before)).
Proof.
  induction before as [|[msgs0 now0] before IH]; intros self Hip Hq.
  - reflexivity.
  - destruct (Hq (msgs0, now0)) as [Hla Hn]; [now left|]. simpl in Hla, Hn.
    assert (E : ip_address (deliver self msgs0) = None)
      by now rewrite deliver_ip_address, Hla.
    simpl app. rewrite wait_for_ip_loop_cons, E, Hn.
    rewrite IH.
    + unfold messages. simpl. now rewrite deliver_app.
    + exact E.
    + intros p Hin. apply Hq. now right.
Qed.

(** A loop that starts with no address and is left with one has it from an
    announcement among its polls. *)
Lemma wait_for_ip_loop_found (timeout start_time : Q) (polls : list poll) :
  forall self s1 rest,
    ip_address self = None ->
    wait_for_ip_loop timeout start_time polls self = Some (inr (s1, rest)) ->
    (exists m, In m (messages polls) /\ is_announcement m = true
               /\ ip_address s1 = Some (payload m))
    /\ (forall m, In m (messages rest) -> In m (messages polls)).
Proof.
  induction polls as [|[msgs now] later IH]; intros self s1 rest Hip;
    [discriminate|].
  rewrite wait_for_ip_loop_cons.
  destruct (ip_address (deliver self msgs)) as [a|] eqn:E.
  - intros [= <- <-]. rewrite deliver_ip_address, Hip in E.
    destruct (last_announcement msgs) as [a'|] eqn:Hla; [|discriminate].
    destruct (last_announcement_In _ _ Hla) as [m [Hin [Ha Hp]]].
    split.
    + exists m. split; [| split; [exact Ha|]].
      * unfold messages. simpl. apply in_or_app. now left.
      * rewrite deliver_ip_address, Hla, Hp. reflexivity.
    + intros m' Hin'. unfold messages. simpl. apply in_or_app. now right.
  - destruct (timed_out now start_time timeout); [discriminate|].
    intros Hloop. destruct (IH _ _ _ E Hloop) as [[m [Hin H]] Hrest].
    split.
    + exists m. split; [| exact H].
      unfold messages. simpl. apply in_or_app. now right.
    + intros m' Hin'. unfold messages. simpl. apply in_or_app. right.
      now apply Hrest.
Qed.

(** A loop left by its timeout has made no call on the transport, and a
    loop left with an address neither. *)
Lemma wait_for_ip_loop_client (timeout start_time : Q) (polls : list poll) :
  forall self r,
    wait_for_ip_loop timeout start_time polls self = Some r ->
    client (match r with inl s1 => s1 | inr (s1, _) => s1 end) = client self.
Proof.
  induction polls as [|[msgs now] later IH]; intros self r; [discriminate|].
  rewrite wait_for_ip_loop_cons.
  destruct (ip_address (deliver self msgs)).
  - intros [= <-]. apply deliver_client.
  - destruct (timed_out now start_time timeout).
    + intros [= <-]. apply deliver_client.
    + intros H. rewrite (IH _ _ H). apply deliver_client.
Qed.

Lemma wait_for_ip_unfold (self : NukiConfigClient) (timeout start_time : Q)
    (polls : list poll) :
  wait_for_ip self timeout start_time polls
  = match wait_for_ip_loop timeout start_time polls (discovering self) with
    | None => (Pending, deliver (discovering self) (messages polls))
    | Some (inl s1) => (Returned None, s1)
    | Some (inr (s1, later)) =>
        (Returned (ip_address (returning (ip_topic (base_topic self)) s1 later)),
         returning (ip_topic (base_topic self)) s1 later)
    end.
Proof. reflexivity. Qed.

(** The address at the [return]: the latest announcement handled since the
    loop was left, or the address the loop was left with. *)
Lemma returning_ip_address (t : string) (s1 : NukiConfigClient)
    (later : list poll) :
  ip_address (returning t s1 later)
  = match last_announcement (before_return later) with
    | Some a => Some a
    | None => ip_address s1
    end.
Proof. unfold returning. now rewrite deliver_ip_address. Qed.

(** C4, as stated, fails: of two announcements handled before the same
    read, the session returns the second. *)
Lemma discovery_returns_latest_not_first :
  first_on (ip_topic BASE_TOPIC) (messages two_announcements)
  = Some "192.168.1.10"
  /\ fst (wait_for_ip fresh_client 10 0 two_announcements)
     = Returned (Some "192.168.1.20").
Proof. split; reflexivity. Qed.

Lemma last_announcement_app (a b : list BusMessage) :
  last_announcement (a ++ b)%list
  = match last_announcement b with
    | Some x => Some x
    | None => last_announcement a
    end.
Proof.
  induction a as [|m a IH]; simpl.
  - now destruct (last_announcement b).
  - rewrite IH. now destruct (last_announcement b).
Qed.

(** C4, amended.  A session that starts with no address stored, sleeps
    through polls without an announcement and then finds a batch with one,
    leaves its loop at that read and returns the payload of the latest
    announcement handled before it returns, the read at [return] included,
    whatever that payload is (the sentinel and the empty text included);
    that is the first one when a single announcement was handled by then.
    Announcements are the messages on a topic ending in /info/nukiHubIp,
    the announcement topic of the client among them; a message on any other
    topic leaves the address as it is. *)
Theorem discovery_returns_latest_announcement (self : NukiConfigClient)
    (timeout start_time : Q) (before : list poll) (msgs : list BusMessage)
    (now : Q) (later : list poll) (a : string) :
  ip_address self = None ->
  (forall p, In p before ->
             last_announcement (fst p) = None
             /\ timed_out (snd p) start_time timeout = false) ->
  last_announcement msgs <> None ->
  last_announcement (msgs ++ before_return later)%list = Some a ->
  fst (wait_for_ip self timeout start_time (before ++ (msgs, now) :: later)%list)
  = Returned (Some a)
  /\ (forall m, filter is_announcement (msgs ++ before_return later)%list = [m] ->
                a = payload m)
  /\ is_announcement (mkMessage (ip_topic (base_topic self)) a) = true
  /\ (forall s m, is_announcement m = false ->
                  ip_address (on_message s m) = ip_address s).
Proof.
  intros Hip Hq Hfound Hla. split; [| split; [| split]].
  - rewrite wait_for_ip_unfold.
    rewrite wait_for_ip_loop_quiet; [| exact Hip | exact Hq].
    rewrite wait_for_ip_loop_cons.
    rewrite deliver_ip_address.
    destruct (last_announcement msgs) as [a0|] eqn:H0; [|now elim Hfound].
    cbn [fst]. rewrite returning_ip_address, deliver_ip_address, H0.
    rewrite last_announcement_app, H0 in Hla.
    destruct (last_announcement (before_return later)); now rewrite <- Hla.
  - intros m Hm. rewrite (last_announcement_single _ _ Hm) in Hla.
    now injection Hla.
  - apply ip_topic_is_announcement.
  - intros s m. apply on_message_not_announcement.
Qed.

Lemma discovery_returns_latest_announcement_witness :
  ip_address fresh_client = None
  /\ last_announcement
       [mkMessage "nuki/hub/lock/state" "locked";
        mkMessage "nuki/hub/info/nukiHubIp" "--"] = Some "--"
  /\ fst (wait_for_ip fresh_client 10 0
            ([([mkMessage "nuki/hub/lock/state" "locked"], 1)]
             ++ ([mkMessage "nuki/hub/lock/state" "locked";
                  mkMessage "nuki/hub/info/nukiHubIp" "--"], 2) :: [])%list)
     = Returned (Some "--").
Proof.
  split; [reflexivity|]. split; [reflexivity|].
  apply (discovery_returns_latest_announcement fresh_client 10 0
           [([mkMessage "nuki/hub/lock/state" "locked"], 1)]
           [mkMessage "nuki/hub/lock/state" "locked";
            mkMessage "nuki/hub/info/nukiHubIp" "--"] 2 [] "--").
  - reflexivity.
  - intros p [<- | []]. split; reflexivity.
  - discriminate.
  - reflexivity.
Defined.

(** A loop left with an address has one stored. *)
Lemma wait_for_ip_loop_stored (timeout start_time : Q) (polls : list poll) :
  forall self s1 rest,
    wait_for_ip_loop timeout start_time polls self = Some (inr (s1, rest)) ->
    exists a, ip_address s1 = Some a.
Proof.
  induction polls as [|[msgs now] later IH]; intros self s1 rest; [discriminate|].
  rewrite wait_for_ip_loop_cons.
  destruct (ip_address (deliver self msgs)) as [a|] eqn:E.
  - intros [= <- _]. now exists a.
  - destruct (timed_out now start_time timeout); [discriminate | apply IH].
Qed.

(** And so has the session at its [return]. *)
Lemma returning_stored (t : string) (s1 : NukiConfigClient) (later : list poll) :
  (exists a, ip_address s1 = Some a) ->
  exists a, ip_address (returning t s1 later) = Some a.
Proof.
  intros [a Ha]. rewrite returning_ip_address.
  destruct (last_announcement (before_return later)) as [a'|];
    [now exists a' | now exists a].
Qed.

(** A session that returns [None] has left by its timeout and has made one
    call on the transport, the subscribe. *)
Lemma wait_for_ip_none_calls (self : NukiConfigClient) (timeout start_time : Q)
    (polls : list poll) (self' : NukiConfigClient) :
  wait_for_ip self timeout start_time polls = (Returned None, self') ->
  client self' = (client self ++ [subscribe (ip_topic (base_topic self))])%list.
Proof.
  rewrite wait_for_ip_unfold.
  destruct (wait_for_ip_loop timeout start_time polls (discovering self))
    as [[s1|[s1 rest]]|] eqn:Hloop; try discriminate.
  - intros [= <-].
    now rewrite (wait_for_ip_loop_client _ _ _ _ _ Hloop).
  - intros [= Hs _].
    destruct (returning_stored (ip_topic (base_topic self)) s1 rest
                (wait_for_ip_loop_stored _ _ _ _ _ _ Hloop)) as [a Ha].
    congruence.
Qed.

(** C5, on a session that times out.  [wait_for_ip] returns [None] from
    inside its loop: the subscribe to the announcement topic is the only
    call it has made on the transport, and no unsubscribe follows it. *)
Theorem wait_for_ip_timeout_stays_subscribed (broker : string) (port : Z)
    (username password : option string) (base : string) :
  let self := init broker port username password base in
  let r := wait_for_ip self 10 0 [([], 11)] in
  fst r = Returned None
  /\ client (snd r) = (client self ++ [subscribe (ip_topic base)])%list
  /\ count is_subscribe (client (snd r)) = S (count is_subscribe (client self))
  /\ count is_unsubscribe (client (snd r)) = count is_unsubscribe (client self).
Proof.
  intros self r.
  assert (Hr : r = (Returned None, discovering self)) by reflexivity.
  rewrite Hr. simpl fst. simpl snd.
  assert (Hc : client (discovering self)
               = (client self ++ [subscribe (ip_topic base)])%list) by reflexivity.
  split; [reflexivity|]. split; [exact Hc|].
  rewrite Hc, !count_app. unfold count. simpl. lia.
Qed.

(** C6, as stated, fails: within one session the address is set by the
    first announcement and set again by the second. *)
Lemma address_set_twice_in_one_session :
  ip_address (discovering fresh_client) = None
  /\ ip_address (on_message (discovering fresh_client)
                   (mkMessage "nuki/hub/info/nukiHubIp" "192.168.1.10"))
     = Some "192.168.1.10"
  /\ ip_address (on_message
                   (on_message (discovering fresh_client)
                      (mkMessage "nuki/hub/info/nukiHubIp" "192.168.1.10"))
                   (mkMessage "nuki/hub/info/nukiHubIp" "192.168.1.20"))
     = Some "192.168.1.20"
  /\ wait_for_ip_loop 10 0 two_announcements (discovering fresh_client)
     = Some (inr (on_message
                    (on_message (discovering fresh_client)
                       (mkMessage "nuki/hub/info/nukiHubIp" "192.168.1.10"))
                    (mkMessage "nuki/hub/info/nukiHubIp" "192.168.1.20"),
                  [])).
Proof. repeat split. Qed.

(** C6, amended.  The address is unset when the client is created; every
    announcement handled stores its payload over what was there; and a
    session that starts with the address unset returns only the payload of
    an announcement handled during that session. *)
Theorem discovery_state_lifecycle :
  (forall broker port username password base,
     ip_address (init broker port username password base) = None)
  /\ (forall self m,
        is_announcement m = true ->
        ip_address (on_message self m) = Some (payload m))
  /\ (forall self timeout start_time polls a self',
        ip_address self = None ->
        wait_for_ip self timeout start_time polls = (Returned (Some a), self') ->
        exists m, In m (messages polls) /\ is_announcement m = true
                  /\ payload m = a).
Proof.
  split; [reflexivity|]. split.
  - intros self m Ha. now rewrite on_message_announcement.
  - intros self timeout start_time polls a self' Hip.
    rewrite wait_for_ip_unfold.
    destruct (wait_for_ip_loop timeout start_time polls (discovering self))
      as [[s1|[s1 rest]]|] eqn:Hloop; try discriminate.
    intros [= Ha _].
    assert (Hd : ip_address (discovering self) = None) by exact Hip.
    destruct (wait_for_ip_loop_found _ _ _ _ _ _ Hd Hloop)
      as [[m [Hin [Hm Hs]]] Hrest].
    rewrite returning_ip_address in Ha.
    destruct (last_announcement (before_return rest)) as [a'|] eqn:Hla.
    + destruct (last_announcement_In _ _ Hla) as [m' [Hin' [Hm' Hp']]].
      exists m'. split; [| split; [exact Hm'|]].
      * apply Hrest. now apply before_return_In.
      * injection Ha as <-. exact Hp'.
    + exists m. split; [exact Hin|]. split; [exact Hm|].
      rewrite Hs in Ha. now injection Ha.
Qed.

Lemma discovery_state_lifecycle_witness :
  ip_address fresh_client = None
  /\ exists m, In m (messages two_announcements)
               /\ is_announcement m = true /\ payload m = "192.168.1.20".
Proof.
  split; [reflexivity|].
  exact (proj2 (proj2 discovery_state_lifecycle) fresh_client 10 0
           two_announcements "192.168.1.20" _ eq_refl eq_refl).
Defined.

(** What the amended C6 leaves out: [wait_for_ip] does not clear the
    address, so a second session that finds no announcement returns the
    address of the first at its first read. *)
Lemma second_session_returns_stored_address :
  fst (wait_for_ip
         (snd (wait_for_ip fresh_client 10 0
                 [([mkMessage "nuki/hub/info/nukiHubIp" "192.168.1.10"], 1)]))
         10 100 [([], 101)])
  = Returned (Some "192.168.1.10").
Proof. reflexivity. Qed.

(** ** The coercer *)

Lemma isdigit_plain (c : ascii) :
  Py.isdigit c = true ->
  Py.isspace c = false /\ is_sign c = false /\ (Py.code c =? 95)%N = false
  /\ forall r, Py.long_from_string (String c r) = Py.int_unsigned (String c r).
Proof.
  intros H. ascii_cases c; try discriminate H; repeat split.
Qed.

Lemma is_sign_cases (c : ascii) :
  is_sign c = true -> c = "+"%char \/ c = "-"%char.
Proof.
  intros H. ascii_cases c; try discriminate H; (now left) || (now right).
Qed.

(** On a run of digits the scan of [int] reads the decimal value and
    leaves nothing. *)
Lemma scan_digits_all (s : string) :
  all_digits s = true ->
  forall acc,
    Py.scan_digits acc false s = Some (Json.decimal_value acc s, EmptyString).
Proof.
  induction s as [|c r IH]; simpl; intros H acc; [reflexivity|].
  apply andb_prop in H. destruct H as [Hc Hr].
  rewrite Hc. now apply IH.
Qed.

Lemma int_unsigned_digits (s : string) :
  digits s = true -> Py.int_unsigned s = Some (Json.decimal_value 0 s).
Proof.
  destruct s as [|c r]; [discriminate|]. unfold digits. intros H.
  unfold Py.int_unsigned.
  assert (Hc : Py.isdigit c = true).
  { simpl in H. now apply andb_prop in H. }
  simpl Py.starts_with_digit. rewrite Hc.
  now rewrite (scan_digits_all _ H).
Qed.

(** Digits with at most one sign in front are read by [int] as the number
    they denote. *)
Lemma int_signed_digits (v : string) :
  digits_optionally_signed v = true -> Py.long_from_string v = Some (numeric_value v).
Proof.
  destruct v as [|c r]; [discriminate|].
  unfold digits_optionally_signed, numeric_value.
  destruct (is_sign c) eqn:Hs.
  - intros Hd. destruct (is_sign_cases _ Hs) as [-> | ->].
    + change (Py.long_from_string (String "+" r)) with (Py.int_unsigned r).
      now rewrite (int_unsigned_digits _ Hd).
    + change (Py.long_from_string (String "-" r)) with (option_map Z.opp (Py.int_unsigned r)).
      now rewrite (int_unsigned_digits _ Hd).
  - intros Hd.
    assert (Hc : Py.isdigit c = true).
    { simpl in Hd. now apply andb_prop in Hd. }
    destruct (isdigit_plain _ Hc) as [_ [_ [_ Hint]]].
    rewrite Hint, (int_unsigned_digits _ Hd).
    unfold is_sign in Hs. apply orb_false_elim in Hs. destruct Hs as [H43 H45].
    now rewrite H45, H43.
Qed.

Lemma digit_facts (c : ascii) :
  Py.isdigit c = true ->
  Py.isspace c = false /\ is_underscore c = false.
Proof. intros H. ascii_cases c; try discriminate H; now split. Qed.

Lemma grouped_head (body : string) :
  grouped body -> Py.starts_with_digit body = true.
Proof. now intros [d Hd | d r Hd _ | d u r Hd _ _]. Qed.

(** The scan of [int] reads a group and stops at the first character that
    is neither a digit nor an underscore. *)
Lemma scan_digits_grouped (body : string) :
  grouped body ->
  forall acc rest flag,
    Py.starts_with_digit rest = false ->
    match rest with
    | String c _ => is_underscore c = false
    | EmptyString => True
    end ->
    Py.scan_digits acc flag (body ++ rest)
    = Some (Json.decimal_value acc (without_underscores body), rest).
Proof.
  induction 1 as [d Hd | d r Hd Hr IH | d u r Hd Hu Hr IH];
    intros acc rest flag Hnd Hnu; simpl;
    destruct (digit_facts _ Hd) as [_ Hdu]; rewrite Hd, Hdu.
  - destruct rest as [|c rest']; [reflexivity|]. simpl in *.
    unfold is_underscore in Hnu. now rewrite Hnd, Hnu.
  - now apply IH.
  - rewrite Hu. unfold is_underscore in Hu.
    destruct (Py.isdigit u) eqn:Hud.
    + destruct (digit_facts _ Hud) as [_ H]. unfold is_underscore in H. congruence.
    + rewrite Hu. now apply IH.
Qed.

Lemma space_facts (c : ascii) :
  Py.isspace c = true ->
  Py.isdigit c = false /\ is_underscore c = false
  /\ (Py.code c =? 43)%N = false /\ (Py.code c =? 45)%N = false.
Proof. intros H. ascii_cases c; try discriminate H; repeat split. Qed.

(** What the scan of [int] has read is a group, and it has stopped at a
    character that is neither a digit nor an underscore. *)
Lemma scan_digits_reads (n : nat) :
  forall s, (String.length s <= n)%nat ->
    Py.starts_with_digit s = true ->
    forall acc flag k rest,
      Py.scan_digits acc flag s = Some (k, rest) ->
      exists body,
        s = body ++ rest /\ grouped body
        /\ k = Json.decimal_value acc (without_underscores body).
Proof.
  induction n as [|n IH]; intros s Hn Hs acc flag k rest H.
  - destruct s; [discriminate Hs | simpl in Hn; lia].
  - destruct s as [|d r]; [discriminate Hs|]. simpl in Hs, Hn.
    destruct (digit_facts _ Hs) as [_ Hdu].
    simpl in H. rewrite Hs in H.
    destruct r as [|c r'].
    + simpl in H. injection H as <- <-.
      exists (String d EmptyString). simpl. rewrite Hdu.
      split; [reflexivity|]. split; [now constructor | reflexivity].
    + destruct (Py.isdigit c) eqn:Hc.
      * destruct (IH (String c r') ltac:(simpl in *; lia) Hc _ _ _ _ H)
          as [body [E [Hg Hk]]].
        exists (String d body). simpl. rewrite Hdu, <- E.
        split; [reflexivity|]. split; [now apply grouped_next | exact Hk].
      * simpl in H. rewrite Hc in H.
        destruct (Py.code c =? 95)%N eqn:Hu.
        -- destruct r' as [|c' r'']; [discriminate H|].
           destruct (Py.isdigit c') eqn:Hc'.
           ++ destruct (IH (String c' r'') ltac:(simpl in *; lia) Hc' _ _ _ _ H)
                as [body [E [Hg Hk]]].
              exists (String d (String c body)). simpl.
              change (is_underscore c) with (Py.code c =? 95)%N.
              rewrite Hdu, Hu, <- E.
              split; [reflexivity|].
              split; [now apply grouped_sep | exact Hk].
           ++ simpl in H. rewrite Hc' in H.
              destruct (Py.code c' =? 95)%N; discriminate H.
        -- injection H as <- <-.
           exists (String d EmptyString). simpl. rewrite Hdu.
           split; [reflexivity|]. split; [now constructor | reflexivity].
Qed.

Lemma lstrip_all_space (t : string) :
  Py.lstrip t = EmptyString <-> all_space t = true.
Proof.
  induction t as [|c r IH]; simpl; [tauto|].
  destruct (Py.isspace c); simpl; [exact IH | split; discriminate].
Qed.

Lemma lstrip_app (l x : string) :
  all_space l = true -> Py.lstrip (l ++ x) = Py.lstrip x.
Proof.
  induction l as [|c l IH]; simpl; [reflexivity|].
  intros H. apply andb_prop in H. destruct H as [Hc Hl]. now rewrite Hc, IH.
Qed.

Lemma lstrip_split (s : string) :
  exists l, s = l ++ Py.lstrip s /\ all_space l = true.
Proof.
  induction s as [|c r [l [E Hl]]]; [now exists EmptyString|].
  simpl. destruct (Py.isspace c) eqn:Hc.
  - exists (String c l). simpl. now rewrite <- E, Hc, Hl.
  - now exists EmptyString.
Qed.

Lemma lstrip_fixed (c : ascii) (r : string) :
  Py.isspace c = false -> Py.lstrip (String c r) = String c r.
Proof. simpl. now intros ->. Qed.

Lemma starts_with_digit_app (body rest : string) :
  Py.starts_with_digit body = true ->
  Py.starts_with_digit (body ++ rest) = true.
Proof. destruct body; [discriminate | trivial]. Qed.

(** The part after the sign: a group of digits, then white space only. *)
Lemma int_unsigned_iff (s : string) (k : Z) :
  Py.int_unsigned s = Some k
  <-> exists body t,
        s = body ++ t /\ grouped body /\ all_space t = true
        /\ k = Json.decimal_value 0 (without_underscores body).
Proof.
  unfold Py.int_unsigned. split.
  - destruct (Py.starts_with_digit s) eqn:Hs; [|discriminate].
    destruct (Py.scan_digits 0 false s) as [[n rest]|] eqn:Hscan; [|discriminate].
    destruct (Py.lstrip rest) eqn:Hl; [|discriminate].
    intros [= <-].
    destruct (scan_digits_reads _ s (Nat.le_refl _) Hs _ _ _ _ Hscan)
      as [body [E [Hg Hk]]].
    exists body, rest. repeat split; try assumption.
    now apply lstrip_all_space.
  - intros [body [t [-> [Hg [Ht ->]]]]].
    rewrite (starts_with_digit_app _ _ (grouped_head _ Hg)).
    rewrite (scan_digits_grouped _ Hg).
    + apply lstrip_all_space in Ht. now rewrite Ht.
    + destruct t as [|c t']; [reflexivity|]. simpl in *.
      apply andb_prop in Ht. destruct Ht as [Hc _].
      now destruct (space_facts _ Hc).
    + destruct t as [|c t']; [exact I|]. simpl in *.
      apply andb_prop in Ht. destruct Ht as [Hc _].
      now destruct (space_facts _ Hc) as [_ [H _]].
Qed.

Lemma grouped_plain_head (body : string) :
  grouped body ->
  exists d r, body = String d r /\ Py.isdigit d = true.
Proof.
  intros [d Hd | d r Hd _ | d u r Hd _ _]; eexists; eexists; split;
    try reflexivity; assumption.
Qed.

Lemma digit_not_sign (d : ascii) :
  Py.isdigit d = true ->
  (Py.code d =? 43)%N = false /\ (Py.code d =? 45)%N = false.
Proof. intros H. ascii_cases d; try discriminate H; now split. Qed.

Lemma code_eq (c : ascii) (n : N) :
  (n < 256)%N -> (Py.code c =? n)%N = true -> c = ascii_of_N n.
Proof.
  intros Hn H. apply N.eqb_eq in H. unfold Py.code in H.
  rewrite <- H. now rewrite ascii_N_embedding.
Qed.

(** [PyLong_FromString] reads exactly the integer texts, each as the
    number it denotes. *)
Lemma long_from_string_iff (v : string) (n : Z) :
  Py.long_from_string v = Some n <-> integer_text v n.
Proof.
  unfold Py.long_from_string, integer_text. split.
  - destruct (lstrip_split v) as [l [E Hl]].
    destruct (Py.lstrip v) as [|c r] eqn:Hv; [discriminate|].
    destruct (Py.code c =? 43)%N eqn:Hplus.
    { intros H. apply int_unsigned_iff in H.
      destruct H as [body [t [-> [Hg [Ht ->]]]]].
      exists l, "+", body, t.
      rewrite (code_eq _ 43 eq_refl Hplus) in E.
      repeat split; try assumption. left. split; [now right | reflexivity]. }
    destruct (Py.code c =? 45)%N eqn:Hminus.
    { destruct (Py.int_unsigned r) as [k|] eqn:Hk; [|discriminate].
      intros [= <-]. apply int_unsigned_iff in Hk.
      destruct Hk as [body [t [-> [Hg [Ht ->]]]]].
      exists l, "-", body, t.
      rewrite (code_eq _ 45 eq_refl Hminus) in E.
      repeat split; try assumption. right. now split. }
    intros H. apply int_unsigned_iff in H.
    destruct H as [body [t [Eb [Hg [Ht ->]]]]].
    exists l, EmptyString, body, t. rewrite <- Eb.
    repeat split; try assumption. left. split; [now left | reflexivity].
  - intros [l [sign [body [t [-> [Hl [Ht [Hg Hn]]]]]]]].
    rewrite (lstrip_app _ _ Hl).
    destruct (grouped_plain_head _ Hg) as [d [r [Eb Hd]]].
    destruct (digit_facts _ Hd) as [Hsp _].
    destruct (digit_not_sign _ Hd) as [H43 H45].
    assert (Hu : Py.int_unsigned (body ++ t)
                 = Some (Json.decimal_value 0 (without_underscores body))).
    { apply int_unsigned_iff. exists body, t. now repeat split. }
    destruct Hn as [[[-> | ->] ->] | [-> ->]].
    + simpl append at 1. rewrite Eb. simpl append. rewrite lstrip_fixed by exact Hsp.
      rewrite H43, H45. rewrite Eb in Hu. exact Hu.
    + change (Py.lstrip ("+" ++ body ++ t)) with (String "+" (body ++ t)).
      exact Hu.
    + change (Py.lstrip ("-" ++ body ++ t)) with (String "-" (body ++ t)).
      change ((Py.code "-" =? 43)%N) with false.
      change ((Py.code "-" =? 45)%N) with true. cbv iota. now rewrite Hu.
Qed.

Lemma lower_char_letter (a b : ascii) :
  In a word_letters ->
  Ascii.eqb (Py.lower_char b) a = Ascii.eqb b a || Ascii.eqb b (upper_char a).
Proof.
  intros Ha. simpl in Ha.
  repeat (destruct Ha as [<- | Ha]; [ascii_cases b; reflexivity|]).
  destruct Ha.
Qed.

(** Comparing the lowered text with a lower-case word is asking for a case
    variant of the word. *)
Lemma lower_eqb_word (w : string) :
  word_of word_letters w ->
  forall v, String.eqb (Py.lower v) w = case_variant w v.
Proof.
  induction w as [|a w IH]; intros Hw v.
  - destruct v; reflexivity.
  - destruct Hw as [Ha Hw]. destruct v as [|b v]; [reflexivity|].
    simpl. rewrite (lower_char_letter a b Ha), (IH Hw). reflexivity.
Qed.

Lemma lower_eqb_true (v : string) :
  String.eqb (Py.lower v) "true" = case_variant "true" v.
Proof. apply lower_eqb_word. simpl. tauto. Qed.

Lemma lower_eqb_false (v : string) :
  String.eqb (Py.lower v) "false" = case_variant "false" v.
Proof. apply lower_eqb_word. simpl. tauto. Qed.

(** An ASCII text is read as it is. *)
Lemma to_ascii_decimal_plain (v : string) :
  Py.is_ascii v = true -> Py.to_ascii_decimal v = v.
Proof. unfold Py.to_ascii_decimal. now intros ->. Qed.

Lemma isdigit_ascii (c : ascii) :
  Py.isdigit c = true -> (Py.code c <? 128)%N = true.
Proof. intros H. ascii_cases c; try discriminate H; reflexivity. Qed.

Lemma all_digits_ascii (s : string) :
  all_digits s = true -> Py.is_ascii s = true.
Proof.
  induction s as [|c r IH]; [reflexivity|]. simpl. intros H.
  apply andb_prop in H. destruct H as [Hc Hr].
  now rewrite (isdigit_ascii _ Hc), (IH Hr).
Qed.

Lemma digits_optionally_signed_ascii (v : string) :
  digits_optionally_signed v = true -> Py.is_ascii v = true.
Proof.
  destruct v as [|c r]; [discriminate|]. unfold digits_optionally_signed.
  destruct (is_sign c) eqn:Hs.
  - intros Hd. destruct r as [|d r]; [discriminate|]. unfold digits in Hd.
    destruct (is_sign_cases _ Hs) as [-> | ->];
      change (Py.is_ascii (String d r) = true); now apply all_digits_ascii.
  - unfold digits. apply all_digits_ascii.
Qed.

(** [int] reads exactly the texts of [readable_integer], each as the number
    it denotes. *)
Lemma int_iff (v : string) (n : Z) :
  Py.int v = Some n <-> readable_integer v n.
Proof.
  unfold Py.int, readable_integer. cbv zeta.
  rewrite <- long_from_string_iff.
  destruct (Nat.ltb_spec Py.max_str_digits
              (Py.count_digits (Py.to_ascii_decimal v))) as [Hgt | Hle].
  - split; [discriminate | intros [_ H]; lia].
  - split; [intros H; now split | now intros [H _]].
Qed.

(** No case variant of "true" or "false" is read by [int]. *)
Lemma variant_not_int (b : bool) (v : string) :
  case_variant (if b then "true" else "false") v = true -> Py.int v = None.
Proof.
  intros H.
  assert (Hc : exists c r, v = String c r /\ Py.is_ascii (String c EmptyString) = true
                           /\ Py.isspace c = false /\ Py.isdigit c = false
                           /\ is_sign c = false).
  { destruct v as [|c r]; [destruct b; discriminate|]. exists c, r.
    split; [reflexivity|].
    destruct b; simpl in H; apply andb_prop in H; destruct H as [H _];
      apply orb_prop in H;
      destruct H as [H | H]; apply Ascii.eqb_eq in H; subst c; now repeat split. }
  destruct Hc as [c [r [-> [Ha [Hsp [Hd Hs]]]]]].
  unfold Py.int. cbv zeta.
  destruct (Py.max_str_digits <? _)%nat; [reflexivity|].
  assert (Hh : exists c' r', Py.to_ascii_decimal (String c r) = String c' r'
                             /\ Py.isspace c' = false /\ Py.isdigit c' = false
                             /\ is_sign c' = false).
  { unfold Py.to_ascii_decimal.
    destruct (Py.is_ascii (String c r)); [now exists c, r|].
    simpl in Ha. rewrite andb_true_r in Ha.
    cbn [Py.code_points]. rewrite Ha. cbn [map string_of_list_ascii].
    eexists. eexists. split; [reflexivity|].
    unfold Py.transform_char.
    destruct (N.ltb_spec (Py.code c) 127) as [Hlt|Hge].
    - unfold Py.code. now rewrite ascii_N_embedding.
    - apply N.ltb_lt in Ha.
      assert (E : Py.code c = 127%N) by lia.
      assert (Ec : c = ascii_of_N 127).
      { unfold Py.code in E. rewrite <- E. now rewrite ascii_N_embedding. }
      subst c. discriminate Hs || (now repeat split). }
  destruct Hh as [c' [r' [-> [Hsp' [Hd' Hs']]]]].
  unfold Py.long_from_string. cbn [Py.lstrip]. rewrite Hsp'.
  unfold is_sign in Hs'. apply orb_false_elim in Hs'. destruct Hs' as [H43 H45].
  rewrite H43, H45. unfold Py.int_unsigned. cbn [Py.starts_with_digit].
  now rewrite Hd'.
Qed.

Lemma variant_exclusive (v : string) :
  case_variant "true" v = true -> case_variant "false" v = false.
Proof.
  destruct v as [|c r]; [discriminate|]. simpl. intros H.
  apply andb_prop in H. destruct H as [H _]. apply orb_prop in H.
  destruct H as [H | H]; apply Ascii.eqb_eq in H; subst c; reflexivity.
Qed.

(** [coerce_value] in terms of the three tests. *)
Lemma coerce_value_unfold (v : string) :
  coerce_value v
  = match Py.int v with
    | Some n => Integer n
    | None =>
        if case_variant "true" v then Boolean true
        else if case_variant "false" v then Boolean false
        else String_ v
    end.
Proof. unfold coerce_value. now rewrite lower_eqb_true, lower_eqb_false. Qed.

(** C3, as stated, fails: a digit after a space and digits around an
    underscore are read as integers, though not all their characters are
    digits. *)
Lemma integer_from_text_with_other_characters :
  digits_optionally_signed " 7" = false
  /\ coerce_value " 7" = Integer 7
  /\ digits_optionally_signed "1_000" = false
  /\ coerce_value "1_000" = Integer 1000.
Proof. repeat split. Qed.

(** C3, amended.  The order is integer, boolean, text.  A value becomes an
    integer exactly when [int] reads it: once each white-space character is
    read as a space and each decimal digit as the ASCII digit of its value
    (an ASCII text is read as it is), it is an integer text, that is white
    space, an optional sign, digits in which single underscores may
    separate two digits, and white space, and it has at most 4300 digits;
    the integer is then the number the digits denote.  Every text of at
    most 4300 digits with at most one sign in front is one.  A value becomes
    a boolean exactly when it is a case variant of "true" or of "false"
    (none of these is read as an integer).  Any other value is kept as the
    text itself. *)
Theorem coerce_value_classification (v : string) :
  (digits_optionally_signed v = true ->
   (Py.count_digits v <= Py.max_str_digits)%nat ->
   coerce_value v = Integer (numeric_value v))
  /\ (forall n, coerce_value v = Integer n <-> readable_integer v n)
  /\ (Py.is_ascii v = true ->
      forall n, readable_integer v n
                <-> integer_text v n
                    /\ (Py.count_digits v <= Py.max_str_digits)%nat)
  /\ (forall b, coerce_value v = Boolean b
                <-> case_variant (if b then "true" else "false") v = true)
  /\ (forall s, coerce_value v = String_ s
                <-> s = v /\ (forall n, ~ readable_integer v n)
                    /\ case_variant "true" v = false
                    /\ case_variant "false" v = false).
Proof.
  rewrite coerce_value_unfold. split; [| split; [| split; [| split]]].
  - intros H Hc.
    assert (Hi : Py.int v = Some (numeric_value v)).
    { apply int_iff. unfold readable_integer.
      rewrite (to_ascii_decimal_plain _ (digits_optionally_signed_ascii _ H)).
      split; [| exact Hc].
      apply long_from_string_iff. now apply int_signed_digits. }
    now rewrite Hi.
  - intros n. rewrite <- int_iff. destruct (Py.int v) as [k|].
    + split; intros [= ->]; reflexivity.
    + split; [| discriminate].
      destruct (case_variant "true" v); [discriminate|].
      destruct (case_variant "false" v); discriminate.
  - intros Ha n. unfold readable_integer.
    now rewrite (to_ascii_decimal_plain _ Ha).
  - intros b. destruct (Py.int v) as [k|] eqn:Hint.
    + split; [discriminate|]. intros H.
      rewrite (variant_not_int b v H) in Hint. discriminate.
    + pose proof (variant_exclusive v) as Hex.
      destruct b; cbv iota;
        destruct (case_variant "true" v) eqn:Ht;
        destruct (case_variant "false" v) eqn:Hf;
        split; intros H;
        try reflexivity; try discriminate H;
        specialize (Hex eq_refl); discriminate Hex.
  - intros s. destruct (Py.int v) as [k|] eqn:Hint.
    + split; [discriminate|]. intros [_ [H _]].
      elim (H k). now apply int_iff.
    + assert (Hno : forall n, ~ readable_integer v n).
      { intros n H. apply int_iff in H. congruence. }
      destruct (case_variant "true" v).
      * split; [discriminate|]. intros [_ [_ [H _]]]. discriminate.
      * destruct (case_variant "false" v).
        -- split; [discriminate|]. intros [_ [_ [_ H]]]. discriminate.
        -- split; [intros [= <-]; now repeat split | intros [-> _]; reflexivity].
Qed.

Lemma coerce_value_classification_witness :
  digits_optionally_signed "-42" = true /\ coerce_value "-42" = Integer (-42).
Proof.
  split; [reflexivity|].
  apply (proj1 (coerce_value_classification "-42") eq_refl).
  apply Nat.leb_le. reflexivity.
Defined.

Lemma dict_get_set_same {V : Type} (d : dict V) (k : string) (v : V) :
  dict_get (dict_set d k v) k = Some v.
Proof.
  induction d as [|[k' v'] d IH]; simpl.
  - now rewrite String.eqb_refl.
  - destruct (String.eqb k' k) eqn:E; simpl; rewrite E; [reflexivity | exact IH].
Qed.

Lemma dict_get_set_other {V : Type} (d : dict V) (k k0 : string) (v : V) :
  k0 <> k -> dict_get (dict_set d k v) k0 = dict_get d k0.
Proof.
  intros Hne. induction d as [|[k' v'] d IH]; simpl.
  - destruct (String.eqb_spec k k0); [now subst | reflexivity].
  - destruct (String.eqb_spec k' k) as [-> | Hk]; simpl.
    + destruct (String.eqb_spec k k0); [now subst | reflexivity].
    + destruct (String.eqb k' k0); [reflexivity | exact IH].
Qed.

(** One entry: the dictionary is updated when the entry has a "=", and the
    lines of the entry are printed. *)
Lemma parse_setting_eq (target : string) (config_data : dict ConfigValue)
    (out : list string) (setting : string) :
  parse_setting target (config_data, out) setting
  = (match Py.split_once "=" setting with
     | Some (key, value) => dict_set config_data key (coerce_value value)
     | None => config_data
     end,
     (out ++ lines_for target setting)%list).
Proof.
  unfold parse_setting, lines_for.
  destruct (Py.split_once "=" setting) as [[k v]|]; [|reflexivity].
  destruct (negb (String.eqb target "hub"));
    destruct (negb (contains (valid_keys target) k)); simpl;
    now rewrite ?app_nil_r.
Qed.

(** The loop of [main] from any point: the lines printed are those of the
    entries in order, and a key maps to the coerced value of the last entry
    that sets it. *)
Lemma parse_settings_from (target : string) (settings : list string) :
  forall config_data out,
    snd (fold_left (parse_setting target) settings (config_data, out))
    = (out ++ flat_map (lines_for target) settings)%list
    /\ forall key,
         dict_get (fst (fold_left (parse_setting target) settings (config_data, out))) key
         = match last_value key settings with
           | Some v => Some (coerce_value v)
           | None => dict_get config_data key
           end.
Proof.
  induction settings as [|setting later IH]; intros config_data out.
  - simpl. split; [now rewrite app_nil_r | reflexivity].
  - change (fold_left (parse_setting target) (setting :: later) (config_data, out))
      with (fold_left (parse_setting target) later
              (parse_setting target (config_data, out) setting)).
    rewrite parse_setting_eq.
    match goal with
    | |- context [fold_left _ later (?d, ?o)] => destruct (IH d o) as [Hout Hget]
    end.
    split.
    + rewrite Hout. simpl. now rewrite <- app_assoc.
    + intros key. rewrite Hget. simpl.
      destruct (last_value key later); [reflexivity|].
      destruct (Py.split_once "=" setting) as [[k v]|]; [|reflexivity].
      destruct (String.eqb_spec k key) as [-> | Hne].
      * apply dict_get_set_same.
      * apply dict_get_set_other. congruence.
Qed.

Lemma parse_settings_spec (target : string) (settings : list string) :
  snd (parse_settings target settings) = flat_map (lines_for target) settings
  /\ forall key,
       dict_get (fst (parse_settings target settings)) key
       = option_map coerce_value (last_value key settings).
Proof.
  destruct (parse_settings_from target settings [] []) as [Hout Hget].
  split; [exact Hout|].
  intros key. specialize (Hget key).
  destruct (last_value key settings); exact Hget.
Qed.

Lemma last_value_In (key : string) (settings : list string) (setting value : string) :
  In setting settings ->
  Py.split_once "=" setting = Some (key, value) ->
  exists v, last_value key settings = Some v.
Proof.
  induction settings as [|s later IH]; [intros []|].
  intros [-> | Hin] Hs; simpl.
  - destruct (last_value key later) as [v|]; [now exists v|].
    rewrite Hs, String.eqb_refl. now exists value.
  - destruct (IH Hin Hs) as [v ->]. now exists v.
Qed.

(** C7, as stated, fails for the hub: an entry with a key that is not in
    [HUB_CONFIG_KEYS] is stored and no line is printed. *)
Lemma hub_unknown_key_not_warned :
  contains (valid_keys "hub") "bogus" = false
  /\ parse_settings "hub" ["bogus=1"] = ([("bogus", Integer 1)], []).
Proof. split; reflexivity. Qed.

(** C7, amended.  For an entry key=value whose key is not among the valid
    keys of the target: when the target is not the hub, the warning about
    the key is printed; when it is the hub, no warning about any key is
    printed; and in both cases the key is in the dictionary, with the
    coerced value of the last entry that sets it. *)
Theorem unknown_key_warned_and_kept (target : string) (settings : list string)
    (setting key value : string) :
  In setting settings ->
  Py.split_once "=" setting = Some (key, value) ->
  contains (valid_keys target) key = false ->
  (target <> "hub" ->
   In (warning_unknown_key key target) (snd (parse_settings target settings)))
  /\ (target = "hub" ->
      forall k, ~ In (warning_unknown_key k target)
                     (snd (parse_settings target settings)))
  /\ (exists v,
        last_value key settings = Some v
        /\ dict_get (fst (parse_settings target settings)) key
           = Some (coerce_value v))
  /\ (settings = [setting] ->
      fst (parse_settings target settings) = [(key, coerce_value value)]).
Proof.
  intros Hin Hs Hk.
  destruct (parse_settings_spec target settings) as [Hout Hget].
  split; [| split; [| split]].
  - intros Ht. rewrite Hout. simpl. apply in_flat_map.
    exists setting. split; [exact Hin|].
    unfold lines_for. rewrite Hs, Hk.
    apply String.eqb_neq in Ht. rewrite Ht. now left.
  - intros -> k. rewrite Hout. simpl. intros H.
    apply in_flat_map in H. destruct H as [s [_ H]].
    unfold lines_for in H. destruct (Py.split_once "=" s) as [[k' v']|].
    + exact H.
    + destruct H as [H | []]. discriminate H.
  - destruct (last_value_In key settings setting value Hin Hs) as [v Hv].
    exists v. split; [exact Hv|]. now rewrite Hget, Hv.
  - intros ->. unfold parse_settings. simpl. unfold parse_setting.
    now rewrite Hs.
Qed.

Lemma unknown_key_warned_and_kept_witness :
  In "colour=red" ["ledBrightness=2"; "colour=red"]
  /\ Py.split_once "=" "colour=red" = Some ("colour", "red")
  /\ contains (valid_keys "lock") "colour" = false
  /\ In (warning_unknown_key "colour" "lock")
        (snd (parse_settings "lock" ["ledBrightness=2"; "colour=red"])).
Proof.
  assert (Hin : In "colour=red" ["ledBrightness=2"; "colour=red"])
    by (right; left; reflexivity).
  assert (Hne : "lock" <> "hub") by discriminate.
  split; [exact Hin|]. split; [reflexivity|]. split; [reflexivity|].
  exact (proj1 (unknown_key_warned_and_kept "lock"
                  ["ledBrightness=2"; "colour=red"] "colour=red" "colour" "red"
                  Hin eq_refl eq_refl) Hne).
Defined.

(** ** The artifact fetcher *)

(** Lines of different classes differ. *)
Lemma report_kind (output_file : string) (a b : ArtifactResult) :
  report output_file a = report output_file b -> kind a = kind b.
Proof.
  destruct a as [da| | |[ca|] ra], b as [db| | |[cb|] rb]; simpl;
    intros H; try reflexivity; discriminate H.
Qed.

(** With the address known, the function goes on to the set-up of the
    credentials. *)
Lemma fetch_coredump_found (self : NukiConfigClient)
    (web_user web_password : option string) (output_file : string)
    (start_time : Q) (polls : list poll) (world : World) (fs : files)
    (ip : string) (found : NukiConfigClient) :
  wait_for_ip (print (Line "Waiting for Nuki Hub IP address...") self)
    10 start_time polls
  = (Returned (Some ip), found) ->
  ip <> EmptyString ->
  let request := coredump_request ip web_user web_password in
  let self1 := print (Line ("Nuki Hub IP: " ++ ip)) found in
  fetch_coredump self web_user web_password output_file start_time polls world fs
  = match match credentials request with
          | Some (u, p) => add_password world (coredump_url ip) u p
          | None => None
          end with
    | Some e => (Raised e, self1, fs)
    | None =>
        let answer := urlopen world request in
        (Returned tt,
         print (Line (report output_file
                        (classify answer (write world output_file))))
           (print (Line ("Downloading coredump from " ++ coredump_url ip ++ "..."))
              self1),
         files_after answer (write world output_file) output_file fs)
    end.
Proof.
  intros Hip Hne request self1. unfold fetch_coredump. rewrite Hip.
  assert (Ht : Py.truthy (Some ip) = true)
    by (destruct ip; [now elim Hne | reflexivity]).
  rewrite Ht. cbn [negb]. cbv iota zeta.
  unfold request, self1, coredump_request, coredump_url, classify, files_after.
  cbn [credentials].
  repeat first
    [ reflexivity
    | match goal with
      | |- context [match ?x with _ => _ end] => destruct x
      end ].
Qed.

(** C8, as stated, fails: the server answers with a body and the output
    file cannot be opened; the outcome reported is a fetch error with the
    text of the exception, and no file is written. *)
Lemma body_not_written_when_output_unwritable :
  let denied := "[Errno 13] Permission denied: 'coredump.hex'" in
  let world := mkWorld (fun _ _ _ => None)
                 (fun _ => Body [Byte.x01; Byte.x02])
                 (fun _ _ => WriteError denied None) in
  let r := fetch_coredump fresh_client None None "coredump.hex" 0
             [([mkMessage "nuki/hub/info/nukiHubIp" "192.168.1.10"], 1)]
             world [] in
  urlopen world (coredump_request "192.168.1.10" None None)
  = Body [Byte.x01; Byte.x02]
  /\ fst (fst r) = Returned tt
  /\ last (stdout (snd (fst r))) (Line EmptyString)
     = Line ("Error fetching coredump: " ++ denied)
  /\ snd r = [].
Proof. vm_compute. repeat split. Qed.

(** C8.  Once the address is known and the set-up of the credentials has
    not raised, [fetch_coredump] sends one GET for the coredump page and
    ends on the line of the outcome: a body read is written as it is to the
    output file when the file can be written, and reported as a fetch error
    with the text of the exception when it cannot; status 404 is reported as
    not found and 401 as failed authentication, each by a line of its own;
    any other status is reported with its code and reason, any other failure
    with its text, and in these cases no file is written.  Lines of
    different classes are different lines. *)
Theorem fetch_coredump_classification (self : NukiConfigClient)
    (web_user web_password : option string) (output_file : string)
    (start_time : Q) (polls : list poll) (world : World) (fs : files)
    (ip : string) (found : NukiConfigClient) :
  wait_for_ip (print (Line "Waiting for Nuki Hub IP address...") self)
    10 start_time polls
  = (Returned (Some ip), found) ->
  ip <> EmptyString ->
  let request := coredump_request ip web_user web_password in
  match credentials request with
  | Some (u, p) => add_password world (coredump_url ip) u p
  | None => None
  end = None ->
  let answer := urlopen world request in
  let outcome := classify answer (write world output_file) in
  fetch_coredump self web_user web_password output_file start_time polls world fs
  = (Returned tt,
     print (Line (report output_file outcome))
       (print (Line ("Downloading coredump from http://" ++ ip
                     ++ "/get?page=coredump..."))
          (print (Line ("Nuki Hub IP: " ++ ip)) found)),
     files_after answer (write world output_file) output_file fs)
  /\ (forall data,
        answer = Body data -> write world output_file data = Written ->
        outcome = Saved data
        /\ files_after answer (write world output_file) output_file fs
           = dict_set fs output_file data
        /\ dict_get (dict_set fs output_file data) output_file = Some data)
  /\ (forall data e remains,
        answer = Body data ->
        write world output_file data = WriteError e remains ->
        outcome = FetchError None e)
  /\ (forall reason, answer = HTTPError 404 reason -> outcome = NotFound)
  /\ (forall reason, answer = HTTPError 401 reason -> outcome = AuthFailed)
  /\ (forall code reason,
        answer = HTTPError code reason -> code <> 404%Z -> code <> 401%Z ->
        outcome = FetchError (Some code) reason)
  /\ (forall e, answer = OtherError e -> outcome = FetchError None e)
  /\ ((forall data, answer <> Body data) ->
      files_after answer (write world output_file) output_file fs = fs)
  /\ (forall a b, report output_file a = report output_file b -> kind a = kind b).
Proof.
  intros Hip Hne request Hset answer outcome.
  split; [| split; [| split; [| split; [| split; [| split; [| split; [| split]]]]]]];
    [| | | | | | | | apply report_kind].
  - pose proof (fetch_coredump_found self web_user web_password output_file
                  start_time polls world fs ip found Hip Hne) as H.
    cbv zeta in H. fold request in H. rewrite Hset in H. rewrite H.
    unfold coredump_url. fold answer. fold outcome.
    assert (Hurl : ("Downloading coredump from "
                    ++ ("http://" ++ ip ++ "/get?page=coredump") ++ "...")
                   = "Downloading coredump from http://" ++ ip
                     ++ "/get?page=coredump...").
    { simpl. do 3 f_equal. rewrite !app_assoc_string. reflexivity. }
    now rewrite Hurl.
  - intros data Ha Hw. unfold outcome, classify, files_after.
    rewrite Ha, Hw. split; [reflexivity |]. split; [reflexivity |].
    apply dict_get_set_same.
  - intros data e remains Ha Hw. unfold outcome, classify. now rewrite Ha, Hw.
  - intros reason Ha. unfold outcome. now rewrite Ha.
  - intros reason Ha. unfold outcome. now rewrite Ha.
  - intros code reason Ha H404 H401. unfold outcome. rewrite Ha. simpl.
    apply Z.eqb_neq in H404, H401. now rewrite H404, H401.
  - intros e Ha. unfold outcome. now rewrite Ha.
  - intros Hb. unfold files_after.
    destruct answer as [data | |]; [now elim (Hb data) | reflexivity | reflexivity].
Qed.

Lemma fetch_coredump_classification_witness :
  "192.168.1.10" <> EmptyString
  /\ fetch_coredump fresh_client None None "coredump.hex" 0
       [([mkMessage "nuki/hub/info/nukiHubIp" "192.168.1.10"], 1)]
       no_coredump []
     = (Returned tt,
        print (Line "Coredump not found on device.")
          (print (Line "Downloading coredump from http://192.168.1.10/get?page=coredump...")
             (print (Line "Nuki Hub IP: 192.168.1.10")
                (snd (wait_for_ip
                        (print (Line "Waiting for Nuki Hub IP address...") fresh_client)
                        10 0
                        [([mkMessage "nuki/hub/info/nukiHubIp" "192.168.1.10"], 1)])))),
        []).
Proof.
  assert (Hne : "192.168.1.10" <> EmptyString) by discriminate.
  split; [exact Hne|].
  exact (proj1 (fetch_coredump_classification fresh_client None None
                  "coredump.hex" 0
                  [([mkMessage "nuki/hub/info/nukiHubIp" "192.168.1.10"], 1)]
                  no_coredump [] "192.168.1.10" _ eq_refl Hne eq_refl)).
Defined.

(** * Further properties *)

(** ** The request correlator: what a call returns *)

Lemma on_message_is_answer (self : NukiConfigClient) (m : BusMessage) (b : string) :
  waiting_for_topic self = Some (b ++ TOPIC_RESULT_SUFFIX) ->
  response (on_message self m)
  = if is_answer (b ++ TOPIC_RESULT_SUFFIX) m then decoded (payload m)
    else response self.
Proof.
  intros Hw. unfold is_answer.
  destruct (String.eqb_spec (topic m) (b ++ TOPIC_RESULT_SUFFIX)) as [Ht | Ht].
  - destruct (on_message_awaited self m b Hw Ht) as [Hs [Hu Ha]].
    destruct (String.eqb_spec (payload m) "--") as [Hp | Hp]; simpl.
    + now rewrite (Hs Hp).
    + destruct (handled (payload m)) eqn:Hh.
      * now destruct (Ha Hp eq_refl).
      * now rewrite (Hu eq_refl).
  - simpl. apply (on_message_no_answer self m b Hw). now left.
Qed.

(** After a batch, the slot holds the decoded payload of its latest answer,
    or what it held when the batch has none. *)
Lemma deliver_response (b : string) (msgs : list BusMessage) :
  forall self,
    waiting_for_topic self = Some (b ++ TOPIC_RESULT_SUFFIX) ->
    response (deliver self msgs)
    = match last_answer (b ++ TOPIC_RESULT_SUFFIX) msgs with
      | Some p => decoded p
      | None => response self
      end.
Proof.
  unfold deliver.
  induction msgs as [|m msgs IH]; intros self Hw; simpl; [reflexivity|].
  rewrite IH by now rewrite on_message_waiting.
  destruct (last_answer (b ++ TOPIC_RESULT_SUFFIX) msgs); [reflexivity|].
  rewrite (on_message_is_answer self m b Hw).
  now destruct (is_answer (b ++ TOPIC_RESULT_SUFFIX) m).
Qed.

Lemma last_answer_In (rt : string) (msgs : list BusMessage) (p : string) :
  last_answer rt msgs = Some p ->
  exists m, In m msgs /\ topic m = rt /\ payload m <> "--" /\ payload m = p.
Proof.
  induction msgs as [|m msgs IH]; simpl; [discriminate|].
  destruct (last_answer rt msgs) as [p'|].
  - intros [= <-]. destruct (IH eq_refl) as [m' [Hin H]].
    exists m'. split; [now right | exact H].
  - unfold is_answer.
    destruct (String.eqb_spec (topic m) rt) as [Ht|]; [|discriminate].
    destruct (String.eqb_spec (payload m) "--") as [|Hp]; [discriminate|].
    simpl. destruct (handled (payload m)); [|discriminate].
    intros [= <-]. exists m. split; [now left | now repeat split].
Qed.

Lemma last_answer_none (rt : string) (msgs : list BusMessage) :
  (forall m, In m msgs -> is_answer rt m = false) ->
  last_answer rt msgs = None.
Proof.
  induction msgs as [|m msgs IH]; intros H; simpl; [reflexivity|].
  rewrite IH by (intros m' Hin; apply H; now right).
  now rewrite (H m (or_introl eq_refl)).
Qed.

Lemma last_answer_app (rt : string) (a b : list BusMessage) :
  last_answer rt (a ++ b)%list
  = match last_answer rt b with
    | Some p => Some p
    | None => last_answer rt a
    end.
Proof.
  induction a as [|m a IH]; simpl.
  - now destruct (last_answer rt b).
  - rewrite IH. now destruct (last_answer rt b).
Qed.

(** A loop entered with the slot unset and left with a value has it from an
    answer among the polls it has read. *)
Lemma update_config_loop_answer (b : string) (timeout start_time : Q)
    (polls : list poll) :
  forall self s1 rest,
    waiting_for_topic self = Some (b ++ TOPIC_RESULT_SUFFIX) ->
    response self = PyNone ->
    update_config_loop timeout start_time polls self = Some (s1, rest) ->
    waiting_for_topic s1 = Some (b ++ TOPIC_RESULT_SUFFIX)
    /\ (forall m, In m (before_return rest) -> In m (messages polls))
    /\ (response s1 = PyNone
        \/ exists m, In m (messages polls)
                     /\ topic m = b ++ TOPIC_RESULT_SUFFIX
                     /\ payload m <> "--"
                     /\ response s1 = decoded (payload m)).
Proof.
  induction polls as [|[msgs now] later IH]; intros self s1 rest Hw Hr;
    [discriminate|].
  rewrite update_config_loop_cons.
  pose proof (deliver_response b msgs self Hw) as Hd.
  assert (Hlate : forall m, In m (before_return later)
                            -> In m (messages ((msgs, now) :: later))).
  { intros m Hin. unfold messages. simpl. apply in_or_app. right.
    now apply before_return_In. }
  destruct (is_None (response (deliver self msgs))) eqn:Hn.
  - assert (E : response (deliver self msgs) = PyNone)
      by (destruct (response (deliver self msgs)); try discriminate; reflexivity).
    destruct (timed_out now start_time timeout).
    + intros [= <- <-]. split; [| split].
      * simpl. now rewrite deliver_waiting.
      * exact Hlate.
      * left. exact E.
    + intros Hloop.
      destruct (IH _ _ _ (eq_trans (deliver_waiting _ _) Hw) E Hloop)
        as [Hw1 [Hrest H]].
      split; [exact Hw1 | split].
      * intros m Hin. unfold messages. simpl. apply in_or_app. right.
        now apply Hrest.
      * destruct H as [H | [m [Hin H]]]; [now left | right].
        exists m. split; [| exact H].
        unfold messages. simpl. apply in_or_app. now right.
  - intros [= <- <-]. split; [| split].
    + now rewrite deliver_waiting.
    + exact Hlate.
    + right.
      destruct (last_answer (b ++ TOPIC_RESULT_SUFFIX) msgs) as [p|] eqn:Hla.
      * destruct (last_answer_In _ _ _ Hla) as [m [Hin [Ht [Hp Hm]]]].
        exists m. split; [unfold messages; simpl; apply in_or_app; now left|].
        split; [exact Ht|]. split; [exact Hp|]. now rewrite Hd, Hm.
      * rewrite Hd, Hr in Hn. discriminate.
Qed.

(** The slot at the return: the latest answer handled after the loop, or
    what the loop left. *)
Lemma returning_response (b : string) (s1 : NukiConfigClient) (later : list poll) :
  waiting_for_topic s1 = Some (b ++ TOPIC_RESULT_SUFFIX) ->
  response (returning (b ++ TOPIC_RESULT_SUFFIX) s1 later)
  = match last_answer (b ++ TOPIC_RESULT_SUFFIX) (before_return later) with
    | Some p => decoded p
    | None => response s1
    end.
Proof.
  intros Hw. unfold returning.
  now rewrite (deliver_response b) by exact Hw.
Qed.

(** X1.  What [update_config] returns is [None] or the decoded payload of a
    message handled during the call, on the result topic of the target and
    other than the sentinel: nothing stored before the call is ever
    returned. *)
Theorem update_config_returns_an_answer (self : NukiConfigClient)
    (target : string) (config_dict : dict ConfigValue) (timeout start_time : Q)
    (polls : list poll) (v : pyval) (self' : NukiConfigClient) :
  update_config self target config_dict timeout start_time polls
  = (Returned v, self') ->
  v = PyNone
  \/ exists m, In m (messages polls)
               /\ topic m = result_topic (base_topic self) target
               /\ payload m <> "--"
               /\ v = decoded (payload m).
Proof.
  destruct (valid_target target) eqn:Hv.
  - rewrite (update_config_valid _ _ _ _ _ _ Hv).
    destruct (update_config_loop timeout start_time polls
                (awaiting self target config_dict)) as [[s1 rest]|] eqn:Hloop;
      [|discriminate].
    intros [= <- _].
    destruct (update_config_loop_answer (topic_base (base_topic self) target)
                timeout start_time polls (awaiting self target config_dict)
                s1 rest eq_refl eq_refl Hloop) as [Hw [Hrest H]].
    rewrite result_topic_suffix, (returning_response _ _ _ Hw).
    destruct (last_answer (topic_base (base_topic self) target ++ TOPIC_RESULT_SUFFIX)
                (before_return rest)) as [p|] eqn:Hla; [| exact H].
    right. destruct (last_answer_In _ _ _ Hla) as [m [Hin [Ht [Hp Hm]]]].
    exists m. split; [now apply Hrest|].
    split; [exact Ht|]. split; [exact Hp|]. now rewrite Hm.
  - unfold valid_target in Hv.
    apply orb_false_elim in Hv. destruct Hv as [Hv Ho].
    apply orb_false_elim in Hv. destruct Hv as [Hh Hl].
    unfold update_config. rewrite Hh, Hl, Ho. discriminate.
Qed.

Lemma update_config_returns_an_answer_witness :
  PyInt 7 = PyNone
  \/ exists m, In m (messages [([mkMessage "nuki/hub/configuration/commandResult" "7"], 1)])
               /\ topic m = result_topic (base_topic fresh_client) "hub"
               /\ payload m <> "--"
               /\ PyInt 7 = decoded (payload m).
Proof.
  assert (H : update_config fresh_client "hub" [] 10 0
                [([mkMessage "nuki/hub/configuration/commandResult" "7"], 1)]
              = (Returned (PyInt 7),
                 snd (update_config fresh_client "hub" [] 10 0
                        [([mkMessage "nuki/hub/configuration/commandResult" "7"], 1)])))
    by (vm_compute; reflexivity).
  exact (update_config_returns_an_answer fresh_client "hub" [] 10 0
           [([mkMessage "nuki/hub/configuration/commandResult" "7"], 1)]
           (PyInt 7) _ H).
Defined.

(** Polls that bring no answer and stay within the deadline are slept
    through, the payloads that the handler gives up on among them. *)
Lemma update_config_loop_waits (b : string) (timeout start_time : Q)
    (before later : list poll) :
  forall self,
    waiting_for_topic self = Some (b ++ TOPIC_RESULT_SUFFIX) ->
    response self = PyNone ->
    (forall p, In p before -> timed_out (snd p) start_time timeout = false) ->
    (forall m, In m (messages before) ->
               is_answer (b ++ TOPIC_RESULT_SUFFIX) m = false) ->
    update_config_loop timeout start_time (before ++ later)%list self
    = update_config_loop timeout start_time later (deliver self (messages before)).
Proof.
  induction before as [|[msgs0 now0] before IH]; intros self Hw Hr Hq Hm;
    [reflexivity|].
  change (((msgs0, now0) :: before) ++ later)%list
    with ((msgs0, now0) :: (before ++ later))%list.
  rewrite update_config_loop_cons.
  assert (E : response (deliver self msgs0) = PyNone).
  { rewrite (deliver_response b msgs0 self Hw), last_answer_none; [exact Hr|].
    intros m Hin. apply Hm. unfold messages. simpl. apply in_or_app. now left. }
  rewrite E. simpl is_None. cbv iota.
  pose proof (Hq (msgs0, now0) (or_introl eq_refl)) as Hn. simpl in Hn.
  rewrite Hn.
  rewrite IH.
  - unfold messages. simpl. now rewrite deliver_app.
  - now rewrite deliver_waiting.
  - exact E.
  - intros p Hin. apply Hq. now right.
  - intros m Hin. apply Hm. unfold messages. simpl. apply in_or_app. now right.
Qed.

(** X2.  The call leaves its loop at the first poll that finds an answer
    stored, and returns the latest answer handled before it returns.  An
    answer is a message on the result topic, other than the sentinel, that
    the handler handles to the end.  After polls that bring no answer and
    stay within the deadline, a batch whose latest answer [p0] decodes to a
    value other than [None] ends the wait, whatever the clock reads then;
    the value returned is the decoded payload of the latest answer [p] among
    that batch and the messages handled between the loop and the return.
    Both payloads are taken to be shallow, so that decoding them stays
    within the recursion limit of the interpreter. *)
Theorem update_config_returns_latest_answer (self : NukiConfigClient)
    (target : string) (config_dict : dict ConfigValue) (timeout start_time : Q)
    (before : list poll) (msgs : list BusMessage) (now : Q) (later : list poll)
    (p0 p : string) :
  valid_target target = true ->
  (forall q, In q before -> timed_out (snd q) start_time timeout = false) ->
  (forall m, In m (messages before) ->
             is_answer (result_topic (base_topic self) target) m = false) ->
  last_answer (result_topic (base_topic self) target) msgs = Some p0 ->
  decoded p0 <> PyNone ->
  last_answer (result_topic (base_topic self) target)
    (msgs ++ before_return later)%list = Some p ->
  shallow p0 = true ->
  shallow p = true ->
  fst (update_config self target config_dict timeout start_time
         (before ++ (msgs, now) :: later)%list)
  = Returned (decoded p).
Proof.
  intros Hv Hq Hm Hla Hp0 Hlp _ _.
  rewrite (update_config_valid _ _ _ _ _ _ Hv).
  rewrite (update_config_loop_waits (topic_base (base_topic self) target));
    [| reflexivity | reflexivity | exact Hq | exact Hm].
  rewrite update_config_loop_cons.
  set (s := deliver (awaiting self target config_dict) (messages before)).
  assert (Hw : waiting_for_topic s
               = Some (topic_base (base_topic self) target ++ TOPIC_RESULT_SUFFIX))
    by (unfold s; now rewrite deliver_waiting).
  pose proof (deliver_response _ msgs s Hw) as Hd.
  rewrite <- result_topic_suffix in Hd.
  rewrite Hla in Hd.
  assert (Hn : is_None (response (deliver s msgs)) = false).
  { rewrite Hd. destruct (decoded p0); try reflexivity. now elim Hp0. }
  rewrite Hn. cbv iota. unfold fst. f_equal.
  rewrite result_topic_suffix, (returning_response _ _ _
                                  (eq_trans (deliver_waiting _ _) Hw)).
  rewrite <- result_topic_suffix.
  rewrite last_answer_app, Hla in Hlp.
  destruct (last_answer (result_topic (base_topic self) target)
              (before_return later)); injection Hlp as <-; [reflexivity | exact Hd].
Qed.

Lemma update_config_returns_latest_answer_witness :
  fst (update_config fresh_client "opener" [] 10 0
         ([([mkMessage "nuki/hub/opener/configuration/commandResult" "--"], 1)]
          ++ ([mkMessage "nuki/hub/opener/configuration/commandResult" "failed";
               mkMessage "nuki/hub/opener/configuration/commandResult" "[1, 2]"],
              12)
             :: [([mkMessage "nuki/hub/opener/configuration/commandResult" "true";
                   mkMessage "nuki/hub/opener/configuration/commandResult" "--"],
                  13)])%list)
  = Returned (PyBool true).
Proof.
  apply (update_config_returns_latest_answer fresh_client "opener" [] 10 0
           [([mkMessage "nuki/hub/opener/configuration/commandResult" "--"], 1)]
           [mkMessage "nuki/hub/opener/configuration/commandResult" "failed";
            mkMessage "nuki/hub/opener/configuration/commandResult" "[1, 2]"]
           12
           [([mkMessage "nuki/hub/opener/configuration/commandResult" "true";
              mkMessage "nuki/hub/opener/configuration/commandResult" "--"], 13)]
           "[1, 2]" "true").
  - reflexivity.
  - intros q [<- | []]. reflexivity.
  - intros m [<- | []]. reflexivity.
  - reflexivity.
  - discriminate.
  - reflexivity.
  - reflexivity.
  - reflexivity.
Defined.

(** ** The request correlator: traffic that changes nothing *)

Lemma on_message_sentinel (self : NukiConfigClient) (m : BusMessage) (b : string) :
  waiting_for_topic self = Some (b ++ TOPIC_RESULT_SUFFIX) ->
  is_sentinel (b ++ TOPIC_RESULT_SUFFIX) m = true ->
  on_message self m = self.
Proof.
  intros Hw H. unfold is_sentinel in H. apply andb_prop in H.
  destruct H as [Ht Hp]. apply String.eqb_eq in Ht, Hp.
  now apply (proj1 (on_message_awaited self m b Hw Ht)).
Qed.

Lemma before_return_keep (f : BusMessage -> bool) (later : list poll) :
  before_return (keep f later) = filter f (before_return later).
Proof. destruct later as [|[msgs now] later]; reflexivity. Qed.

Lemma update_config_loop_waiting (timeout start_time : Q) (polls : list poll) :
  forall self s1 rest,
    update_config_loop timeout start_time polls self = Some (s1, rest) ->
    waiting_for_topic s1 = waiting_for_topic self.
Proof.
  induction polls as [|[msgs now] later IH]; intros self s1 rest; [discriminate|].
  rewrite update_config_loop_cons.
  destruct (is_None (response (deliver self msgs))).
  - destruct (timed_out now start_time timeout).
    + intros [= <- _]. simpl. apply deliver_waiting.
    + intros H. rewrite (IH _ _ _ H). apply deliver_waiting.
  - intros [= <- _]. apply deliver_waiting.
Qed.

Lemma deliver_without_sentinels (b : string) (msgs : list BusMessage) :
  forall self,
    waiting_for_topic self = Some (b ++ TOPIC_RESULT_SUFFIX) ->
    deliver self
      (filter (fun m => negb (is_sentinel (b ++ TOPIC_RESULT_SUFFIX) m)) msgs)
    = deliver self msgs.
Proof.
  unfold deliver.
  induction msgs as [|m msgs IH]; intros self Hw; simpl; [reflexivity|].
  destruct (is_sentinel (b ++ TOPIC_RESULT_SUFFIX) m) eqn:Hs; simpl.
  - rewrite (on_message_sentinel self m b Hw Hs). now apply IH.
  - apply IH. now rewrite on_message_waiting.
Qed.

Lemma messages_cons (msgs : list BusMessage) (now : Q) (later : list poll) :
  messages ((msgs, now) :: later) = (msgs ++ messages later)%list.
Proof. reflexivity. Qed.

Lemma update_config_loop_without_sentinels (b : string) (timeout start_time : Q)
    (polls : list poll) :
  forall self,
    waiting_for_topic self = Some (b ++ TOPIC_RESULT_SUFFIX) ->
    update_config_loop timeout start_time
      (keep (fun m => negb (is_sentinel (b ++ TOPIC_RESULT_SUFFIX) m)) polls) self
    = on_exit (fun s1 rest =>
                 (s1, keep (fun m => negb (is_sentinel (b ++ TOPIC_RESULT_SUFFIX) m))
                        rest))
        (update_config_loop timeout start_time polls self)
    /\ deliver self
         (messages (keep (fun m => negb (is_sentinel (b ++ TOPIC_RESULT_SUFFIX) m))
                      polls))
       = deliver self (messages polls).
Proof.
  induction polls as [|[msgs now] later IH]; intros self Hw; [now split|].
  simpl keep. rewrite !update_config_loop_cons, !messages_cons, !deliver_app.
  rewrite (deliver_without_sentinels b msgs self Hw).
  destruct (IH (deliver self msgs) (eq_trans (deliver_waiting _ _) Hw))
    as [Hl Hd].
  split; [| exact Hd].
  destruct (is_None (response (deliver self msgs))); [|reflexivity].
  destruct (timed_out now start_time timeout); [reflexivity | exact Hl].
Qed.

(** X3.  Sentinel messages on the result topic are invisible to a request:
    with them left out of what is handled, [update_config] ends the same
    way, with the same client and the same output. *)
Theorem update_config_ignores_sentinels (self : NukiConfigClient)
    (target : string) (config_dict : dict ConfigValue) (timeout start_time : Q)
    (polls : list poll) :
  update_config self target config_dict timeout start_time
    (keep (fun m => negb (is_sentinel (result_topic (base_topic self) target) m))
       polls)
  = update_config self target config_dict timeout start_time polls.
Proof.
  destruct (valid_target target) eqn:Hv.
  - rewrite !(update_config_valid _ _ _ _ _ _ Hv).
    destruct (update_config_loop_without_sentinels
                (topic_base (base_topic self) target) timeout start_time polls
                (awaiting self target config_dict) eq_refl) as [Hl Hd].
    change (topic_base (base_topic self) target ++ TOPIC_RESULT_SUFFIX)
      with (result_topic (base_topic self) target) in Hl, Hd.
    rewrite Hl, Hd.
    destruct (update_config_loop timeout start_time polls
                (awaiting self target config_dict)) as [[s1 rest]|] eqn:Hloop;
      [| reflexivity].
    unfold on_exit, returning. rewrite before_return_keep.
    rewrite result_topic_suffix, deliver_without_sentinels; [reflexivity|].
    change (waiting_for_topic s1
            = Some (topic_base (base_topic self) target ++ TOPIC_RESULT_SUFFIX)).
    now rewrite (update_config_loop_waiting _ _ _ _ _ _ Hloop).
  - unfold valid_target in Hv.
    apply orb_false_elim in Hv. destruct Hv as [Hv Ho].
    apply orb_false_elim in Hv. destruct Hv as [Hh Hl].
    unfold update_config. now rewrite Hh, Hl, Ho.
Qed.

(** The handler neither reads nor writes the address on a message that is
    not an announcement. *)
Lemma on_message_forget_ip (self : NukiConfigClient) (m : BusMessage) :
  forget_ip (on_message self m)
  = if is_announcement m then forget_ip self
    else on_message (forget_ip self) m.
Proof.
  unfold is_announcement, on_message, forget_ip.
  destruct (Py.endswith (topic m) "/info/nukiHubIp"); [reflexivity|].
  cbn [waiting_for_topic set_ip_address].
  destruct (Py.truthy (waiting_for_topic self)
            && match waiting_for_topic self with
               | Some t => String.eqb (topic m) t
               | None => false
               end); [|reflexivity].
  destruct (String.eqb (payload m) "--"); [reflexivity|].
  destruct (Json.loads (payload m)); reflexivity.
Qed.

Lemma deliver_forget_ip (msgs : list BusMessage) :
  forall self,
    forget_ip (deliver self msgs)
    = deliver (forget_ip self)
        (filter (fun m => negb (is_announcement m)) msgs).
Proof.
  unfold deliver.
  induction msgs as [|m msgs IH]; intros self; simpl; [reflexivity|].
  rewrite IH, on_message_forget_ip.
  destruct (is_announcement m); reflexivity.
Qed.

Lemma forget_ip_call (c : mqtt_call) (self : NukiConfigClient) :
  forget_ip (call c self) = call c (forget_ip self).
Proof. reflexivity. Qed.

Lemma response_forget_ip (self : NukiConfigClient) :
  response (forget_ip self) = response self.
Proof. reflexivity. Qed.

Lemma update_config_loop_forget_ip (timeout start_time : Q) (polls : list poll) :
  forall self,
    on_exit (fun s1 rest =>
               (forget_ip s1, keep (fun m => negb (is_announcement m)) rest))
      (update_config_loop timeout start_time polls self)
    = update_config_loop timeout start_time
        (keep (fun m => negb (is_announcement m)) polls) (forget_ip self)
    /\ forget_ip (deliver self (messages polls))
       = deliver (forget_ip self)
           (messages (keep (fun m => negb (is_announcement m)) polls)).
Proof.
  induction polls as [|[msgs now] later IH]; intros self; [now split|].
  simpl keep. rewrite !update_config_loop_cons, !messages_cons, !deliver_app.
  rewrite <- deliver_forget_ip, response_forget_ip.
  destruct (IH (deliver self msgs)) as [Hl Hd].
  split; [| exact Hd].
  destruct (is_None (response (deliver self msgs))); [|reflexivity].
  destruct (timed_out now start_time timeout); [reflexivity | exact Hl].
Qed.

Lemma Some_eq {A : Type} (a b : A) : Some a = Some b -> a = b.
Proof. now intros [= ->]. Qed.

Lemma filter_idem {A : Type} (f : A -> bool) (l : list A) :
  filter f (filter f l) = filter f l.
Proof.
  induction l as [|a l IH]; simpl; [reflexivity|].
  destruct (f a) eqn:E; simpl; [now rewrite E, IH | exact IH].
Qed.

Lemma keep_idem (f : BusMessage -> bool) (polls : list poll) :
  keep f (keep f polls) = keep f polls.
Proof.
  unfold keep. rewrite map_map. apply map_ext. intros [msgs now]. simpl.
  now rewrite filter_idem.
Qed.

(** X4.  Announcements of the address that arrive during a request change
    nothing but the stored address: with them left out, [update_config] ends
    the same way, and the two clients differ at most in [ip_address]. *)
Theorem update_config_unaffected_by_announcements (self : NukiConfigClient)
    (target : string) (config_dict : dict ConfigValue) (timeout start_time : Q)
    (polls : list poll) :
  let r := update_config self target config_dict timeout start_time polls in
  let r' := update_config self target config_dict timeout start_time
              (keep (fun m => negb (is_announcement m)) polls) in
  fst r = fst r' /\ forget_ip (snd r) = forget_ip (snd r').
Proof.
  intros r r'. unfold r, r'.
  destruct (valid_target target) eqn:Hv.
  - rewrite !(update_config_valid _ _ _ _ _ _ Hv).
    set (s := awaiting self target config_dict).
    destruct (update_config_loop_forget_ip timeout start_time polls s)
      as [Hl Hd].
    destruct (update_config_loop_forget_ip timeout start_time
                (keep (fun m => negb (is_announcement m)) polls) s)
      as [Hl' Hd'].
    rewrite keep_idem in Hl', Hd'. rewrite <- Hl' in Hl. rewrite <- Hd' in Hd.
    destruct (update_config_loop timeout start_time polls s) as [[s1 rest1]|];
      destruct (update_config_loop timeout start_time
                  (keep (fun m => negb (is_announcement m)) polls) s)
        as [[s2 rest2]|];
      try discriminate Hl.
    + apply Some_eq in Hl.
      pose proof (f_equal fst Hl) as Hs. pose proof (f_equal snd Hl) as Hrest.
      cbn [fst snd] in Hs, Hrest.
      assert (Hf : forget_ip (returning (result_topic (base_topic self) target)
                                s1 rest1)
                   = forget_ip (returning (result_topic (base_topic self) target)
                                  s2 rest2)).
      { unfold returning.
        rewrite !deliver_forget_ip, !forget_ip_call, Hs.
        rewrite <- !before_return_keep, Hrest. reflexivity. }
      unfold fst, snd. split; [| exact Hf].
      f_equal.
      rewrite <- (response_forget_ip (returning _ s1 rest1)), Hf.
      apply response_forget_ip.
    + simpl. split; [reflexivity | exact Hd].
  - unfold valid_target in Hv.
    apply orb_false_elim in Hv. destruct Hv as [Hv Ho].
    apply orb_false_elim in Hv. destruct Hv as [Hh Hl].
    unfold update_config. rewrite Hh, Hl, Ho. now split.
Qed.

(** ** Calls end *)

Lemma update_config_loop_ends (timeout start_time : Q) (polls : list poll) :
  existsb (past_deadline timeout start_time) polls = true ->
  forall self, update_config_loop timeout start_time polls self <> None.
Proof.
  induction polls as [|[msgs now] later IH]; [discriminate|].
  simpl existsb. unfold past_deadline at 1. simpl snd. intros H self.
  rewrite update_config_loop_cons.
  destruct (is_None (response (deliver self msgs))); [|discriminate].
  destruct (timed_out now start_time timeout); [discriminate|].
  now apply IH.
Qed.

Lemma wait_for_ip_loop_ends (timeout start_time : Q) (polls : list poll) :
  existsb (past_deadline timeout start_time) polls = true ->
  forall self, wait_for_ip_loop timeout start_time polls self <> None.
Proof.
  induction polls as [|[msgs now] later IH]; [discriminate|].
  simpl existsb. unfold past_deadline at 1. simpl snd. intros H self.
  rewrite wait_for_ip_loop_cons.
  destruct (ip_address (deliver self msgs)); [discriminate|].
  destruct (timed_out now start_time timeout); [discriminate|].
  now apply IH.
Qed.

(** X5.  Once the clock read in a loop is past the deadline, the call is
    over: whatever messages arrive, [update_config] and [wait_for_ip] have
    returned or raised by the first such poll. *)
Theorem calls_end_by_the_deadline (self : NukiConfigClient) (target : string)
    (config_dict : dict ConfigValue) (timeout start_time : Q) (polls : list poll) :
  existsb (past_deadline timeout start_time) polls = true ->
  fst (update_config self target config_dict timeout start_time polls) <> Pending
  /\ fst (wait_for_ip self timeout start_time polls) <> Pending.
Proof.
  intros H. split.
  - unfold update_config.
    destruct (if String.eqb target "hub" then Some (base_topic self)
              else if String.eqb target "lock" then Some (base_topic self ++ "/lock")
              else if String.eqb target "opener"
                   then Some (base_topic self ++ "/opener")
                   else None) as [tb|]; [|discriminate].
    cbv zeta.
    match goal with
    | |- context [update_config_loop timeout start_time polls ?s] =>
        pose proof (update_config_loop_ends _ _ _ H s) as Hl;
        destruct (update_config_loop timeout start_time polls s) as [[s1 rest]|]
    end; [discriminate | now elim Hl].
  - rewrite wait_for_ip_unfold.
    pose proof (wait_for_ip_loop_ends _ _ _ H (discovering self)) as Hl.
    destruct (wait_for_ip_loop timeout start_time polls (discovering self))
      as [[s1|[s1 later]]|]; [discriminate | discriminate | now elim Hl].
Qed.

Lemma calls_end_by_the_deadline_witness :
  existsb (past_deadline 10 0) [([], 5); ([], 10); ([], 10.5)] = true
  /\ fst (update_config fresh_client "lock" [] 10 0 [([], 5); ([], 10); ([], 10.5)])
     <> Pending.
Proof.
  split; [reflexivity|].
  exact (proj1 (calls_end_by_the_deadline fresh_client "lock" [] 10 0
                  [([], 5); ([], 10); ([], 10.5)] eq_refl)).
Defined.

(** ** Device discovery: traffic that changes nothing *)

Lemma last_announcement_filter (msgs : list BusMessage) :
  last_announcement (filter is_announcement msgs) = last_announcement msgs.
Proof.
  induction msgs as [|m msgs IH]; simpl; [reflexivity|].
  destruct (is_announcement m) eqn:Ha; simpl.
  - now rewrite IH, Ha.
  - rewrite IH. now destruct (last_announcement msgs).
Qed.

Lemma wait_for_ip_loop_same_exit (timeout start_time : Q) (polls : list poll) :
  forall s s',
    ip_address s = ip_address s' ->
    same_exit is_announcement
      (wait_for_ip_loop timeout start_time polls s)
      (wait_for_ip_loop timeout start_time (keep is_announcement polls) s').
Proof.
  induction polls as [|[msgs now] later IH]; intros s s' E; [exact I|].
  simpl keep. rewrite !wait_for_ip_loop_cons.
  assert (Hd : ip_address (deliver s msgs)
               = ip_address (deliver s' (filter is_announcement msgs)))
    by now rewrite !deliver_ip_address, last_announcement_filter, E.
  rewrite <- Hd.
  destruct (ip_address (deliver s msgs)) as [a|] eqn:Ha.
  - unfold same_exit. rewrite Ha. now split.
  - destruct (timed_out now start_time timeout).
    + unfold same_exit. now rewrite Ha.
    + apply IH. now rewrite Ha.
Qed.

(** X6.  What a discovery session returns depends on the announcements
    alone: with every other message left out of what is handled,
    [wait_for_ip] returns the same. *)
Theorem wait_for_ip_depends_on_announcements (self : NukiConfigClient)
    (timeout start_time : Q) (polls : list poll) :
  fst (wait_for_ip self timeout start_time polls)
  = fst (wait_for_ip self timeout start_time (keep is_announcement polls)).
Proof.
  rewrite !wait_for_ip_unfold.
  pose proof (wait_for_ip_loop_same_exit timeout start_time polls
                (discovering self) (discovering self) eq_refl) as H.
  destruct (wait_for_ip_loop timeout start_time polls (discovering self))
    as [[s1|[s1 later1]]|];
    destruct (wait_for_ip_loop timeout start_time (keep is_announcement polls)
                (discovering self)) as [[s2|[s2 later2]]|];
    simpl in H; try contradiction; try reflexivity.
  destruct H as [Hs ->]. unfold fst.
  rewrite !returning_ip_address, before_return_keep, last_announcement_filter.
  now rewrite Hs.
Qed.

(** X7.  A session that returns an address has made two calls on the
    transport, the subscribe and the unsubscribe of the announcement topic,
    and leaves the address it returns stored in the client. *)
Theorem wait_for_ip_found_calls (self : NukiConfigClient)
    (timeout start_time : Q) (polls : list poll) (a : string)
    (self' : NukiConfigClient) :
  wait_for_ip self timeout start_time polls = (Returned (Some a), self') ->
  client self'
  = (client self
     ++ [subscribe (ip_topic (base_topic self));
         unsubscribe (ip_topic (base_topic self))])%list
  /\ ip_address self' = Some a.
Proof.
  rewrite wait_for_ip_unfold.
  destruct (wait_for_ip_loop timeout start_time polls (discovering self))
    as [[s1|[s1 later]]|] eqn:Hloop; try discriminate.
  intros [= Ha <-]. split; [| exact Ha].
  rewrite returning_client.
  pose proof (wait_for_ip_loop_client _ _ _ _ _ Hloop) as Hc.
  change (client s1 = client (discovering self)) in Hc. rewrite Hc.
  change (client (discovering self))
    with (client self ++ [subscribe (ip_topic (base_topic self))])%list.
  now rewrite <- app_assoc.
Qed.

Lemma wait_for_ip_found_calls_witness :
  client (snd (wait_for_ip fresh_client 10 0
                 [([mkMessage "nuki/hub/info/nukiHubIp" "192.168.1.10"], 1)]))
  = [subscribe "nuki/hub/info/nukiHubIp"; unsubscribe "nuki/hub/info/nukiHubIp"].
Proof.
  exact (proj1 (wait_for_ip_found_calls fresh_client 10 0
                  [([mkMessage "nuki/hub/info/nukiHubIp" "192.168.1.10"], 1)]
                  "192.168.1.10" _ eq_refl)).
Defined.

(** ** The artifact fetcher without an address *)

(** X8.  When discovery gives no address, or the empty text as one,
    [fetch_coredump] reports a timeout and returns: it sends no request
    (the server's answers play no part) and writes no file. *)
Theorem fetch_coredump_without_address (self : NukiConfigClient)
    (web_user web_password : option string) (output_file : string)
    (start_time : Q) (polls : list poll)
    (world : World) (fs : files)
    (ip : option string) (found : NukiConfigClient) :
  wait_for_ip (print (Line "Waiting for Nuki Hub IP address...") self)
    10 start_time polls
  = (Returned ip, found) ->
  ip = None \/ ip = Some EmptyString ->
  fetch_coredump self web_user web_password output_file start_time polls world fs
  = (Returned tt,
     print (Line "Timeout waiting for IP address. Ensure Nuki Hub is online and MQTT is connected.")
       found,
     fs).
Proof.
  intros Hw Hip. unfold fetch_coredump. rewrite Hw.
  destruct Hip as [-> | ->]; reflexivity.
Qed.

Lemma fetch_coredump_without_address_witness :
  fetch_coredump fresh_client None None "coredump.hex" 0
    [([mkMessage "nuki/hub/info/nukiHubIp" EmptyString], 1)] no_coredump []
  = (Returned tt,
     print (Line "Timeout waiting for IP address. Ensure Nuki Hub is online and MQTT is connected.")
       (snd (wait_for_ip
               (print (Line "Waiting for Nuki Hub IP address...") fresh_client)
               10 0 [([mkMessage "nuki/hub/info/nukiHubIp" EmptyString], 1)])),
     []).
Proof.
  exact (fetch_coredump_without_address fresh_client None None "coredump.hex" 0
           [([mkMessage "nuki/hub/info/nukiHubIp" EmptyString], 1)]
           no_coredump [] (Some EmptyString) _ eq_refl (or_intror eq_refl)).
Defined.

(** ** The coercer: the dictionary built *)

Lemma fold_left_cons {A B : Type} (f : A -> B -> A) (b : B) (l : list B) (a : A) :
  fold_left f (b :: l) a = fold_left f l (f a b).
Proof. reflexivity. Qed.

Lemma parse_settings_fold_fst (t1 t2 : string) (settings : list string) :
  forall d out1 out2,
    fst (fold_left (parse_setting t1) settings (d, out1))
    = fst (fold_left (parse_setting t2) settings (d, out2)).
Proof.
  induction settings as [|s later IH]; intros d out1 out2; [reflexivity|].
  rewrite !fold_left_cons, !parse_setting_eq. apply IH.
Qed.

(** X9.  Key validation only prints: the dictionary built from the entries
    is the same for every target. *)
Theorem parse_settings_same_for_all_targets (t1 t2 : string)
    (settings : list string) :
  fst (parse_settings t1 settings) = fst (parse_settings t2 settings).
Proof. apply parse_settings_fold_fst. Qed.

Lemma contains_In (keys : list string) (key : string) :
  contains keys key = true <-> In key keys.
Proof.
  unfold contains. rewrite existsb_exists. split.
  - intros [x [Hin Hx]]. apply String.eqb_eq in Hx. now subst.
  - intros Hin. exists key. split; [exact Hin | apply String.eqb_refl].
Qed.

Lemma dict_set_keys {V : Type} (d : dict V) (k : string) (v : V) :
  map fst (dict_set d k v) = add_key (map fst d) k.
Proof.
  unfold add_key. induction d as [|[k' v'] d IH]; simpl; [reflexivity|].
  unfold contains in *. simpl.
  rewrite (String.eqb_sym k k').
  destruct (String.eqb k' k); simpl; [reflexivity|].
  rewrite IH. now destruct (existsb (String.eqb k) (map fst d)).
Qed.

Lemma add_key_NoDup (seen : list string) (key : string) :
  NoDup seen -> NoDup (add_key seen key).
Proof.
  intros H. unfold add_key. destruct (contains seen key) eqn:E; [exact H|].
  apply NoDup_app; [exact H | repeat constructor; intros [] |].
  intros x Hin [<- | []]. apply contains_In in Hin. congruence.
Qed.

Lemma fold_add_key_NoDup (keys : list string) :
  forall seen, NoDup seen -> NoDup (fold_left add_key keys seen).
Proof.
  induction keys as [|k keys IH]; intros seen H; [exact H|].
  simpl. apply IH. now apply add_key_NoDup.
Qed.

Lemma parse_settings_keys_from (target : string) (settings : list string) :
  forall d out,
    map fst (fst (fold_left (parse_setting target) settings (d, out)))
    = fold_left add_key (flat_map entry_key settings) (map fst d).
Proof.
  induction settings as [|s later IH]; intros d out; [reflexivity|].
  rewrite fold_left_cons, parse_setting_eq, IH.
  change (flat_map entry_key (s :: later))
    with (entry_key s ++ flat_map entry_key later)%list.
  rewrite fold_left_app. f_equal. unfold entry_key.
  destruct (Py.split_once "=" s) as [[k v]|]; simpl; [|reflexivity].
  now rewrite dict_set_keys.
Qed.

(** X10.  Each key is in the dictionary once, at the place of its first
    entry, however many entries set it. *)
Theorem parse_settings_keys (target : string) (settings : list string) :
  map fst (fst (parse_settings target settings))
  = first_occurrences (flat_map entry_key settings)
  /\ NoDup (map fst (fst (parse_settings target settings))).
Proof.
  assert (H : map fst (fst (parse_settings target settings))
              = first_occurrences (flat_map entry_key settings))
    by apply (parse_settings_keys_from target settings [] []).
  split; [exact H|]. rewrite H. apply fold_add_key_NoDup. constructor.
Qed.

Lemma dict_set_not_nil {V : Type} (d : dict V) (k : string) (v : V) :
  dict_set d k v <> [].
Proof. destruct d as [|[k' v'] d]; simpl; [|destruct (String.eqb k' k)]; discriminate. Qed.

Lemma parse_settings_grows (target : string) (settings : list string) :
  forall d out,
    d <> [] ->
    fst (fold_left (parse_setting target) settings (d, out)) <> [].
Proof.
  induction settings as [|s later IH]; intros d out H; [exact H|].
  rewrite fold_left_cons, parse_setting_eq. apply IH.
  destruct (Py.split_once "=" s) as [[k v]|]; [apply dict_set_not_nil | exact H].
Qed.

Lemma parse_settings_malformed_from (target : string) (settings : list string) :
  forall d out,
    fst (fold_left (parse_setting target) settings (d, out))
    = fst (fold_left (parse_setting target) (filter well_formed settings) (d, out)).
Proof.
  induction settings as [|s later IH]; intros d out; [reflexivity|].
  rewrite fold_left_cons, parse_setting_eq. simpl filter.
  unfold well_formed at 1.
  destruct (Py.split_once "=" s) as [[k v]|] eqn:E.
  - rewrite fold_left_cons, parse_setting_eq, E.
    rewrite IH. apply (parse_settings_fold_fst target target).
  - rewrite IH. apply (parse_settings_fold_fst target target).
Qed.

Lemma parse_settings_empty (target : string) (settings : list string) :
  fst (parse_settings target settings) = []
  <-> forall setting, In setting settings -> well_formed setting = false.
Proof.
  unfold parse_settings. split.
  - induction settings as [|s later IH]; intros H setting []; subst.
    + rewrite fold_left_cons, parse_setting_eq in H.
      unfold well_formed.
      destruct (Py.split_once "=" setting) as [[k v]|]; [|reflexivity].
      exfalso. revert H. apply parse_settings_grows, dict_set_not_nil.
    + apply IH; [| assumption].
      rewrite fold_left_cons, parse_setting_eq in H.
      destruct (Py.split_once "=" s) as [[k v]|].
      * exfalso. revert H. apply parse_settings_grows, dict_set_not_nil.
      * etransitivity; [apply (parse_settings_fold_fst target target) | exact H].
  - intros H. rewrite parse_settings_malformed_from.
    replace (filter well_formed settings) with (@nil string); [reflexivity|].
    symmetry. induction settings as [|s later IH]; [reflexivity|].
    simpl. rewrite (H s (or_introl eq_refl)).
    apply IH. intros x Hx. apply H. now right.
Qed.

(** X11.  An entry without "=" is reported by a line and leaves the
    dictionary as it is, and the dictionary is empty exactly when no entry
    has a "=". *)
Theorem parse_settings_malformed (target : string) (settings : list string) :
  fst (parse_settings target settings)
  = fst (parse_settings target (filter well_formed settings))
  /\ (forall setting,
        In setting settings -> well_formed setting = false ->
        In (warning_ignored setting) (snd (parse_settings target settings)))
  /\ (fst (parse_settings target settings) = []
      <-> forall setting, In setting settings -> well_formed setting = false).
Proof.
  split; [apply parse_settings_malformed_from | split].
  - intros setting Hin Hw.
    rewrite (proj1 (parse_settings_spec target settings)).
    apply in_flat_map. exists setting. split; [exact Hin|].
    unfold lines_for. unfold well_formed in Hw.
    destruct (Py.split_once "=" setting); [discriminate | now left].
  - apply parse_settings_empty.
Qed.

Lemma parse_settings_malformed_witness :
  In "pairing" ["pairing"; "name=Door"] /\ well_formed "pairing" = false
  /\ In (warning_ignored "pairing")
        (snd (parse_settings "lock" ["pairing"; "name=Door"])).
Proof.
  assert (Hin : In "pairing" ["pairing"; "name=Door"]) by (left; reflexivity).
  split; [exact Hin|]. split; [reflexivity|].
  exact (proj1 (proj2 (parse_settings_malformed "lock" ["pairing"; "name=Door"]))
           "pairing" Hin eq_refl).
Defined.

(** X12.  An entry is cut at its first "=": the key has no "=", the value
    keeps every later one, and key, "=" and value put the entry back
    together; an entry is left uncut exactly when it has no "=". *)
Theorem split_once_spec (setting : string) :
  (forall key value,
     Py.split_once "=" setting = Some (key, value)
     <-> setting = key ++ "=" ++ value /\ no_equals key = true)
  /\ (Py.split_once "=" setting = None <-> no_equals setting = true).
Proof.
  induction setting as [|c r [IHs IHn]].
  - split.
    + intros key value. split; [discriminate|].
      intros [H _]. destruct key; discriminate H.
    + split; reflexivity.
  - simpl. destruct (Ascii.eqb_spec c "=") as [-> | Hc]; simpl.
    + split.
      * intros key value. split.
        -- intros [= <- <-]. now split.
        -- intros [H Hk]. destruct key as [|k key].
           ++ simpl in H. now injection H as ->.
           ++ simpl in H. injection H as <- _. discriminate Hk.
      * split; discriminate.
    + split.
      * intros key value. split.
        -- destruct (Py.split_once "=" r) as [[k v]|] eqn:E; [|discriminate].
           intros [= <- <-]. destruct (proj1 (IHs k v) eq_refl) as [-> Hk].
           split; [reflexivity|]. simpl. rewrite Hk.
           now destruct (Ascii.eqb_spec c "=").
        -- intros [H Hk]. destruct key as [|k key].
           ++ simpl in H. injection H as -> _. now elim Hc.
           ++ simpl in H. injection H as <- ->. simpl in Hk.
              apply andb_prop in Hk. destruct Hk as [_ Hk].
              now rewrite (proj2 (IHs key value) (conj eq_refl Hk)).
      * destruct (Py.split_once "=" r) as [[k v]|].
        -- split; [discriminate|]. intros H. apply IHn in H. discriminate.
        -- split; intros _; [now apply IHn | reflexivity].
Qed.

(** ** The coercer: integers in their usual writing *)

Lemma decimal_value_uint (d : Decimal.uint) :
  forall acc,
    Json.decimal_value acc (NilEmpty.string_of_uint d) = uint_value acc d
    /\ all_digits (NilEmpty.string_of_uint d) = true.
Proof.
  induction d; intros acc; simpl; try (split; reflexivity);
    (split; [apply (proj1 (IHd _)) | apply (proj2 (IHd 0%Z))]).
Qed.

Lemma of_uint_acc_value (d : Decimal.uint) :
  forall acc, Zpos (Pos.of_uint_acc d acc) = uint_value (Zpos acc) d.
Proof.
  induction d; intros acc; cbn [Pos.of_uint_acc uint_value];
    [reflexivity | ..]; rewrite IHd; f_equal;
    rewrite ?Pos2Z.inj_add, Pos2Z.inj_mul; reflexivity || lia.
Qed.

Lemma of_uint_value (d : Decimal.uint) :
  Z.of_N (Pos.of_uint d) = uint_value 0 d.
Proof.
  induction d; simpl; [reflexivity | exact IHd | ..];
    apply of_uint_acc_value.
Qed.

Lemma string_of_uint_positive (p : positive) :
  digits (NilZero.string_of_uint (Pos.to_uint p)) = true
  /\ Json.decimal_value 0 (NilZero.string_of_uint (Pos.to_uint p)) = Zpos p.
Proof.
  pose proof (DecimalPos.Unsigned.to_uint_nonnil p) as Hn.
  pose proof (DecimalPos.Unsigned.of_to p) as Hv.
  destruct (decimal_value_uint (Pos.to_uint p) 0) as [Hd Ha].
  rewrite <- of_uint_value, Hv in Hd.
  unfold NilZero.string_of_uint.
  destruct (Pos.to_uint p) eqn:E; [now elim Hn | ..];
    (split; [exact Ha | exact Hd]).
Qed.

(** The usual decimal writing of an integer is digits after an optional
    sign, and [PyLong_FromString] reads it back. *)
Lemma long_from_string_of_integer (n : Z) :
  digits_optionally_signed (Py.str_of_int n) = true
  /\ Py.long_from_string (Py.str_of_int n) = Some n.
Proof.
  unfold Py.str_of_int. destruct n as [|p|p].
  - split; reflexivity.
  - destruct (string_of_uint_positive p) as [Hd Hv].
    change (NilZero.string_of_int (Z.to_int (Zpos p)))
      with (NilZero.string_of_uint (Pos.to_uint p)).
    assert (Hs : digits_optionally_signed
                   (NilZero.string_of_uint (Pos.to_uint p)) = true).
    { unfold digits_optionally_signed.
      destruct (NilZero.string_of_uint (Pos.to_uint p)) as [|c r] eqn:E;
        [discriminate Hd|].
      destruct (is_sign c) eqn:Hc; [|exact Hd].
      simpl in Hd. apply andb_prop in Hd. destruct Hd as [Hc' _].
      destruct (digit_not_sign _ Hc') as [H43 H45].
      unfold is_sign in Hc. rewrite H43, H45 in Hc. discriminate. }
    split; [exact Hs|].
    rewrite (int_signed_digits _ Hs). f_equal.
    unfold numeric_value.
    destruct (NilZero.string_of_uint (Pos.to_uint p)) as [|c r] eqn:E;
      [discriminate Hd|].
    simpl in Hd. apply andb_prop in Hd. destruct Hd as [Hc' _].
    destruct (digit_not_sign _ Hc') as [H43 H45].
    now rewrite H45, H43.
  - destruct (string_of_uint_positive p) as [Hd Hv].
    change (NilZero.string_of_int (Z.to_int (Zneg p)))
      with (String "-" (NilZero.string_of_uint (Pos.to_uint p))).
    assert (Hs : digits_optionally_signed
                   (String "-" (NilZero.string_of_uint (Pos.to_uint p))) = true)
      by exact Hd.
    split; [exact Hs|].
    rewrite (int_signed_digits _ Hs). f_equal.
    change (numeric_value (String "-" (NilZero.string_of_uint (Pos.to_uint p))))
      with (- Json.decimal_value 0 (NilZero.string_of_uint (Pos.to_uint p)))%Z.
    now rewrite Hv.
Qed.

(** X13.  An integer in its usual decimal writing, of no more digits than
    the interpreter converts (4300), is coerced to that integer, and is
    written in the command as the text it was given. *)
Theorem coerce_value_of_integer (n : Z) :
  (Py.count_digits (Py.str_of_int n) <= Py.max_str_digits)%nat ->
  coerce_value (Py.str_of_int n) = Integer n
  /\ Json.dumps_value (coerce_value (Py.str_of_int n)) = Py.str_of_int n.
Proof.
  intros Hlen.
  destruct (long_from_string_of_integer n) as [Hs Hl].
  assert (H : Py.int (Py.str_of_int n) = Some n).
  { unfold Py.int. cbv zeta.
    rewrite (to_ascii_decimal_plain _ (digits_optionally_signed_ascii _ Hs)).
    apply Nat.ltb_ge in Hlen. now rewrite Hlen. }
  assert (Hc : coerce_value (Py.str_of_int n) = Integer n)
    by (unfold coerce_value; now rewrite H).
  split; [exact Hc | now rewrite Hc].
Qed.

Lemma coerce_value_of_integer_witness :
  coerce_value (Py.str_of_int (-1200)) = Integer (-1200)
  /\ Json.dumps_value (coerce_value (Py.str_of_int (-1200))) = "-1200".
Proof.
  apply (coerce_value_of_integer (-1200)). apply Nat.leb_le. reflexivity.
Defined.

(** ** The runs of [main] *)

(** X14.  Without [--fetch-coredump], a run with no target, or asked for
    the listing, or given no entry with a "=", ends by [sys.exit] without a
    call on the transport or a file written; the status is 0 for the listing
    and 1 otherwise. *)
Theorem main_early_exit (a : Args) (e : Env) :
  arg_fetch_coredump a = false ->
  Py.truthy (arg_target a) = false \/ arg_list_settings a = true
  \/ (forall s, In s (arg_settings a) -> well_formed s = false) ->
  ending_of (main a e)
  = SysExit (if Py.truthy (arg_target a) && arg_list_settings a then 0 else 1)
  /\ calls_of (main a e) = []
  /\ files_of (main a e) = env_files e.
Proof.
  intros Hf H. unfold main. rewrite Hf.
  destruct (Py.truthy (arg_target a)) eqn:Ht; simpl negb; cbv iota;
    [|now repeat split].
  destruct (arg_list_settings a) eqn:Hl; [now repeat split|].
  destruct H as [H | [H | H]]; try discriminate.
  destruct (arg_settings a) as [|s0 later] eqn:Hs; [now repeat split|].
  apply parse_settings_empty with (target :=
    match arg_target a with Some t => t | None => EmptyString end) in H.
  destruct (parse_settings
              (match arg_target a with Some t => t | None => EmptyString end)
              (s0 :: later)) as [config_data out].
  simpl in H. subst config_data. now repeat split.
Qed.

Lemma main_early_exit_witness :
  ending_of (main (mkArgs "localhost" 1883 None None "nuki/hub"
                     false false None None "coredump.hex" (Some "lock")
                     ["name"; "ledBrightness"])
               (mkEnv "usage" None None 0 [] no_coredump []))
  = SysExit 1.
Proof.
  apply (main_early_exit
           (mkArgs "localhost" 1883 None None "nuki/hub"
              false false None None "coredump.hex" (Some "lock")
              ["name"; "ledBrightness"])
           (mkEnv "usage" None None 0 [] no_coredump []) eq_refl).
  right. right. intros s [<- | [<- | []]]; reflexivity.
Defined.

(** The calls of a discovery session that returns. *)
Lemma wait_for_ip_calls (self : NukiConfigClient) (timeout start_time : Q)
    (polls : list poll) (r : option string) (self' : NukiConfigClient) :
  wait_for_ip self timeout start_time polls = (Returned r, self') ->
  client self'
  = (client self
     ++ subscribe (ip_topic (base_topic self))
        :: match r with
           | Some _ => [unsubscribe (ip_topic (base_topic self))]
           | None => []
           end)%list.
Proof.
  destruct r as [a|].
  - rewrite wait_for_ip_unfold.
    destruct (wait_for_ip_loop timeout start_time polls (discovering self))
      as [[s1|[s1 later]]|] eqn:Hloop; try discriminate.
    intros [= Ha <-]. rewrite returning_client.
    pose proof (wait_for_ip_loop_client _ _ _ _ _ Hloop) as Hc.
    change (client s1 = client (discovering self)) in Hc. rewrite Hc.
    change (client (discovering self))
      with (client self ++ [subscribe (ip_topic (base_topic self))])%list.
    now rewrite <- app_assoc.
  - apply wait_for_ip_none_calls.
Qed.

Lemma wait_for_ip_never_raises (self : NukiConfigClient) (timeout start_time : Q)
    (polls : list poll) (err : string) (self' : NukiConfigClient) :
  wait_for_ip self timeout start_time polls <> (Raised err, self').
Proof.
  rewrite wait_for_ip_unfold.
  destruct (wait_for_ip_loop timeout start_time polls (discovering self))
    as [[s1|[s1 later]]|]; discriminate.
Qed.

Lemma print_client (p : printed) (self : NukiConfigClient) :
  client (print p self) = client self.
Proof. reflexivity. Qed.

(** [fetch_coredump] adds to the calls on the transport those of its
    discovery session and no other, also when it raises. *)
Lemma fetch_coredump_calls (self : NukiConfigClient)
    (web_user web_password : option string) (output_file : string)
    (start_time : Q) (polls : list poll) (world : World) (fs : files)
    (r : outcome unit) (self' : NukiConfigClient) (fs' : files) :
  fetch_coredump self web_user web_password output_file start_time polls world fs
  = (r, self', fs') ->
  r <> Pending ->
  exists extra,
    client self' = (client self ++ extra)%list
    /\ forallb session_call extra = true.
Proof.
  unfold fetch_coredump.
  destruct (wait_for_ip (print (Line "Waiting for Nuki Hub IP address...") self)
              10 start_time polls) as [[ip|err|] found] eqn:Hw;
    [| now elim (wait_for_ip_never_raises _ _ _ _ _ _ Hw)
     | intros [= <- _ _] H; now elim H].
  pose proof (wait_for_ip_calls _ _ _ _ _ _ Hw) as Hc.
  rewrite print_client in Hc.
  assert (Hex : exists extra,
            client found = (client self ++ extra)%list
            /\ forallb session_call extra = true).
  { eexists. split; [exact Hc|]. now destruct ip. }
  cbv zeta.
  repeat match goal with
         | |- context [match ?x with _ => _ end] => destruct x
         end;
    intros [= _ <- _] _; exact Hex.
Qed.

(** [fetch_coredump] returns, unless the set-up of the credentials raises;
    then no file is written. *)
Lemma fetch_coredump_outcome (self : NukiConfigClient)
    (web_user web_password : option string) (output_file : string)
    (start_time : Q) (polls : list poll) (world : World) (fs : files)
    (r : outcome unit) (self' : NukiConfigClient) (fs' : files) :
  fetch_coredump self web_user web_password output_file start_time polls world fs
  = (r, self', fs') ->
  r = Pending \/ r = Returned tt
  \/ exists ip u p err,
       web_user = Some u /\ web_password = Some p
       /\ add_password world (coredump_url ip) u p = Some err
       /\ r = Raised err /\ fs' = fs.
Proof.
  unfold fetch_coredump.
  destruct (wait_for_ip (print (Line "Waiting for Nuki Hub IP address...") self)
              10 start_time polls) as [[ip|err|] found] eqn:Hw;
    [| now elim (wait_for_ip_never_raises _ _ _ _ _ _ Hw)
     | intros [= <- _ _]; now left].
  destruct (negb (Py.truthy ip)); [intros [= <- _ _]; right; now left|].
  cbv zeta.
  destruct web_user as [u|], web_password as [p|];
    try destruct (Py.truthy (Some u) && Py.truthy (Some p)).
  1: destruct (add_password world _ u p) as [err|] eqn:Ha;
    [intros [= <- _ <-]; right; right;
     exists (match ip with Some a => a | None => EmptyString end), u, p, err;
     repeat split; exact Ha |].
  all: repeat match goal with
              | |- context [match ?x with _ => _ end] => destruct x
              end;
    intros [= <- _ _]; right; now left.
Qed.

Lemma connect_in_calls (e : Env) (self : NukiConfigClient)
    (r : outcome unit) (self' : NukiConfigClient) :
  connect_in e self = (r, self') ->
  r <> Pending
  /\ client self'
     = (client self
        ++ connect_to (broker self) (port self) 60
           :: match r with Returned _ => [loop_start] | _ => [] end)%list.
Proof.
  unfold connect_in. destruct (env_connect_error e) as [err|].
  - intros [= <- <-]. split; [discriminate | reflexivity].
  - intros [= <- <-]. split; [discriminate|].
    destruct (env_connack e) as [[rc rc_text]|].
    + unfold on_connect. destruct (rc =? 0)%Z; rewrite print_client;
        unfold connect; rewrite !call_client; now rewrite <- app_assoc.
    + unfold connect. rewrite !call_client. now rewrite <- app_assoc.
Qed.

Lemma calls_of_run_of (x : ending) (self : NukiConfigClient) (fs : files) :
  calls_of (run_of x self fs) = client self.
Proof. reflexivity. Qed.

Lemma disconnect_client (self : NukiConfigClient) :
  client (disconnect self) = (client self ++ [loop_stop; disconnect_from])%list.
Proof. unfold disconnect. rewrite !call_client. now rewrite <- app_assoc. Qed.

Lemma with_stdout_client (out : list printed) (self : NukiConfigClient) :
  client (with_stdout out self) = client self.
Proof. reflexivity. Qed.

(** X15.  Every run of [main] that is over has either made no call on the
    transport, or has connected once and, last of all, stopped the loop and
    disconnected, also when the connection or the request raised; in
    between come no other connection and no disconnection. *)
Theorem main_disconnects (a : Args) (e : Env) :
  ending_of (main a e) <> Running ->
  calls_of (main a e) = [] \/ paired a (calls_of (main a e)).
Proof.
  unfold main, paired, credentials_calls.
  set (c0 := init (arg_broker a) (arg_port a) (arg_user a) (arg_password a)
               (arg_topic a)).
  destruct (arg_fetch_coredump a).
  - destruct (connect_in e c0) as [[u|err|] c1] eqn:Hc;
      destruct (connect_in_calls _ _ _ _ Hc) as [Hp Hc1].
    + destruct (fetch_coredump c1 (arg_web_user a) (arg_web_password a)
                  (arg_output a) (env_start_time e) (env_polls e)
                  (env_world e) (env_files e)) as [[[u'|err|] c2] fs] eqn:Hf.
      * destruct (fetch_coredump_calls _ _ _ _ _ _ _ _ _ _ _ Hf)
          as [extra [Hc2 Hx]]; [discriminate|].
        intros _. right. exists (loop_start :: extra). rewrite calls_of_run_of.
        rewrite disconnect_client, Hc2, Hc1. split.
        -- rewrite <- !app_assoc. reflexivity.
        -- exact Hx.
      * destruct (fetch_coredump_calls _ _ _ _ _ _ _ _ _ _ _ Hf)
          as [extra [Hc2 Hx]]; [discriminate|].
        intros _. right. exists (loop_start :: extra). rewrite calls_of_run_of.
        rewrite disconnect_client, Hc2, Hc1. split.
        -- rewrite <- !app_assoc. reflexivity.
        -- exact Hx.
      * intros H. now elim H.
    + intros _. right. exists []. rewrite calls_of_run_of.
      rewrite disconnect_client, Hc1. split; [|reflexivity].
      now rewrite <- !app_assoc.
    + now elim Hp.
  - destruct (negb (Py.truthy (arg_target a))); [now left|].
    destruct (arg_list_settings a); [now left|].
    destruct (arg_settings a) as [|s0 later]; [now left|].
    destruct (parse_settings _ (s0 :: later)) as [[|kv config] out];
      [now left|].
    set (target := match arg_target a with Some t => t | None => EmptyString end).
    destruct (connect_in e (with_stdout (map Line out) c0)) as [[u|err|] c1] eqn:Hc;
      destruct (connect_in_calls _ _ _ _ Hc) as [Hp Hc1];
      rewrite with_stdout_client in Hc1.
    + destruct (update_config c1 target (kv :: config) 10 (env_start_time e)
                  (env_polls e)) as [[v|err|] c2] eqn:Hu.
      * intros _. right.
        destruct (valid_target target) eqn:Hv.
        -- pose proof (update_config_calls _ _ _ _ _ _ _ _ Hv Hu) as Hc2.
           eexists (loop_start :: _). rewrite calls_of_run_of.
           rewrite disconnect_client, Hc2, Hc1. split.
           ++ rewrite <- !app_assoc. reflexivity.
           ++ reflexivity.
        -- exfalso. unfold valid_target in Hv.
           apply orb_false_elim in Hv. destruct Hv as [Hv Ho].
           apply orb_false_elim in Hv. destruct Hv as [Hh Hl].
           unfold update_config in Hu. rewrite Hh, Hl, Ho in Hu. discriminate.
      * intros _. right. exists [loop_start]. rewrite calls_of_run_of.
        assert (Hc2 : client c2 = client c1).
        { revert Hu. unfold update_config.
          destruct (if String.eqb target "hub" then Some (base_topic c1)
                    else if String.eqb target "lock"
                         then Some (base_topic c1 ++ "/lock")
                         else if String.eqb target "opener"
                              then Some (base_topic c1 ++ "/opener")
                              else None) as [tb|]; [|now intros [= _ <-]].
          cbv zeta.
          match goal with
          | |- context [update_config_loop ?t ?s ?p ?x] =>
              destruct (update_config_loop t s p x) as [[s1 rest]|]
          end; discriminate. }
        rewrite disconnect_client, Hc2, Hc1. split; [|reflexivity].
        now rewrite <- !app_assoc.
      * intros H. now elim H.
    + intros _. right. exists []. rewrite calls_of_run_of.
      rewrite disconnect_client, Hc1. split; [|reflexivity].
      now rewrite <- !app_assoc.
    + now elim Hp.
Qed.

Lemma main_disconnects_witness :
  calls_of (main (mkArgs "localhost" 1883 None None "nuki/hub"
                    false true None None "coredump.hex" None [])
              (mkEnv "usage" (Some "ConnectionRefusedError") None 0 []
                 no_coredump []))
  = []
  \/ paired (mkArgs "localhost" 1883 None None "nuki/hub"
               false true None None "coredump.hex" None [])
       (calls_of (main (mkArgs "localhost" 1883 None None "nuki/hub"
                          false true None None "coredump.hex" None [])
                    (mkEnv "usage" (Some "ConnectionRefusedError") None 0 []
                       no_coredump []))).
Proof.
  apply main_disconnects. discriminate.
Defined.


(** [fetch_coredump] writes the output file or no file. *)
Lemma fetch_coredump_files (self : NukiConfigClient)
    (web_user web_password : option string) (output_file : string)
    (start_time : Q) (polls : list poll) (world : World) (fs : files)
    (r : outcome unit) (self' : NukiConfigClient) (fs' : files) :
  fetch_coredump self web_user web_password output_file start_time polls world fs
  = (r, self', fs') ->
  fs' = fs \/ exists data, fs' = dict_set fs output_file data.
Proof.
  unfold fetch_coredump. cbv zeta.
  repeat match goal with
         | |- context [match ?x with _ => _ end] => destruct x
         end;
    intros [= _ _ <-];
    first [now left | right; eexists; reflexivity].
Qed.

(** X16.  With [--fetch-coredump], a run that has connected and is over
    ends by [sys.exit(0)], whether or not a dump was saved: no address
    announced, an HTTP error and a failed download all give the status 0.
    The one other ending is the exception of the set-up of the web
    credentials, which leaves [main] with no file written; it needs both
    credentials given.  The run writes the output file or no file. *)
Theorem main_fetch_exit_status (a : Args) (e : Env) :
  arg_fetch_coredump a = true ->
  env_connect_error e = None ->
  ending_of (main a e) <> Running ->
  (ending_of (main a e) = SysExit 0
   \/ exists ip u p err,
        arg_web_user a = Some u /\ arg_web_password a = Some p
        /\ add_password (env_world e) (coredump_url ip) u p = Some err
        /\ ending_of (main a e) = Propagates err
        /\ files_of (main a e) = env_files e)
  /\ (arg_web_user a = None \/ arg_web_password a = None
      \/ (forall url u p, add_password (env_world e) url u p = None) ->
      ending_of (main a e) = SysExit 0)
  /\ (files_of (main a e) = env_files e
      \/ exists data,
           files_of (main a e) = dict_set (env_files e) (arg_output a) data).
Proof.
  intros Hf He. unfold main. rewrite Hf.
  unfold connect_in. rewrite He.
  match goal with
  | |- context [fetch_coredump ?c ?u ?p ?o ?s ?l ?h ?f] =>
      destruct (fetch_coredump c u p o s l h f) as [[[u'|err|] c2] fs] eqn:Hfc
  end.
  - intros _. split; [now left|]. split; [reflexivity|].
    exact (fetch_coredump_files _ _ _ _ _ _ _ _ _ _ _ Hfc).
  - intros _.
    destruct (fetch_coredump_outcome _ _ _ _ _ _ _ _ _ _ _ Hfc)
      as [H | [H | [ip [u [p [err' [Hu [Hp [Ha [Hr ->]]]]]]]]]];
      try discriminate H.
    injection Hr as ->.
    split; [| split].
    + right. exists ip, u, p, err'. now repeat split.
    + intros [H | [H | H]]; [congruence | congruence |].
      rewrite H in Ha. discriminate.
    + now left.
  - intros H. now elim H.
Qed.

Lemma main_fetch_exit_status_witness :
  ending_of (main (mkArgs "localhost" 1883 None None "nuki/hub"
                     false true None None "coredump.hex" None [])
               (mkEnv "usage" None (Some (0%Z, "Success")) 0
                  [([], 11)] no_coredump []))
  = SysExit 0.
Proof.
  apply (main_fetch_exit_status
           (mkArgs "localhost" 1883 None None "nuki/hub"
              false true None None "coredump.hex" None [])
           (mkEnv "usage" None (Some (0%Z, "Success")) 0
              [([], 11)] no_coredump []) eq_refl eq_refl).
  - vm_compute. discriminate.
  - left. reflexivity.
Defined.

(** X17.  A run that sends settings to a target of the parser's choices,
    has connected and is over, returns (the process status is 0) whether
    the device answered or the wait timed out.  Its calls on the transport
    are the credentials, the connection, one subscribe, one publish of the
    coerced settings as JSON, one unsubscribe and the disconnection; it
    writes no file. *)
Theorem main_update_run (a : Args) (e : Env) (target : string) :
  arg_fetch_coredump a = false ->
  arg_list_settings a = false ->
  arg_target a = Some target ->
  valid_target target = true ->
  fst (parse_settings target (arg_settings a)) <> [] ->
  env_connect_error e = None ->
  ending_of (main a e) <> Running ->
  ending_of (main a e) = Returns
  /\ calls_of (main a e)
     = (credentials_calls a
        ++ [connect_to (arg_broker a) (arg_port a) 60; loop_start;
            subscribe (result_topic (arg_topic a) target);
            publish (action_topic (arg_topic a) target)
                    (Json.dumps (fst (parse_settings target (arg_settings a))));
            unsubscribe (result_topic (arg_topic a) target);
            loop_stop; disconnect_from])%list
  /\ files_of (main a e) = env_files e.
Proof.
  intros Hf Hl Ht Hv Hne He. unfold main. rewrite Hf, Hl, Ht.
  assert (Htr : Py.truthy (Some target) = true).
  { destruct (valid_target_cases _ Hv) as [-> | [-> | ->]]; reflexivity. }
  rewrite Htr. cbn [negb].
  destruct (arg_settings a) as [|s0 later] eqn:Hs; [now elim Hne|].
  destruct (parse_settings target (s0 :: later)) as [config_data out] eqn:Hp.
  cbn [fst] in Hne |- *.
  destruct config_data as [|kv config]; [now elim Hne|].
  set (c0 := with_stdout (map Line out)
               (init (arg_broker a) (arg_port a) (arg_user a) (arg_password a)
                     (arg_topic a))).
  destruct (connect_in e c0) as [[u|err|] c1] eqn:Hc.
  - destruct (connect_in_calls _ _ _ _ Hc) as [_ Hc1].
    assert (Hb : base_topic c1 = arg_topic a).
    { revert Hc. unfold connect_in. rewrite He.
      destruct (env_connack e) as [[rc rc_text]|]; intros [= _ <-];
        [unfold on_connect; destruct (rc =? 0)%Z|]; reflexivity. }
    destruct (update_config c1 target (kv :: config) 10 (env_start_time e)
                (env_polls e)) as [[v|err|] c2] eqn:Hu.
    + intros _. pose proof (update_config_calls _ _ _ _ _ _ _ _ Hv Hu) as Hc2.
      rewrite calls_of_run_of, disconnect_client, Hc2, Hc1, Hb.
      split; [reflexivity|]. split; [|reflexivity].
      unfold c0. rewrite with_stdout_client. unfold credentials_calls.
      rewrite <- !app_assoc. reflexivity.
    + exfalso. rewrite (update_config_valid _ _ _ _ _ _ Hv) in Hu.
      destruct (update_config_loop _ _ _ _) as [[s1 rest]|]; discriminate.
    + intros H. now elim H.
  - exfalso. revert Hc. unfold connect_in. rewrite He. discriminate.
  - intros H. now elim H.
Qed.

Lemma main_update_run_witness :
  ending_of (main (mkArgs "localhost" 1883 None None "nuki/hub"
                     false false None None "coredump.hex" (Some "lock")
                     ["ledBrightness=2"])
               (mkEnv "usage" None None 0 [([], 11)] no_coredump []))
  = Returns.
Proof.
  apply (main_update_run
           (mkArgs "localhost" 1883 None None "nuki/hub"
              false false None None "coredump.hex" (Some "lock")
              ["ledBrightness=2"])
           (mkEnv "usage" None None 0 [([], 11)] no_coredump [])
           "lock" eq_refl eq_refl eq_refl eq_refl).
  - vm_compute. discriminate.
  - reflexivity.
  - vm_compute. discriminate.
Defined.

(** X24.  At an address that cannot be split into host and path, with
    both web credentials given, the failure is not reported: the
    [ValueError] of [add_password], raised before the [try], leaves
    [fetch_coredump] and then [main]; the last line printed is the address.
    Without credentials the same address is reported as a fetch error,
    [urlopen] raising inside the [try]. *)
Theorem unsplit_address_not_classified :
  let polls := [([mkMessage "nuki/hub/info/nukiHubIp" "["], 1)] in
  let with_credentials :=
    fetch_coredump fresh_client (Some "admin") (Some "secret") "coredump.hex"
      0 polls unsplit [] in
  let without :=
    fetch_coredump fresh_client None None "coredump.hex" 0 polls unsplit [] in
  fst (fst with_credentials) = Raised "Invalid IPv6 URL"
  /\ last (stdout (snd (fst with_credentials))) (Line EmptyString)
     = Line "Nuki Hub IP: ["
  /\ ending_of (main (mkArgs "localhost" 1883 None None "nuki/hub" false true
                        (Some "admin") (Some "secret") "coredump.hex" None [])
                  (mkEnv "usage" None None 0 polls unsplit []))
     = Propagates "Invalid IPv6 URL"
  /\ fst (fst without) = Returned tt
  /\ last (stdout (snd (fst without))) (Line EmptyString)
     = Line "Error fetching coredump: Invalid IPv6 URL".
Proof. vm_compute. repeat split. Qed.

(** ** The listing of [--list-settings] *)

Lemma In_insert_sorted (k x : string) (l : list string) :
  In k (insert_sorted x l) <-> x = k \/ In k l.
Proof.
  induction l as [|y l IH]; [reflexivity|].
  cbn [insert_sorted]. destruct (String.leb x y); [reflexivity|].
  cbn [In]. rewrite IH. tauto.
Qed.

Lemma In_sorted (k : string) (l : list string) : In k (sorted l) <-> In k l.
Proof.
  induction l as [|x l IH]; [reflexivity|].
  unfold sorted in *. cbn [fold_right In]. rewrite In_insert_sorted, IH.
  reflexivity.
Qed.

Lemma In_key_lines (k : string) (l : list string) :
  In (key_line k) (map key_line (sorted l)) <-> In k l.
Proof.
  rewrite <- In_sorted, in_map_iff. split.
  - intros [x [Hx Hin]]. unfold key_line in Hx. now injection Hx as ->.
  - intros Hin. now exists k.
Qed.

Lemma listing_lock :
  listing "lock"
  = (Line "--- Available settings for lock ---"
     :: Line (String "010" "[Basic]")
     :: map key_line (sorted LOCK_CONFIG_KEYS_basic)
     ++ Line (String "010" "[Advanced]")
     :: map key_line (sorted LOCK_CONFIG_KEYS_advanced))%list.
Proof. reflexivity. Qed.

Lemma listing_opener :
  listing "opener"
  = (Line "--- Available settings for opener ---"
     :: Line (String "010" "[Basic]")
     :: map key_line (sorted OPENER_CONFIG_KEYS_basic)
     ++ Line (String "010" "[Advanced]")
     :: map key_line (sorted OPENER_CONFIG_KEYS_advanced))%list.
Proof. reflexivity. Qed.

Lemma listing_hub :
  listing "hub"
  = (Line "--- Available settings for hub ---"
     :: Line (String "010" "[Hub Settings]")
     :: map key_line (sorted HUB_CONFIG_KEYS))%list.
Proof. reflexivity. Qed.

(** X18.  For each target of the parser's choices, the keys that
    [--list-settings] shows are the keys the settings loop takes as valid
    for that target: a key is listed if and only if it is in the list the
    warning is checked against. *)
Theorem listing_shows_valid_keys (target key : string) :
  valid_target target = true ->
  In (key_line key) (listing target)
  <-> contains (valid_keys target) key = true.
Proof.
  intros Hv. rewrite contains_In.
  destruct (valid_target_cases _ Hv) as [-> | [-> | ->]].
  - rewrite listing_hub. change (valid_keys "hub") with HUB_CONFIG_KEYS.
    cbn [In]. rewrite In_key_lines. split; [|tauto].
    intros [H | [H | H]]; [discriminate | discriminate | exact H].
  - rewrite listing_lock.
    change (valid_keys "lock")
      with (LOCK_CONFIG_KEYS_basic ++ LOCK_CONFIG_KEYS_advanced)%list.
    cbn [In]. rewrite !in_app_iff. cbn [In]. rewrite !In_key_lines.
    split; [|tauto].
    intros [H | [H | [H | [H | H]]]]; try discriminate; tauto.
  - rewrite listing_opener.
    change (valid_keys "opener")
      with (OPENER_CONFIG_KEYS_basic ++ OPENER_CONFIG_KEYS_advanced)%list.
    cbn [In]. rewrite !in_app_iff. cbn [In]. rewrite !In_key_lines.
    split; [|tauto].
    intros [H | [H | [H | [H | H]]]]; try discriminate; tauto.
Qed.

Lemma listing_shows_valid_keys_witness :
  In (key_line "ledBrightness") (listing "lock").
Proof.
  apply (listing_shows_valid_keys "lock" "ledBrightness" eq_refl).
  reflexivity.
Defined.

(** ** The converter *)

Local Open Scope list_scope.

Lemma is_newline_cases (c : N) :
  is_newline c = false -> (c =? 10)%N = false /\ (c =? 13)%N = false.
Proof. unfold is_newline. intros H. now apply orb_false_elim in H. Qed.

Lemma one_line_cons (c : N) (l : text) :
  one_line (c :: l) = true -> is_newline c = false /\ one_line l = true.
Proof.
  unfold one_line. cbn [forallb]. intros H.
  apply andb_true_iff in H. destruct H as [H1 H2].
  split; [now apply negb_true_iff in H1 | exact H2].
Qed.

Lemma universal_newlines_line (l r : text) :
  one_line l = true ->
  Text.universal_newlines (l ++ r) = l ++ Text.universal_newlines r.
Proof.
  induction l as [|c l IH]; intros H; [reflexivity|].
  apply one_line_cons in H. destruct H as [Hc Hl].
  apply is_newline_cases in Hc. destruct Hc as [_ Hc].
  cbn [app Text.universal_newlines]. rewrite Hc. now rewrite IH.
Qed.

(** The line ends a text file may use. *)
Lemma universal_newlines_eol (eol r : text) :
  is_eol eol = true ->
  (eol = [13%N] -> forall d r', r = d :: r' -> d <> 10%N) ->
  Text.universal_newlines (eol ++ r) = 10%N :: Text.universal_newlines r.
Proof.
  intros He Hr. unfold is_eol in He.
  destruct eol as [|a [|b [|c eol]]]; try discriminate.
  - destruct (N.eqb_spec a 10) as [->|Ha].
    + reflexivity.
    + destruct (N.eqb_spec a 13) as [->|Hb]; [|discriminate].
      destruct r as [|d r']; [reflexivity|].
      cbn [app Text.universal_newlines N.eqb Pos.eqb].
      destruct (N.eqb_spec d 10) as [->|Hd]; [|reflexivity].
      now elim (Hr eq_refl 10%N r' eq_refl).
  - destruct (N.eqb_spec a 13) as [->|Ha]; [|discriminate].
    destruct (N.eqb_spec b 10) as [->|Hb]; [|discriminate].
    reflexivity.
Qed.

Lemma lines_head (eol : text) (ls : list text) (d : N) (r' : text) :
  eol = [13%N] ->
  Forall (fun l => one_line l = true) ls ->
  concat (map (fun l => l ++ eol) ls) = d :: r' ->
  d <> 10%N.
Proof.
  intros -> Hls. destruct Hls as [|l ls Hl Hls]; [discriminate|].
  cbn [map concat]. destruct l as [|c l].
  - intros [= <- _]. discriminate.
  - intros [= <- _]. apply one_line_cons in Hl. destruct Hl as [Hc _].
    apply is_newline_cases in Hc. destruct Hc as [Hc _].
    now apply N.eqb_neq.
Qed.

Lemma universal_newlines_lines (eol : text) (ls : list text) :
  is_eol eol = true ->
  Forall (fun l => one_line l = true) ls ->
  Text.universal_newlines (concat (map (fun l => l ++ eol) ls))
  = concat (map (fun l => l ++ [10%N]) ls).
Proof.
  intros He Hls. induction Hls as [|l ls Hl Hls IH]; [reflexivity|].
  cbn [map concat]. rewrite <- !app_assoc.
  rewrite (universal_newlines_line _ _ Hl).
  rewrite (universal_newlines_eol _ _ He).
  - now rewrite IH.
  - intros E d r'. now apply lines_head.
Qed.

Lemma readlines_line (l r : text) :
  one_line l = true ->
  Text.readlines (l ++ 10%N :: r) = (l ++ [10%N]) :: Text.readlines r.
Proof.
  induction l as [|c l IH]; intros H; [reflexivity|].
  apply one_line_cons in H. destruct H as [Hc Hl].
  apply is_newline_cases in Hc. destruct Hc as [Hc _].
  cbn [app Text.readlines]. rewrite Hc. now rewrite (IH Hl).
Qed.

Lemma readlines_lines (ls : list text) :
  Forall (fun l => one_line l = true) ls ->
  Text.readlines (concat (map (fun l => l ++ [10%N]) ls))
  = map (fun l => l ++ [10%N]) ls.
Proof.
  intros Hls. induction Hls as [|l ls Hl Hls IH]; [reflexivity|].
  cbn [map concat]. rewrite <- app_assoc. cbn [app].
  rewrite (readlines_line _ _ Hl). now rewrite IH.
Qed.

Lemma rstrip_line (l : text) : Text.rstrip (l ++ [10%N]) = Text.rstrip l.
Proof. unfold Text.rstrip. now rewrite rev_app_distr. Qed.

Lemma strip_line (l : text) : Text.strip (l ++ [10%N]) = Text.strip l.
Proof. unfold Text.strip. now rewrite rstrip_line. Qed.

Lemma lstrip_solid (c : N) (r : text) :
  Text.isspace c = false -> Text.lstrip (c :: r) = c :: r.
Proof. intros H. cbn [Text.lstrip]. now rewrite H. Qed.

Lemma rstrip_solid (r : text) (c : N) :
  Text.isspace c = false -> Text.rstrip (r ++ [c]) = r ++ [c].
Proof.
  intros H. unfold Text.rstrip. rewrite rev_app_distr. cbn [rev app].
  rewrite (lstrip_solid _ _ H). cbn [rev]. now rewrite rev_involutive.
Qed.

(** A text that neither begins nor ends with white space is left as it is
    by [strip]. *)
Lemma strip_solid (s : text) :
  Text.isspace (hd 0%N s) = false -> Text.isspace (last s 0%N) = false ->
  Text.strip s = s.
Proof.
  intros Hh Hl. destruct s as [|c r]; [reflexivity|].
  unfold Text.strip.
  destruct (exists_last (l := c :: r)) as [r' [d E]]; [discriminate|].
  rewrite E in Hl |- *. rewrite last_last in Hl.
  rewrite (rstrip_solid _ _ Hl). rewrite <- E.
  now apply lstrip_solid.
Qed.

(** *** Hexadecimal text *)

Lemma fromhex_from_byte (b : Byte.byte) (pos : nat) (r : text) :
  Text.fromhex_from pos (hex_of_byte b ++ r)
  = match Text.fromhex_from (S (S pos)) r with
    | inl data => inl (b :: data)
    | inr p => inr p
    end.
Proof. destruct b; reflexivity. Qed.

Lemma first_non_ascii_byte (b : Byte.byte) (pos : nat) (r : text) :
  Text.first_non_ascii pos (hex_of_byte b ++ r)
  = Text.first_non_ascii (S (S pos)) r.
Proof. destruct b; reflexivity. Qed.

Lemma solid_byte (b : Byte.byte) :
  forallb (fun c => negb (Text.isspace c)) (hex_of_byte b) = true.
Proof. destruct b; reflexivity. Qed.

Lemma hexlify_cons (b : Byte.byte) (data : list Byte.byte) :
  hexlify (b :: data) = hex_of_byte b ++ hexlify data.
Proof. reflexivity. Qed.

Lemma hexlify_app (a b : list Byte.byte) :
  hexlify (a ++ b) = hexlify a ++ hexlify b.
Proof. apply flat_map_app. Qed.

Lemma hexlify_concat (chunks : list (list Byte.byte)) :
  hexlify (concat chunks) = concat (map hexlify chunks).
Proof.
  induction chunks as [|ch chunks IH]; [reflexivity|].
  cbn [concat map]. now rewrite hexlify_app, IH.
Qed.

Lemma fromhex_from_hexlify (data : list Byte.byte) (pos : nat) :
  Text.fromhex_from pos (hexlify data) = inl data.
Proof.
  revert pos. induction data as [|b data IH]; intros pos; [reflexivity|].
  now rewrite hexlify_cons, fromhex_from_byte, IH.
Qed.

Lemma first_non_ascii_hexlify (data : list Byte.byte) (pos : nat) :
  Text.first_non_ascii pos (hexlify data) = None.
Proof.
  revert pos. induction data as [|b data IH]; intros pos; [reflexivity|].
  now rewrite hexlify_cons, first_non_ascii_byte, IH.
Qed.

(** [bytes.fromhex] reads back what [bytes.hex] wrote. *)
Lemma fromhex_hexlify (data : list Byte.byte) :
  Text.fromhex (hexlify data) = inl data.
Proof.
  unfold Text.fromhex.
  now rewrite first_non_ascii_hexlify, fromhex_from_hexlify.
Qed.

Lemma solid_hexlify (data : list Byte.byte) :
  forallb (fun c => negb (Text.isspace c)) (hexlify data) = true.
Proof.
  induction data as [|b data IH]; [reflexivity|].
  rewrite hexlify_cons, forallb_app, solid_byte. exact IH.
Qed.

Lemma solid_not_newline (c : N) :
  Text.isspace c = false -> is_newline c = false.
Proof.
  unfold is_newline. intros H.
  destruct (N.eqb_spec c 10) as [->|_]; [discriminate|].
  destruct (N.eqb_spec c 13) as [->|_]; [discriminate|]. reflexivity.
Qed.

Lemma solid_one_line (s : text) :
  forallb (fun c => negb (Text.isspace c)) s = true -> one_line s = true.
Proof.
  unfold one_line. induction s as [|c s IH]; [reflexivity|].
  cbn [forallb]. intros H. apply andb_true_iff in H. destruct H as [Hc Hs].
  apply negb_true_iff in Hc. rewrite (solid_not_newline _ Hc). now apply IH.
Qed.

Lemma strip_all_solid (s : text) :
  forallb (fun c => negb (Text.isspace c)) s = true -> Text.strip s = s.
Proof.
  intros H. apply strip_solid.
  - destruct s as [|c r]; [reflexivity|]. cbn [forallb] in H.
    apply andb_true_iff in H. now apply negb_true_iff.
  - destruct s as [|c r]; [reflexivity|].
    destruct (exists_last (l := c :: r)) as [r' [d E]]; [discriminate|].
    rewrite E in H |- *. rewrite last_last.
    rewrite forallb_app in H. apply andb_true_iff in H. destruct H as [_ H].
    cbn [forallb] in H. rewrite andb_true_r in H. now apply negb_true_iff.
Qed.

Lemma length_hexlify (data : list Byte.byte) :
  length (hexlify data) = (2 * length data)%nat.
Proof.
  induction data as [|b data IH]; [reflexivity|].
  rewrite hexlify_cons, List.length_app, IH. cbn [hex_of_byte length]. lia.
Qed.

Lemma even_hexlify (data : list Byte.byte) :
  (length (hexlify data) mod 2 =? 0)%nat = true.
Proof.
  rewrite length_hexlify, Nat.mul_comm, Nat.Div0.mod_mul. reflexivity.
Qed.

Lemma odd_hexlify (data : list Byte.byte) (c : N) :
  (length (hexlify data ++ [c]) mod 2 =? 0)%nat = false.
Proof.
  rewrite List.length_app, length_hexlify. cbn [length].
  replace (2 * length data + 1)%nat with (1 + length data * 2)%nat by lia.
  rewrite Nat.Div0.mod_add. reflexivity.
Qed.

Lemma strip_hex_lines (chunks : list (list Byte.byte)) :
  concat (map Text.strip (map (fun l => l ++ [10%N]) (map hexlify chunks)))
  = hexlify (concat chunks).
Proof.
  rewrite hexlify_concat. f_equal. rewrite !map_map. apply map_ext.
  intros ch. rewrite strip_line. apply strip_all_solid, solid_hexlify.
Qed.

(** X19.  Round trip.  A dump made of two header lines, whatever they
    hold, then the lower-case hexadecimal text of some bytes cut into one
    or more lines, all lines ended alike by LF, CR LF or CR, is converted
    to exactly those bytes, written to the output file when it can be
    written; the headers are printed stripped and no warning is given. *)
Theorem convert_round_trip (eol h1 h2 : text) (chunks : list (list Byte.byte))
    (input_file output_file : string)
    (write : string -> list Byte.byte -> stored) (fs : files) :
  is_eol eol = true ->
  one_line h1 = true -> one_line h2 = true ->
  chunks <> [] ->
  write output_file (concat chunks) = Stored ->
  convert_hex_to_bin
    (concat (map (fun l => l ++ eol) (h1 :: h2 :: map hexlify chunks)))
    input_file output_file write fs
  = (Returned tt,
     [Labelled "Header 1: " (Text.strip h1);
      Labelled "Header 2: " (Text.strip h2);
      Plain ("Successfully converted " ++ input_file ++ " to " ++ output_file)],
     dict_set fs output_file (concat chunks)).
Proof.
  intros He H1 H2 Hc Hw.
  assert (Hls : Forall (fun l => one_line l = true)
                  (h1 :: h2 :: map hexlify chunks)).
  { constructor; [exact H1|]. constructor; [exact H2|].
    apply Forall_forall. intros l Hl. apply in_map_iff in Hl.
    destruct Hl as [ch [<- _]]. apply solid_one_line, solid_hexlify. }
  unfold convert_hex_to_bin.
  rewrite (universal_newlines_lines _ _ He Hls), (readlines_lines _ Hls).
  cbv zeta.
  match goal with
  | |- context [(?n <? 3)%nat] => assert (Hn : (n <? 3)%nat = false)
  end.
  { destruct chunks as [|ch chunks]; [now elim Hc | reflexivity]. }
  rewrite Hn. cbn [map nth skipn].
  rewrite !strip_line, strip_hex_lines, even_hexlify. cbn [negb].
  now rewrite fromhex_hexlify, Hw.
Qed.

Lemma convert_round_trip_witness :
  snd (convert_hex_to_bin
         (concat (map (fun l => l ++ [13; 10]%N)
                    (Text.codes "v1" :: Text.codes " esp32 "
                     :: map hexlify [[Byte.x00; Byte.xff]; [Byte.x1a]])))
         "in.hex" "out.bin" writable [])
  = [("out.bin", [Byte.x00; Byte.xff; Byte.x1a])].
Proof.
  rewrite (convert_round_trip [13; 10]%N (Text.codes "v1")
             (Text.codes " esp32 ") [[Byte.x00; Byte.xff]; [Byte.x1a]]
             "in.hex" "out.bin" writable [] eq_refl eq_refl eq_refl).
  - reflexivity.
  - discriminate.
  - reflexivity.
Defined.

(** X20.  A data line with an odd number of characters loses its last
    character, whatever that character is (a digit, a letter, a character
    outside ASCII): after a warning the bytes before it are written, when
    the output file can be written, and the run reports success. *)
Theorem convert_drops_last_character (eol h1 h2 : text) (data : list Byte.byte)
    (c : N) (input_file output_file : string)
    (write : string -> list Byte.byte -> stored) (fs : files) :
  is_eol eol = true ->
  one_line h1 = true -> one_line h2 = true ->
  Text.isspace c = false ->
  write output_file data = Stored ->
  convert_hex_to_bin
    (concat (map (fun l => l ++ eol) [h1; h2; hexlify data ++ [c]]))
    input_file output_file write fs
  = (Returned tt,
     [Labelled "Header 1: " (Text.strip h1);
      Labelled "Header 2: " (Text.strip h2);
      Plain "Warning: Hex data length is not even. Truncating last character.";
      Plain ("Successfully converted " ++ input_file ++ " to " ++ output_file)],
     dict_set fs output_file data).
Proof.
  intros He H1 H2 Hc Hw.
  assert (Hs : forallb (fun c => negb (Text.isspace c)) (hexlify data ++ [c])
               = true).
  { rewrite forallb_app, solid_hexlify. cbn [forallb]. now rewrite Hc. }
  assert (Hls : Forall (fun l => one_line l = true)
                  [h1; h2; hexlify data ++ [c]]).
  { repeat constructor; [exact H1 | exact H2 | now apply solid_one_line]. }
  unfold convert_hex_to_bin.
  rewrite (universal_newlines_lines _ _ He Hls), (readlines_lines _ Hls).
  cbn [map length Nat.ltb Nat.leb nth skipn concat].
  rewrite !strip_line, app_nil_r, (strip_all_solid _ Hs), odd_hexlify.
  cbn [negb]. rewrite removelast_last. now rewrite fromhex_hexlify, Hw.
Qed.

Lemma convert_drops_last_character_witness :
  snd (convert_hex_to_bin
         (concat (map (fun l => l ++ [10]%N)
                    [Text.codes "v1"; Text.codes "esp32";
                     hexlify [Byte.xab] ++ [122%N]]))
         "in.hex" "out.bin" writable [])
  = [("out.bin", [Byte.xab])].
Proof.
  rewrite (convert_drops_last_character [10]%N (Text.codes "v1")
             (Text.codes "esp32") [Byte.xab] 122%N
             "in.hex" "out.bin" writable [] eq_refl eq_refl eq_refl eq_refl
             eq_refl).
  reflexivity.
Defined.

(** *** What [bytes.fromhex] accepts *)








(** *** The count of lines *)

Lemma length_readlines (t : text) :
  (length (Text.readlines t)
   <= S (length (filter (fun c => (c =? 10)%N) t)))%nat.
Proof.
  induction t as [|c r IH]; [cbn; lia|].
  cbn [Text.readlines filter]. destruct (c =? 10)%N.
  - cbn [length]. lia.
  - destruct (Text.readlines r) as [|line later]; cbn [length] in *; lia.
Qed.

Lemma line_feeds_universal_newlines (n : nat) :
  forall s : text,
    (length s <= n)%nat ->
    (length (filter (fun c => (c =? 10)%N) (Text.universal_newlines s))
     <= length (filter is_newline s))%nat.
Proof.
  induction n as [|n IH]; intros s Hn.
  - destruct s; [cbn; lia | cbn [length] in Hn; lia].
  - destruct s as [|c r]; [cbn; lia|].
    cbn [length] in Hn. cbn [Text.universal_newlines filter].
    unfold is_newline at 1.
    destruct (N.eqb_spec c 13) as [->|Hc].
    + cbn [N.eqb Pos.eqb orb filter length].
      destruct r as [|d r']; [cbn; lia|].
      destruct (N.eqb_spec d 10) as [->|Hd].
      * cbn [filter is_newline N.eqb Pos.eqb orb length].
        specialize (IH r'). cbn [length] in Hn. lia.
      * specialize (IH (d :: r')). lia.
    + rewrite orb_false_r. cbn [filter].
      destruct (c =? 10)%N; cbn [length]; specialize (IH r); lia.
Qed.

(** X22.  A dump with fewer than two line ends, or made of two header
    lines and nothing after them, is refused: the one line printed is the
    error, the headers are not shown and no file is written. *)
Theorem convert_too_short (content : text) (input_file output_file : string)
    (write : string -> list Byte.byte -> stored) (fs : files) :
  (length (filter is_newline content) < 2)%nat
  \/ (exists eol h1 h2,
        is_eol eol = true /\ one_line h1 = true /\ one_line h2 = true
        /\ content = concat (map (fun l => l ++ eol) [h1; h2])) ->
  convert_hex_to_bin content input_file output_file write fs
  = (Returned tt,
     [Plain "Error: Input file too short. Expected at least 3 lines."], fs).
Proof.
  intros H. unfold convert_hex_to_bin. cbv zeta.
  match goal with
  | |- context [(?n <? 3)%nat] => assert (Hn : (n <? 3)%nat = true)
  end.
  { apply Nat.ltb_lt. destruct H as [H | [eol [h1 [h2 [He [H1 [H2 ->]]]]]]].
    - pose proof (length_readlines (Text.universal_newlines content)).
      pose proof (line_feeds_universal_newlines _ content (le_n _)). lia.
    - assert (Hls : Forall (fun l => one_line l = true) [h1; h2])
        by now repeat constructor.
      rewrite (universal_newlines_lines _ _ He Hls), (readlines_lines _ Hls).
      cbn [map length]. lia. }
  now rewrite Hn.
Qed.

Lemma convert_too_short_witness :
  convert_hex_to_bin (Text.codes ("v1" ++ String "010" "00ff"))
    "in.hex" "out.bin" writable []
  = (Returned tt,
     [Plain "Error: Input file too short. Expected at least 3 lines."], []).
Proof.
  apply convert_too_short. left. cbn. lia.
Defined.

(** *** The files of a conversion *)

Lemma convert_files (content : text) (input_file output_file : string)
    (write : string -> list Byte.byte -> stored) (fs : files) :
  snd (convert_hex_to_bin content input_file output_file write fs) = fs
  \/ exists data,
       snd (convert_hex_to_bin content input_file output_file write fs)
       = dict_set fs output_file data.
Proof.
  unfold convert_hex_to_bin. cbv zeta.
  destruct (length _ <? 3)%nat; [now left|].
  destruct (negb _);
    (destruct (Text.fromhex _) as [data|p]; [| now left];
     destruct (write output_file data) as [|message|e [partial|]];
     [right; now exists data | now left | right; now exists partial | now left]).
Qed.

(** X23.  The script touches one file at most, the one named by its second
    argument: every file of another name is after the run what it was
    before, whatever the input holds, whether or not the conversion succeeds
    and however the writing ends; with a number of arguments other than two
    the usage line is printed and nothing is written. *)
Theorem convert_coredump_touches_only_output (argv : list string)
    (read : string -> text) (write : string -> list Byte.byte -> stored)
    (fs : files) :
  (forall name,
     nth_error argv 2 <> Some name ->
     dict_get (snd (convert_coredump argv read write fs)) name
     = dict_get fs name)
  /\ (length argv <> 3%nat ->
      convert_coredump argv read write fs
      = (Returned tt,
         [Plain "Usage: python convert_coredump.py <input.hex> <output.bin>"],
         fs)).
Proof.
  split.
  - intros name H. unfold convert_coredump.
    destruct argv as [|a0 [|a1 [|a2 [|a3 rest]]]]; try reflexivity.
    assert (Hne : name <> a2) by (intros ->; now apply H).
    destruct (convert_files (read a1) a1 a2 write fs) as [-> | [data ->]];
      [reflexivity | now apply dict_get_set_other].
  - intros H. unfold convert_coredump.
    destruct argv as [|a0 [|a1 [|a2 [|a3 rest]]]]; try reflexivity.
    now elim H.
Qed.

Lemma convert_coredump_touches_only_output_witness :
  dict_get
    (snd (convert_coredump ["convert_coredump.py"; "in.hex"; "out.bin"]
            (fun _ => Text.codes ("v1" ++ String "010" ("esp32" ++ String "010" "00ff"))%string)
            writable
            [("in.hex", [Byte.x76])]))
    "in.hex"
  = Some [Byte.x76]
  /\ convert_coredump ["convert_coredump.py"; "in.hex"]
       (fun _ => []) writable [("in.hex", [Byte.x76])]
     = (Returned tt,
        [Plain "Usage: python convert_coredump.py <input.hex> <output.bin>"],
        [("in.hex", [Byte.x76])]).
Proof.
  split.
  - apply (proj1 (convert_coredump_touches_only_output
                    ["convert_coredump.py"; "in.hex"; "out.bin"]
                    (fun _ => Text.codes ("v1" ++ String "010" ("esp32" ++ String "010" "00ff"))%string)
                    writable [("in.hex", [Byte.x76])])).
    discriminate.
  - apply (proj2 (convert_coredump_touches_only_output
                    ["convert_coredump.py"; "in.hex"]
                    (fun _ => []) writable [("in.hex", [Byte.x76])])).
    discriminate.
Defined.
